(** * Multi-validator consensus engine: a shallow embedding

    Source: [proxy_server/managers/multi_validator_manager.py].

    Conventions of the embedding.
    - The code that computes with floats is read twice.  In the exact
      reading a Python [float] is a rational ([Q]), equalities between
      computed floats are stated with [==] and rounding is not
      modelled: it serves the properties that no rounding changes.  In
      the reading of module [FP] the arithmetic of the interpreter is a
      structure ([Arithmetic]), of which the IEEE 754 doubles
      ([binary64]) are an instance: it serves the properties that
      depend on what the floats are.
    - A [datetime] is a number of microseconds ([Z]); a [timedelta] too.
    - A payload ([miner_status]) is a Python dict: an insertion-ordered
      association list with string keys.
    - An exception is a [Raise] result; [try]/[except] is a match on it.
    - Printing is not modelled. *)

From Stdlib Require Import ZArith QArith Qminmax String List Bool Lia Lqa.
From Stdlib Require Floats Uint63.
Import ListNotations.

Set Implicit Arguments.

(** ** Python values and dicts *)

Inductive pyval : Type :=
| VNone
| VBool (b : bool)
| VInt (z : Z)
| VFloat (q : Q)
| VStr (s : string).

Inductive exn : Type :=
| StoreError
| TypeError
| ValueError
| IndexError
| OverflowError
| ZeroDivisionError.

Inductive result (A : Type) : Type :=
| Ok (a : A)
| Raise (e : exn).

Arguments Ok {A} a.
Arguments Raise {A} e.

(** The number a value stands for in arithmetic and in comparisons
    ([bool] is a subtype of [int] in Python). *)
Definition num_of (v : pyval) : option Q :=
  match v with
  | VBool b => Some (if b then 1 else 0)%Q
  | VInt z => Some (inject_Z z)
  | VFloat q => Some q
  | VNone | VStr _ => None
  end.

(** Python's [==] on hashable scalars, the equality of dict keys:
    [True == 1 == 1.0]. *)
Definition py_eqb (a b : pyval) : bool :=
  match num_of a, num_of b with
  | Some x, Some y => Qeq_bool x y
  | None, None =>
      match a, b with
      | VNone, VNone => true
      | VStr s, VStr t => String.eqb s t
      | _, _ => false
      end
  | _, _ => false
  end.

Section Dict.
Variables K V : Type.
Variable keq : K -> K -> bool.

(** [d.get(k)] *)
Fixpoint dict_get (k : K) (d : list (K * V)) : option V :=
  match d with
  | [] => None
  | (k', v) :: d' => if keq k' k then Some v else dict_get k d'
  end.

(** [k in d] *)
Definition dict_mem (k : K) (d : list (K * V)) : bool :=
  match dict_get k d with Some _ => true | None => false end.

(** [d[k] = v]: an existing key keeps its place (and its key object),
    a new key goes last. *)
Fixpoint dict_set (k : K) (v : V) (d : list (K * V)) : list (K * V) :=
  match d with
  | [] => [(k, v)]
  | (k', v') :: d' =>
      if keq k' k then (k', v) :: d' else (k', v') :: dict_set k v d'
  end.

(** [list(d.keys())] *)
Definition dict_keys (d : list (K * V)) : list K := map fst d.

(** Keys in order of first occurrence: what remains of a list once it
    has been poured into a dict or a set. *)
Fixpoint dedup (l : list K) : list K :=
  match l with
  | [] => []
  | x :: l' => x :: filter (fun y => negb (keq x y)) (dedup l')
  end.
End Dict.

Definition payload : Type := list (string * pyval).

Definition pget (k : string) (d : payload) : option pyval :=
  dict_get String.eqb k d.

Definition pmem (k : string) (d : payload) : bool :=
  dict_mem String.eqb k d.

(** ** The data model *)

Record ValidatorReport : Type := mkReport {
  validator_uid : Z;
  miner_uid : pyval;
  timestamp : Z;
  epoch : Z;
  miner_status : payload;
  confidence_score : Q
}.

(** ** Float helpers: [sum], [min], [max] as Python evaluates them *)

Definition sumQ (l : list Q) : Q := fold_left Qplus l 0%Q.

Definition Qltb (a b : Q) : bool := negb (Qle_bool b a).

(** [min(a, b)] returns [a] unless [b < a]. *)
Definition py_min (a b : Q) : Q := if Qltb b a then b else a.

(** [max(a, b)] returns [a] unless [b > a]. *)
Definition py_max (a b : Q) : Q := if Qltb a b then b else a.

(** [max(w :: ws)] *)
Definition max_of (w : Q) (ws : list Q) : Q := fold_left py_max ws w.

Definition float_of_nat (n : nat) : Q := inject_Z (Z.of_nat n).

(** ** Field aggregation *)

Section Aggregation.
Local Open Scope Q_scope.

(** [_weighted_average], lines 308-319. *)
Definition _weighted_average (values weights : list Q) : Q :=
  match values, weights with
  | [], _ | _, [] => 0
  | _ :: _, _ :: _ =>
      let total_weight := sumQ weights in
      if Qeq_bool total_weight 0
      then sumQ values / float_of_nat (length values)
      else
        let weighted_sum :=
          sumQ (map (fun vw => fst vw * snd vw) (combine values weights)) in
        weighted_sum / total_weight
  end.

(** One turn of the counting loop of [_majority_vote]. *)
Definition count_value (value_counts : list (pyval * Q)) (vw : pyval * Q)
  : list (pyval * Q) :=
  let (value, weight) := vw in
  let value_counts :=
    if dict_mem py_eqb value value_counts then value_counts
    else dict_set py_eqb value 0 value_counts in
  match dict_get py_eqb value value_counts with
  | Some c => dict_set py_eqb value (c + weight) value_counts
  | None => value_counts
  end.

(** [_majority_vote], lines 321-342. *)
Definition _majority_vote (values : list pyval) (weights : list Q)
  : pyval * bool :=
  match values with
  | [] => (VNone, false)
  | first :: _ =>
      let value_counts := fold_left count_value (combine values weights) [] in
      let total_weight := sumQ weights in
      let majority_threshold := total_weight * 0.6 in
      match find (fun vc => Qle_bool majority_threshold (snd vc)) value_counts with
      | Some (value, _) => (value, false)
      | None => (first, true)
      end
  end.

(** [max(rs, key=lambda r: r.timestamp)]: the first report with the
    greatest timestamp. *)
Definition latest (r : ValidatorReport) (rs : list ValidatorReport)
  : ValidatorReport :=
  fold_left (fun best r' => if (timestamp best <? timestamp r')%Z then r' else best)
            rs r.

(** [_most_recent_high_confidence], lines 344-359. *)
Definition _most_recent_high_confidence
    (values : list pyval) (weights : list Q) (reports : list ValidatorReport)
  : result pyval :=
  match values, reports with
  | [], _ | _, [] => Ok VNone
  | first :: _, _ :: _ =>
      match weights with
      | [] => Raise ValueError
      | w :: ws =>
          let max_confidence := max_of w ws in
          let high_confidence_reports :=
            map fst (filter (fun rw => Qle_bool (max_confidence * 0.8) (snd rw))
                            (combine reports weights)) in
          match high_confidence_reports with
          | r :: rs =>
              let most_recent := latest r rs in
              match dict_keys (miner_status most_recent) with
              | [] => Raise IndexError
              | key0 :: _ =>
                  match pget key0 (miner_status most_recent) with
                  | Some v => Ok v
                  | None => Ok VNone
                  end
              end
          | [] => Ok first
          end
      end
  end.

(** [_calculate_overall_confidence], lines 361-376. *)
Definition _calculate_overall_confidence (reports : list ValidatorReport) : Q :=
  match reports with
  | [] => 0
  | _ :: _ =>
      let avg_confidence :=
        sumQ (map confidence_score reports) / float_of_nat (length reports) in
      let validator_bonus :=
        py_min 0.2 (float_of_nat (length (dedup Z.eqb (map validator_uid reports))) * 0.1) in
      let conflict_penalty := 0 in
      py_min 1 (avg_confidence + validator_bonus - conflict_penalty)
  end.
End Aggregation.

(** ** The store, the cache and the clock *)

(** The id of a report document, [f"{validator}_{miner}_{%Y%m%d_%H%M%S}"]:
    the validator, the miner and the second of the report's timestamp.
    The store knows an id, and the name [str(miner_uid)] of a miner's
    document, as a text; the embedding compares the components, which
    is the same for uids of the declared type, ints ([is_int] below). *)
Definition doc_id : Type := (Z * pyval * Z)%type.

Definition doc_id_eqb (a b : doc_id) : bool :=
  let '(v1, m1, s1) := a in
  let '(v2, m2, s2) := b in
  (v1 =? v2)%Z && py_eqb m1 m2 && (s1 =? s2)%Z.

(** The per-miner "latest touch" document of [miner_status]. *)
Record MinerTouch : Type := mkTouch {
  last_updated : Z;
  last_reported_by_validator : Z;
  touch_epoch : Z;
  validator_reports_count : Z
}.

(** What a consensus-status dict holds: field values and the metadata. *)
Inductive cval : Type :=
| CVal (v : pyval)
| CTime (t : Z)
| CValidators (l : list Z)
| CConflicts (l : list (string * bool)).

Definition status : Type := list (string * cval).

Definition sget (k : string) (d : status) : option cval :=
  dict_get String.eqb k d.

Definition sset (k : string) (v : cval) (d : status) : status :=
  dict_set String.eqb k v d.

(** A document of [miner_consensus]. *)
Record ConsensusDoc : Type := mkConsensusDoc {
  cd_miner_uid : pyval;
  cd_consensus_status : status;
  cd_last_consensus : Z;
  cd_validator_reports_count : nat;
  cd_consensus_confidence : cval
}.

(** The requests made to the document store. *)
Inductive io_op : Type :=
| SetReport (id : doc_id)
| SetMinerStatus (uid : pyval)
| SetConsensus (uid : pyval)
| StreamReports (uid : pyval).

(** The manager's collections and cache, with two counters that tell
    the environment apart: the store requests made so far and the
    number of times the clock was read. *)
Record World : Type := mkWorld {
  validator_reports_collection : list (doc_id * ValidatorReport);
  miner_status_collection : list (pyval * MinerTouch);
  consensus_collection : list (pyval * ConsensusDoc);
  consensus_cache : list (pyval * status);
  last_cache_update : Z;
  io_log : list io_op;
  clock_reads : nat
}.

Definition log_io (op : io_op) (w : World) : World :=
  mkWorld (validator_reports_collection w) (miner_status_collection w)
          (consensus_collection w) (consensus_cache w) (last_cache_update w)
          (io_log w ++ [op]) (clock_reads w).

Definition tick_clock (w : World) : World :=
  mkWorld (validator_reports_collection w) (miner_status_collection w)
          (consensus_collection w) (consensus_cache w) (last_cache_update w)
          (io_log w) (S (clock_reads w)).

Definition put_report (id : doc_id) (r : ValidatorReport) (w : World) : World :=
  mkWorld (dict_set doc_id_eqb id r (validator_reports_collection w))
          (miner_status_collection w)
          (consensus_collection w) (consensus_cache w) (last_cache_update w)
          (io_log w) (clock_reads w).

(** [set({...}, merge=True)] with [Increment(1)] on the running count. *)
Definition merge_touch (uid : pyval) (r : ValidatorReport) (w : World) : World :=
  let count :=
    match dict_get py_eqb uid (miner_status_collection w) with
    | Some t => (validator_reports_count t + 1)%Z
    | None => 1%Z
    end in
  mkWorld (validator_reports_collection w)
          (dict_set py_eqb uid
             (mkTouch (timestamp r) (validator_uid r) (epoch r) count)
             (miner_status_collection w))
          (consensus_collection w) (consensus_cache w) (last_cache_update w)
          (io_log w) (clock_reads w).

(** [set(consensus_data, merge=True)]: the fields of the document are
    written over.  The embedding writes the status over as well, which
    is what the merge does where the miner had no document, or a status
    with no other key than the new one has, and where the new status is
    empty. *)
Definition put_consensus (uid : pyval) (d : ConsensusDoc) (w : World) : World :=
  mkWorld (validator_reports_collection w) (miner_status_collection w)
          (dict_set py_eqb uid d (consensus_collection w))
          (consensus_cache w) (last_cache_update w)
          (io_log w) (clock_reads w).

Definition put_cache (uid : pyval) (s : status) (w : World) : World :=
  mkWorld (validator_reports_collection w) (miner_status_collection w)
          (consensus_collection w)
          (dict_set py_eqb uid s (consensus_cache w)) (last_cache_update w)
          (io_log w) (clock_reads w).

Definition put_last_cache_update (t : Z) (w : World) : World :=
  mkWorld (validator_reports_collection w) (miner_status_collection w)
          (consensus_collection w) (consensus_cache w) t
          (io_log w) (clock_reads w).

(** ** Stateful code: state passing with exceptions

    A raised exception keeps the state reached so far, as in Python. *)

Definition M (S A : Type) : Type := S -> result A * S.

Definition ret {S A : Type} (a : A) : M S A := fun s => (Ok a, s).

Definition raise {S A : Type} (e : exn) : M S A := fun s => (Raise e, s).

Definition bind {S A B : Type} (m : M S A) (k : A -> M S B) : M S B :=
  fun s =>
    match m s with
    | (Ok a, s') => k a s'
    | (Raise e, s') => (Raise e, s')
    end.

(** [try: m except Exception as e: h e] *)
Definition try_except {S A : Type} (m : M S A) (h : exn -> M S A) : M S A :=
  fun s =>
    match m s with
    | (Ok a, s') => (Ok a, s')
    | (Raise e, s') => h e s'
    end.

Definition modify {S : Type} (f : S -> S) : M S unit := fun s => (Ok tt, f s).

(** Run code of the manager in a frame that has local variables [L]. *)
Definition in_frame {L A : Type} (m : M World A) : M (L * World) A :=
  fun lw =>
    let (l, w) := lw in
    let (r, w') := m w in (r, (l, w')).

Declare Scope py_scope.
Delimit Scope py_scope with py.
Notation "x <- m ;; k" := (bind m (fun x => k))
  (at level 100, m at next level, right associativity) : py_scope.
Notation "m ;;; k" := (bind m (fun _ => k))
  (at level 100, right associativity) : py_scope.

(** A set of strings is iterated in an order that depends on the
    process's hash seed.  [shuffle seed l] inserts each element at the
    position the seed gives; every order of [l] arises from some seed. *)
Fixpoint insert_at {A : Type} (n : nat) (x : A) (l : list A) : list A :=
  match n, l with
  | O, _ => x :: l
  | S _, [] => [x]
  | S n', y :: l' => y :: insert_at n' x l'
  end.

Fixpoint shuffle {A : Type} (seed : list nat) (l : list A) : list A :=
  match l with
  | [] => []
  | x :: l' => insert_at (hd O seed) x (shuffle (tl seed) l')
  end.

(** What [datetime.fromisoformat(v)] makes of a payload value. *)
Inductive parsed_datetime : Type :=
| Unparsable            (* raises: not a string, or not ISO format *)
| Aware                 (* carries a UTC offset: not comparable with now() *)
| Naive (t : Z).

(** Configuration set in [__init__]. *)
Definition min_consensus_validators : nat := 2.
Definition minutes (n : Z) : Z := (n * 60 * 1000000)%Z.
Definition consensus_timeout : Z := minutes 5.

Inductive ReceiveResult : Type :=
| Success (miners_processed consensus_updated validator : Z) (ep : Z)
| Failure (error : exn) (validator : Z).

(** ** The manager *)

Section Engine.
(** The environment: what the [n]-th reading of the clock returns,
    whether the [n]-th request to the store fails, the hash seed of the
    process, and the ISO-8601 parser of the standard library. *)
Variable clock : nat -> Z.
Variable io_fails : nat -> bool.
Variable hash_seed : list nat.
Variable fromisoformat : pyval -> parsed_datetime.

Local Open Scope py_scope.

(** [datetime.now()] *)
Definition datetime_now : M World Z :=
  fun w => (Ok (clock (clock_reads w)), tick_clock w).

(** A write to the store: it is logged, then fails or takes effect. *)
Definition store_write (op : io_op) (commit : World -> World) : M World unit :=
  fun w =>
    if io_fails (length (io_log w))
    then (Raise StoreError, log_io op w)
    else (Ok tt, commit (log_io op w)).

(** [collection.where('miner_uid', '==', uid).stream()] *)
Definition stream_reports (uid : pyval) : M World (list ValidatorReport) :=
  fun w =>
    if io_fails (length (io_log w))
    then (Raise StoreError, log_io (StreamReports uid) w)
    else (Ok (map snd (filter (fun d => py_eqb (miner_uid (snd d)) uid)
                              (validator_reports_collection w))),
          log_io (StreamReports uid) w).

(** [_store_validator_report], lines 148-169. *)
Definition _store_validator_report (report : ValidatorReport) : M World unit :=
  try_except
    (let id := (validator_uid report, miner_uid report,
                (timestamp report / 1000000)%Z) in
     store_write (SetReport id) (put_report id report) ;;;
     store_write (SetMinerStatus (miner_uid report))
                 (merge_touch (miner_uid report) report))
    (fun e => raise e).

(** [_get_recent_miner_reports], lines 208-233. *)
Definition _get_recent_miner_reports (uid : pyval)
  : M World (list ValidatorReport) :=
  try_except
    (now <- datetime_now ;;
     let cutoff_time := (now - consensus_timeout)%Z in
     docs <- stream_reports uid ;;
     ret (filter (fun r => (cutoff_time <=? timestamp r)%Z) docs))
    (fun _ => ret []).

(** The values of a field and the confidence of the reports that
    carry it (lines 267-273). *)
Definition field_values (field : string) (reports : list ValidatorReport)
  : list pyval :=
  flat_map (fun r => match pget field (miner_status r) with
                     | Some v => [v]
                     | None => []
                     end) reports.

Definition field_weights (field : string) (reports : list ValidatorReport)
  : list Q :=
  flat_map (fun r => if pmem field (miner_status r)
                     then [confidence_score r] else []) reports.

(** The operands of float arithmetic; anything else is a [TypeError]. *)
Fixpoint floats_of (values : list pyval) : option (list Q) :=
  match values with
  | [] => Some []
  | v :: vs =>
      match num_of v, floats_of vs with
      | Some x, Some xs => Some (x :: xs)
      | _, _ => None
      end
  end.

Definition numeric_fields : list string :=
  ["stake"; "performance_score"; "current_load"]%string.
Definition categorical_fields : list string :=
  ["is_serving"; "hotkey"]%string.

Definition field_in (field : string) (l : list string) : bool :=
  existsb (String.eqb field) l.

(** The body of the loop over [all_fields], lines 266-294. *)
Definition consensus_field (reports : list ValidatorReport)
    (acc : status * list (string * bool)) (field : string)
  : result (status * list (string * bool)) :=
  let (consensus_status, conflicts) := acc in
  let values := field_values field reports in
  let weights := field_weights field reports in
  match values with
  | [] => Ok acc
  | _ :: _ =>
      if field_in field numeric_fields then
        match floats_of values with
        | Some xs =>
            Ok (sset field (CVal (VFloat (_weighted_average xs weights)))
                     consensus_status, conflicts)
        | None => Raise TypeError
        end
      else if field_in field categorical_fields then
        let (consensus_value, conflict) := _majority_vote values weights in
        Ok (sset field (CVal consensus_value) consensus_status,
            if conflict then conflicts ++ [(field, conflict)] else conflicts)
      else
        match _most_recent_high_confidence values weights reports with
        | Ok consensus_value =>
            Ok (sset field (CVal consensus_value) consensus_status, conflicts)
        | Raise e => Raise e
        end
  end.

Definition consensus_fields (reports : list ValidatorReport)
    (fields : list string)
  : result (status * list (string * bool)) :=
  fold_left (fun acc field =>
               match acc with
               | Ok a => consensus_field reports a field
               | Raise e => Raise e
               end) fields (Ok ([], [])).

(** The iteration order of the set [all_fields], lines 262-264. *)
Definition all_fields (reports : list ValidatorReport) : list string :=
  shuffle hash_seed
    (dedup String.eqb (flat_map (fun r => dict_keys (miner_status r)) reports)).

(** [_calculate_consensus_status], lines 235-306. *)
Definition _calculate_consensus_status (uid : pyval)
    (reports : list ValidatorReport) : M World status :=
  try_except
    (match reports with
     | [] => ret []
     | _ :: _ =>
         let validators := dedup Z.eqb (map validator_uid reports) in
         match consensus_fields reports (all_fields reports) with
         | Raise e => raise e
         | Ok (consensus_status, conflicts) =>
             now <- datetime_now ;;
             let s := sset "consensus_timestamp" (CTime now) consensus_status in
             let s := sset "consensus_validators" (CValidators validators) s in
             let s := sset "consensus_confidence"
                           (CVal (VFloat (_calculate_overall_confidence reports))) s in
             let s := sset "conflicts_detected" (CConflicts conflicts) s in
             ret s
         end
     end)
    (fun _ => ret []).

(** [_update_miner_consensus], lines 171-206. *)
Definition _update_miner_consensus (uid : pyval) : M World Z :=
  try_except
    (recent_reports <- _get_recent_miner_reports uid ;;
     if (length recent_reports <? min_consensus_validators)%nat
     then ret 0%Z
     else
       consensus_status <- _calculate_consensus_status uid recent_reports ;;
       now <- datetime_now ;;
       let confidence :=
         match sget "confidence" consensus_status with
         | Some c => c
         | None => CVal (VFloat 0)
         end in
       store_write (SetConsensus uid)
         (put_consensus uid
            (mkConsensusDoc uid consensus_status now
                            (length recent_reports) confidence)) ;;;
       modify (put_cache uid consensus_status) ;;;
       ret 1%Z)
    (fun _ => ret 0%Z).

Definition required_fields : list string :=
  ["uid"; "hotkey"; "stake"; "is_serving"]%string.
Definition detailed_fields : list string :=
  ["performance_score"; "current_load"; "task_type_specialization"]%string.

(** The freshness bonus of a report whose [last_seen] is [age] old. *)
Definition freshness_bonus (age : Z) : Q :=
  if (age <? minutes 5)%Z then 0.1%Q
  else if (age <? minutes 15)%Z then 0.05%Q
  else 0%Q.

(** [_calculate_validator_confidence], lines 378-411. *)
Definition _calculate_validator_confidence (validator : Z)
    (miner_status : payload) : M World Q :=
  try_except
    (let confidence := 1%Q in
     let missing_fields :=
       filter (fun f => negb (pmem f miner_status)) required_fields in
     let confidence :=
       match missing_fields with
       | [] => confidence
       | _ :: _ => (confidence - float_of_nat (length missing_fields) * 0.1)%Q
       end in
     let detailed_count :=
       length (filter (fun f => pmem f miner_status) detailed_fields) in
     let confidence := (confidence + float_of_nat detailed_count * 0.05)%Q in
     confidence <-
       match pget "last_seen" miner_status with
       | None => ret confidence
       | Some v =>
           try_except
             (match fromisoformat v with
              | Unparsable => raise ValueError
              | Aware => now <- datetime_now ;; raise TypeError
              | Naive last_seen =>
                  now <- datetime_now ;;
                  let time_diff := (now - last_seen)%Z in
                  ret (confidence + freshness_bonus time_diff)%Q
              end)
             (fun _ => ret confidence)
       end ;;
     ret (py_max 0.1 (py_min 1 confidence)))
    (fun _ => ret 0.5%Q).

(** [_update_consensus_cache], lines 465-472. *)
Definition _update_consensus_cache : M World unit :=
  try_except
    (now <- datetime_now ;; modify (put_last_cache_update now))
    (fun _ => ret tt).

(** The local variables [processed_count] and [consensus_updated]. *)
Definition counters : Type := (Z * Z)%type.

(** The work on an item that has a uid, lines 103-120: score, store,
    update the consensus, count. *)
Definition register_report (validator : Z) (ep : Z) (uid : pyval)
    (miner_status : payload) : M (counters * World) unit :=
  now <- in_frame datetime_now ;;
  confidence <- in_frame (_calculate_validator_confidence validator miner_status) ;;
  let report := mkReport validator uid now ep miner_status confidence in
  in_frame (_store_validator_report report) ;;;
  updated <- in_frame (_update_miner_consensus uid) ;;
  modify (fun lw : counters * World =>
            let '((processed, agreed), w) := lw in
            ((processed, (agreed + updated)%Z), w)) ;;;
  modify (fun lw : counters * World =>
            let '((processed, agreed), w) := lw in
            (((processed + 1)%Z, agreed), w)).

(** The body of the loop over the batch, lines 97-124. *)
Definition process_miner (validator : Z) (ep : Z) (miner_status : payload)
  : M (counters * World) unit :=
  try_except
    (match pget "uid" miner_status with
     | None | Some VNone => ret tt
     | Some uid => register_report validator ep uid miner_status
     end)
    (fun _ => ret tt).

Fixpoint process_miners (validator : Z) (ep : Z) (miner_statuses : list payload)
  : M (counters * World) unit :=
  match miner_statuses with
  | [] => ret tt
  | miner_status :: rest =>
      process_miner validator ep miner_status ;;;
      process_miners validator ep rest
  end.

(** [receive_validator_report], lines 76-146. *)
Definition receive_validator_report (validator : Z)
    (miner_statuses : list payload) (ep : Z) (w : World)
  : ReceiveResult * World :=
  let run : M (counters * World) ReceiveResult :=
    try_except
      (process_miners validator ep miner_statuses ;;;
       in_frame _update_consensus_cache ;;;
       fun lw : counters * World =>
         let '((processed_count, consensus_updated), _) := lw in
         (Ok (Success processed_count consensus_updated validator ep), lw))
      (fun e => ret (Failure e validator)) in
  match run ((0%Z, 0%Z), w) with
  | (Ok r, (_, w')) => (r, w')
  | (Raise e, (_, w')) => (Failure e validator, w')
  end.
End Engine.

(** ** Reading the consensus

    The readers ask the store for documents.  Their requests are logged
    apart from the requests of the ingestion path, and fail or not by an
    oracle of their own, so that any interleaving of failures can be
    described. *)

(** Python truthiness of a scalar ([if miner_uid:]). *)
Definition truthy (v : pyval) : bool :=
  match v with
  | VNone => false
  | VBool b => b
  | VInt z => negb (z =? 0)%Z
  | VFloat q => negb (Qeq_bool q 0)
  | VStr s => negb (String.eqb s "")
  end.

Inductive read_op : Type :=
| GetConsensus (uid : pyval)
| ScanConsensus
| ScanReports
| ScanReportsSince (t : Z).

(** The state of a reader: the requests it made, and the manager. *)
Definition Reader : Type := (list read_op * World)%type.

Definition cache_ttl : Z := minutes 1.
Definition hours (n : Z) : Z := minutes (60 * n).

(** The dict returned by [get_validator_report_stats]. *)
Record Stats : Type := mkStats {
  total_validator_reports : nat;
  consensus_miners : nat;
  active_validators : nat;
  average_consensus_confidence : Q;
  consensus_timeout_minutes : Q;
  stats_min_consensus_validators : nat
}.

Section Readers.
Variable clock : nat -> Z.
Variable read_fails : nat -> bool.

Local Open Scope py_scope.

(** A read of the store: it is logged, then fails or answers. *)
Definition store_read {A : Type} (op : read_op) (answer : World -> A)
  : M Reader A :=
  fun s =>
    let (log, w) := s in
    if read_fails (length log)
    then (Raise StoreError, (log ++ [op], w))
    else (Ok (answer w), (log ++ [op], w)).

(** The cold path of [get_consensus_miner_status], lines 422-434. *)
Definition consensus_from_store (uid : pyval) : M Reader (option status) :=
  consensus_doc <- store_read (GetConsensus uid)
                     (fun w => dict_get py_eqb uid (consensus_collection w)) ;;
  match consensus_doc with
  | Some consensus_data =>
      let consensus_status := cd_consensus_status consensus_data in
      in_frame (modify (put_cache uid consensus_status)) ;;;
      ret (Some consensus_status)
  | None => ret None
  end.

(** [get_consensus_miner_status], lines 413-438. *)
Definition get_consensus_miner_status (uid : pyval)
  : M Reader (option status) :=
  try_except
    (fun s =>
       match dict_get py_eqb uid (consensus_cache (snd s)) with
       | Some cached =>
           (now <- in_frame (datetime_now clock) ;;
            fun s' =>
              let cache_age := (now - last_cache_update (snd s'))%Z in
              if (cache_age <? cache_ttl)%Z
              then ret (Some cached) s'
              else consensus_from_store uid s') s
       | None => consensus_from_store uid s
       end)
    (fun _ => ret None).

(** The record listed for a consensus document, lines 452-457. *)
Definition listed_status (d : ConsensusDoc) : status :=
  sset "last_consensus" (CTime (cd_last_consensus d))
    (sset "consensus_confidence" (cd_consensus_confidence d)
       (sset "miner_uid" (CVal (cd_miner_uid d)) (cd_consensus_status d))).

(** [get_all_consensus_miners], lines 440-463. *)
Definition get_all_consensus_miners : M Reader (list status) :=
  try_except
    (docs <- store_read ScanConsensus
               (fun w => map snd (consensus_collection w)) ;;
     ret (flat_map (fun d => if truthy (cd_miner_uid d)
                             then [listed_status d] else []) docs))
    (fun _ => ret []).

(** [statistics.mean] of the confidences read from the documents. *)
Definition confidence_number (c : cval) : option Q :=
  match c with
  | CVal v => num_of v
  | CTime _ | CValidators _ | CConflicts _ => None
  end.

Fixpoint confidence_numbers (cs : list cval) : option (list Q) :=
  match cs with
  | [] => Some []
  | c :: cs' =>
      match confidence_number c, confidence_numbers cs' with
      | Some x, Some xs => Some (x :: xs)
      | _, _ => None
      end
  end.

(** [get_validator_report_stats], lines 474-508; [None] is the empty
    dict of the error path. *)
Definition get_validator_report_stats : M Reader (option Stats) :=
  try_except
    (reports <- store_read ScanReports
                  (fun w => map snd (validator_reports_collection w)) ;;
     let total_reports := length reports in
     consensus_docs <- store_read ScanConsensus
                         (fun w => map snd (consensus_collection w)) ;;
     let consensus_count := length consensus_docs in
     now <- in_frame (datetime_now clock) ;;
     let since := (now - hours 1)%Z in
     recent_reports <- store_read (ScanReportsSince since)
                         (fun w => filter (fun r => (since <=? timestamp r)%Z)
                                     (map snd (validator_reports_collection w))) ;;
     let active := dedup Z.eqb (map validator_uid recent_reports) in
     scored_docs <- store_read ScanConsensus
                      (fun w => map snd (consensus_collection w)) ;;
     let confidence_scores := map cd_consensus_confidence scored_docs in
     avg_confidence <-
       match confidence_scores with
       | [] => ret 0%Q
       | _ :: _ =>
           match confidence_numbers confidence_scores with
           | Some xs => ret (sumQ xs / float_of_nat (length xs))%Q
           | None => raise TypeError
           end
       end ;;
     ret (Some (mkStats total_reports consensus_count (length active)
                        avg_confidence
                        (inject_Z consensus_timeout / inject_Z (minutes 1))%Q
                        min_consensus_validators)))
    (fun _ => ret None).
End Readers.

(** * Vocabulary of the statements *)

(** The summed confidence weight of a value: the weights of the pairs
    whose value equals it. *)
Definition class_weight (v : pyval) (pairs : list (pyval * Q)) : Q :=
  sumQ (map snd (filter (fun vw => py_eqb (fst vw) v) pairs)).

(** The counting loop adds the weight to the entry of the value, or
    opens an entry for it. *)
Fixpoint bump (v : pyval) (w : Q) (vc : list (pyval * Q)) : list (pyval * Q) :=
  match vc with
  | [] => [(v, 0 + w)]
  | (k, c) :: t => if py_eqb k v then (k, c + w) :: t else (k, c) :: bump v w t
  end.

(** No two entries of [vc] have equal keys. *)
Fixpoint distinct_keys (vc : list (pyval * Q)) : Prop :=
  match vc with
  | [] => True
  | (k, _) :: t => (forall e, In e t -> py_eqb k (fst e) = false) /\ distinct_keys t
  end.

(** [vc] counts [pairs]: keys are distinct, each entry holds the weight
    of its class, and each value has an entry. *)
Definition counts (pairs vc : list (pyval * Q)) : Prop :=
  distinct_keys vc /\
  (forall k c, In (k, c) vc -> c == class_weight k pairs) /\
  (forall p, In p pairs -> exists e, In e vc /\ py_eqb (fst e) (fst p) = true).

(** A stronger invariant of the loop: in addition, every key is a
    value that was counted. *)
Definition counts_of (pairs vc : list (pyval * Q)) : Prop :=
  counts pairs vc /\ (forall e, In e vc -> In (fst e) (map fst pairs)).

(** The loop over the fields, from any accumulator. *)
Definition fields_loop (reports : list ValidatorReport)
    (fields : list string) (acc : result (status * list (string * bool)))
  : result (status * list (string * bool)) :=
  fold_left (fun acc field =>
               match acc with
               | Ok a => consensus_field reports a field
               | Raise e => Raise e
               end) fields acc.

(** * Scenarios *)

(** A clock that advances by one second at each reading. *)
Definition scenario_clock (n : nat) : Z :=
  (1700000000000000 + Z.of_nat n * 1000000)%Z.

(** A store that serves every request, and one that fails them all. *)
Definition store_up (n : nat) : bool := false.
Definition store_down (n : nat) : bool := true.

Definition no_datetime (v : pyval) : parsed_datetime := Unparsable.

Definition empty_world : World := mkWorld [] [] [] [] 0 [] 0.

(** Validator 1 reports stake 100 with confidence 1.0, validator 2
    reports stake 120 with confidence 0.5; both see the miner serving. *)
Definition report_v1 : ValidatorReport :=
  mkReport 1 (VInt 5) 1700000000000000 0
           [("stake", VInt 100); ("is_serving", VBool true)]%string 1.
Definition report_v2 : ValidatorReport :=
  mkReport 2 (VInt 5) 1700000001000000 0
           [("stake", VInt 120); ("is_serving", VBool true)]%string 0.5.

(** Three validators that name three different hotkeys. *)
Definition split_reports : list ValidatorReport :=
  [mkReport 1 (VInt 5) 1700000000000000 0 [("hotkey", VStr "a")]%string 1;
   mkReport 2 (VInt 5) 1700000001000000 0 [("hotkey", VStr "b")]%string 1;
   mkReport 3 (VInt 5) 1700000002000000 0 [("hotkey", VStr "c")]%string 1].

(** Two reports of zero confidence that disagree on the serving flag. *)
Definition zero_reports : list ValidatorReport :=
  [mkReport 1 (VInt 5) 1700000000000000 0 [("is_serving", VBool false)]%string 0;
   mkReport 2 (VInt 5) 1700000001000000 0 [("is_serving", VBool true)]%string 0].

(** A complete payload for miner 5. *)
Definition full_payload : payload :=
  [("uid", VInt 5); ("hotkey", VStr "5F"); ("stake", VInt 100);
   ("is_serving", VBool true)]%string.

(** Two validators report a field of the default class, [region]; the
    second report is the more recent one. *)
Definition region_reports : list ValidatorReport :=
  [mkReport 1 (VInt 5) 1700000000000000 0
            [("uid", VInt 5); ("region", VStr "eu")]%string 1;
   mkReport 2 (VInt 5) 1700000060000000 0
            [("uid", VInt 5); ("region", VStr "us")]%string 1].

(** A report of validator 7 about miner 5. *)
Definition report_v7 : ValidatorReport :=
  mkReport 7 (VInt 5) 1700000000000000 1 full_payload 1.

(** A store whose first request fails and that serves the following. *)
Definition store_fails_once (n : nat) : bool := Nat.eqb n 0.

(** A payload without uid. *)
Definition anonymous_payload : payload := [("hotkey", VStr "5G")]%string.

(** Three reports on miner 5; the first, of validator 1, does not carry
    [region]; validator 2 carries it with confidence 0.5 and validator 3
    with confidence 1.0. *)
Definition partial_reports : list ValidatorReport :=
  [mkReport 1 (VInt 5) 1700000000000000 0 [("uid", VInt 5)]%string 0.5;
   mkReport 2 (VInt 5) 1700000001000000 0
            [("region", VStr "eu"); ("uid", VInt 5)]%string 0.5;
   mkReport 3 (VInt 5) 1700000002000000 0
            [("region", VStr "us"); ("uid", VInt 5)]%string 1].

(** * Further vocabulary and scenarios *)

(** Two states of the manager that hold the same data: they differ at
    most in the log of requests and in the number of clock readings. *)
Definition same_data (w w' : World) : Prop :=
  validator_reports_collection w' = validator_reports_collection w /\
  miner_status_collection w' = miner_status_collection w /\
  consensus_collection w' = consensus_collection w /\
  consensus_cache w' = consensus_cache w /\
  last_cache_update w' = last_cache_update w.

(** Two reports on miner 5; the second gives the stake as a string. *)
Definition stake_report_v1 : ValidatorReport :=
  mkReport 1 (VInt 5) 1700000000000000 0
           [("uid", VInt 5); ("stake", VInt 100)]%string 1.
Definition stake_report_v2 : ValidatorReport :=
  mkReport 2 (VInt 5) 1700000001000000 0
           [("uid", VInt 5); ("stake", VStr "100")]%string 1.

(** The [consensus_confidence] that [_update_miner_consensus] writes in
    the document: the entry [confidence] of the status, or 0.0. *)
Definition document_confidence (s : status) : cval :=
  match sget "confidence" s with
  | Some c => c
  | None => CVal (VFloat 0)
  end.

(** A store that holds these two reports. *)
Definition bad_stake_world : World :=
  mkWorld [((1, VInt 5, 1700000000)%Z, stake_report_v1);
           ((2, VInt 5, 1700000001)%Z, stake_report_v2)]
          [] [] [] 0 [] 0.

(** A store that holds the reports of validators 1 and 2 on miner 5. *)
Definition two_reports_world : World :=
  mkWorld [((1, VInt 5, 1700000000)%Z, report_v1);
           ((2, VInt 5, 1700000001)%Z, report_v2)]
          [] [] [] 0 [] 0.

(** A store whose second request fails and that serves the others. *)
Definition store_fails_second (n : nat) : bool := Nat.eqb n 1.

(** [w'] has every document and cache entry that [w] has, and its log
    of requests continues that of [w]. *)
Definition extends (w w' : World) : Prop :=
  (forall id, dict_mem doc_id_eqb id (validator_reports_collection w) = true ->
              dict_mem doc_id_eqb id (validator_reports_collection w') = true) /\
  (forall uid, dict_mem py_eqb uid (miner_status_collection w) = true ->
               dict_mem py_eqb uid (miner_status_collection w') = true) /\
  (forall uid, dict_mem py_eqb uid (consensus_collection w) = true ->
               dict_mem py_eqb uid (consensus_collection w') = true) /\
  (forall uid, dict_mem py_eqb uid (consensus_cache w) = true ->
               dict_mem py_eqb uid (consensus_cache w') = true) /\
  (exists more, io_log w' = io_log w ++ more) /\
  (clock_reads w <= clock_reads w')%nat.

(** A manager whose cache holds an entry for miner 5, and whose store
    holds nothing. *)
Definition cached_world : World :=
  mkWorld [] [] [] [(VInt 5, [("stake", CVal (VFloat 100))]%string)] 0 [] 0.

(** A store that holds a consensus document for miner 0. *)
Definition miner_zero_world : World :=
  mkWorld [] []
          [(VInt 0, mkConsensusDoc (VInt 0) [] 1700000000000000 2
                                   (CVal (VFloat 0)))]
          [] 0 [] 0.

(** Reads that all succeed, and reads that all fail. *)
Definition reads_up (n : nat) : bool := false.
Definition reads_down (n : nat) : bool := true.

(** A uid of the declared type, an int.  The store names a document by
    the text of the uid ([str(miner_uid)]) where the dicts of the
    manager compare uids with [==]; on ints the two tell the same uids
    apart, and the statements about documents are made for them. *)
Definition is_int (v : pyval) : bool :=
  match v with
  | VInt _ => true
  | _ => false
  end.

Definition int_keys {V : Type} (d : list (pyval * V)) : Prop :=
  Forall (fun kv => is_int (fst kv) = true) d.

Definition int_ids (d : list (doc_id * ValidatorReport)) : Prop :=
  Forall (fun kv => is_int (snd (fst (fst kv))) = true) d.

(** A store that holds a consensus document for miner 5, and an empty
    cache. *)
Definition consensus_world : World :=
  mkWorld [] []
          [(VInt 5, mkConsensusDoc (VInt 5)
                      [("is_serving", CVal (VBool true))]%string
                      1700000000000000 2 (CVal (VFloat 0)))]
          [] 0 [] 0.

Unset Implicit Arguments.

(** * The code over the arithmetic of the interpreter

    Where a property depends on how floats are rounded, the exact
    reading above says nothing of the code.  The functions that compute
    with floats are therefore read a second time, over an arithmetic
    that is given as a structure: its floats, the operations on them and
    the conversions that Python makes between ints and floats.  What is
    proved for every such structure holds of the code whatever the
    rounding and whatever the algorithm of [sum]; [binary64] is the
    arithmetic of IEEE 754 doubles, on which the code runs.

    A float that is stored in a payload or in a report is named by a
    rational: the float is the double nearest to it ([lit]). *)

Record Arithmetic : Type := mkArithmetic {
  flo : Type;
  (** [a + b], [a - b], [a * b] and [a / b] on floats; the divisor is
      never zero where the code divides. *)
  fadd : flo -> flo -> flo;
  fsub : flo -> flo -> flo;
  fmul : flo -> flo -> flo;
  fdiv : flo -> flo -> flo;
  (** [a < b], [a <= b] and [a == b] *)
  flt : flo -> flo -> bool;
  fle : flo -> flo -> bool;
  feq : flo -> flo -> bool;
  (** the float of a literal such as [0.6], or of a stored value *)
  lit : Q -> flo;
  (** the float of a length or of a count *)
  of_nat : nat -> flo;
  (** [float(z)] as [z * w] makes it: an int beyond the range of the
      floats raises [OverflowError] *)
  of_int : Z -> result flo;
  (** [z / n] on ints *)
  int_truediv : Z -> nat -> result flo;
  (** [sum(xs)] on floats *)
  fsum : list flo -> flo;
  (** [sum(vs)] when [vs] holds something else than floats only or
      ints only *)
  other_sum : list pyval -> result flo
}.


(** What a consensus status holds for a field: a value taken from a
    report, or a float that was computed. *)
Inductive fval (F : Type) : Type :=
| FVal (v : pyval)
| FNum (x : F).

Arguments FVal {F} v.
Arguments FNum {F} x.

Module FP.
Section Code.
Variable A : Arithmetic.

Definition fstatus : Type := list (string * fval (flo A)).

Definition fset (k : string) (v : fval (flo A)) (d : fstatus) : fstatus :=
  dict_set String.eqb k v d.

(** [min(a, b)] and [max(a, b)] *)
Definition py_min (a b : flo A) : flo A := if flt A b a then b else a.
Definition py_max (a b : flo A) : flo A := if flt A a b then b else a.

(** [max(w :: ws)] *)
Definition max_of (w : flo A) (ws : list (flo A)) : flo A :=
  fold_left py_max ws w.

(** [v * w] for a value of a payload and a float. *)
Definition py_mul (v : pyval) (w : flo A) : result (flo A) :=
  match v with
  | VFloat q => Ok (fmul A (lit A q) w)
  | VInt z =>
      match of_int A z with
      | Ok x => Ok (fmul A x w)
      | Raise e => Raise e
      end
  | VBool b =>
      match of_int A (if b then 1 else 0)%Z with
      | Ok x => Ok (fmul A x w)
      | Raise e => Raise e
      end
  | VNone | VStr _ => Raise TypeError
  end.

(** [[v * w for v, w in zip(values, weights)]], to the first error. *)
Fixpoint products (vws : list (pyval * flo A)) : result (list (flo A)) :=
  match vws with
  | [] => Ok []
  | (v, w) :: rest =>
      match py_mul v w with
      | Raise e => Raise e
      | Ok p =>
          match products rest with
          | Raise e => Raise e
          | Ok ps => Ok (p :: ps)
          end
      end
  end.

(** The floats of a list of floats, the ints of a list of ints. *)
Fixpoint as_floats (values : list pyval) : option (list (flo A)) :=
  match values with
  | [] => Some []
  | VFloat q :: rest =>
      match as_floats rest with
      | Some xs => Some (lit A q :: xs)
      | None => None
      end
  | _ :: _ => None
  end.

Fixpoint as_ints (values : list pyval) : option (list Z) :=
  match values with
  | [] => Some []
  | VInt z :: rest =>
      match as_ints rest with
      | Some zs => Some (z :: zs)
      | None => None
      end
  | VBool b :: rest =>
      match as_ints rest with
      | Some zs => Some ((if b then 1 else 0)%Z :: zs)
      | None => None
      end
  | _ :: _ => None
  end.

(** [sum(values) / len(values)]: ints are summed exactly. *)
Definition mean (values : list pyval) : result (flo A) :=
  match as_floats values with
  | Some xs => Ok (fdiv A (fsum A xs) (of_nat A (length values)))
  | None =>
      match as_ints values with
      | Some zs => int_truediv A (fold_left Z.add zs 0%Z) (length values)
      | None =>
          match other_sum A values with
          | Ok s => Ok (fdiv A s (of_nat A (length values)))
          | Raise e => Raise e
          end
      end
  end.

(** [_weighted_average], lines 308-319. *)
Definition _weighted_average (values : list pyval) (weights : list (flo A))
  : result (flo A) :=
  match values, weights with
  | [], _ | _, [] => Ok (lit A 0)
  | _ :: _, _ :: _ =>
      let total_weight := fsum A weights in
      if feq A total_weight (of_nat A 0)
      then mean values
      else
        match products (combine values weights) with
        | Raise e => Raise e
        | Ok ps =>
            let weighted_sum := fsum A ps in
            Ok (fdiv A weighted_sum total_weight)
        end
  end.

(** One turn of the counting loop of [_majority_vote]; the [0] that
    opens an entry is an int, which the addition turns into a float. *)
Definition count_value (value_counts : list (pyval * flo A))
    (vw : pyval * flo A) : list (pyval * flo A) :=
  let (value, weight) := vw in
  let value_counts :=
    if dict_mem py_eqb value value_counts then value_counts
    else dict_set py_eqb value (of_nat A 0) value_counts in
  match dict_get py_eqb value value_counts with
  | Some c => dict_set py_eqb value (fadd A c weight) value_counts
  | None => value_counts
  end.

(** [_majority_vote], lines 321-342. *)
Definition _majority_vote (values : list pyval) (weights : list (flo A))
  : pyval * bool :=
  match values with
  | [] => (VNone, false)
  | first :: _ =>
      let value_counts := fold_left count_value (combine values weights) [] in
      let total_weight := fsum A weights in
      let majority_threshold := fmul A total_weight (lit A 0.6) in
      match find (fun vc => fle A majority_threshold (snd vc)) value_counts with
      | Some (value, _) => (value, false)
      | None => (first, true)
      end
  end.

(** [_most_recent_high_confidence], lines 344-359. *)
Definition _most_recent_high_confidence
    (values : list pyval) (weights : list (flo A))
    (reports : list ValidatorReport) : result pyval :=
  match values, reports with
  | [], _ | _, [] => Ok VNone
  | first :: _, _ :: _ =>
      match weights with
      | [] => Raise ValueError
      | w :: ws =>
          let max_confidence := max_of w ws in
          let high_confidence_reports :=
            map fst (filter (fun rw => fle A (fmul A max_confidence (lit A 0.8))
                                          (snd rw))
                            (combine reports weights)) in
          match high_confidence_reports with
          | r :: rs =>
              let most_recent := latest r rs in
              match dict_keys (miner_status most_recent) with
              | [] => Raise IndexError
              | key0 :: _ =>
                  match pget key0 (miner_status most_recent) with
                  | Some v => Ok v
                  | None => Ok VNone
                  end
              end
          | [] => Ok first
          end
      end
  end.

(** [_calculate_overall_confidence], lines 361-376. *)
Definition _calculate_overall_confidence (reports : list ValidatorReport)
  : flo A :=
  match reports with
  | [] => lit A 0
  | _ :: _ =>
      let avg_confidence :=
        fdiv A (fsum A (map (fun r => lit A (confidence_score r)) reports))
               (of_nat A (length reports)) in
      let validator_bonus :=
        py_min (lit A 0.2)
               (fmul A (of_nat A (length (dedup Z.eqb (map validator_uid reports))))
                       (lit A 0.1)) in
      let conflict_penalty := lit A 0 in
      py_min (lit A 1)
             (fsub A (fadd A avg_confidence validator_bonus) conflict_penalty)
  end.

(** The confidence of the reports that carry a field (lines 270-273). *)
Definition field_weights (field : string) (reports : list ValidatorReport)
  : list (flo A) :=
  flat_map (fun r => if pmem field (miner_status r)
                     then [lit A (confidence_score r)] else []) reports.

(** The body of the loop over [all_fields], lines 266-294. *)
Definition consensus_field (reports : list ValidatorReport)
    (acc : fstatus * list (string * bool)) (field : string)
  : result (fstatus * list (string * bool)) :=
  let (consensus_status, conflicts) := acc in
  let values := field_values field reports in
  let weights := field_weights field reports in
  match values with
  | [] => Ok acc
  | _ :: _ =>
      if field_in field ["stake"; "performance_score"; "current_load"]%string then
        match _weighted_average values weights with
        | Ok consensus_value =>
            Ok (fset field (FNum consensus_value) consensus_status, conflicts)
        | Raise e => Raise e
        end
      else if field_in field ["is_serving"; "hotkey"]%string then
        let (consensus_value, conflict) := _majority_vote values weights in
        Ok (fset field (FVal consensus_value) consensus_status,
            if conflict then conflicts ++ [(field, conflict)] else conflicts)
      else
        match _most_recent_high_confidence values weights reports with
        | Ok consensus_value =>
            Ok (fset field (FVal consensus_value) consensus_status, conflicts)
        | Raise e => Raise e
        end
  end.

(** *** Vocabulary of the statements *)

(** The counting loop adds the weight to the entry of the value, or
    opens an entry for it. *)
Fixpoint bump (v : pyval) (w : flo A) (vc : list (pyval * flo A))
  : list (pyval * flo A) :=
  match vc with
  | [] => [(v, fadd A (of_nat A 0) w)]
  | (k, c) :: t =>
      if py_eqb k v then (k, fadd A c w) :: t else (k, c) :: bump v w t
  end.

(** The weights of the pairs whose value equals [k], added one after
    the other in the order of the pairs. *)
Definition class_sum (k : pyval) (pairs : list (pyval * flo A)) : flo A :=
  fold_left (fadd A)
            (map snd (filter (fun p => py_eqb k (fst p)) pairs))
            (of_nat A 0).

(** No two of the keys are equal. *)
Fixpoint distinct (ks : list pyval) : Prop :=
  match ks with
  | [] => True
  | k :: t => (forall k', In k' t -> py_eqb k k' = false) /\ distinct t
  end.

Section Scorer.
Variable clock : nat -> Z.
Variable fromisoformat : pyval -> parsed_datetime.

Local Open Scope py_scope.

(** [_calculate_validator_confidence], lines 378-411. *)
Definition _calculate_validator_confidence (validator : Z)
    (miner_status : payload) : M World (flo A) :=
  try_except
    (let confidence := lit A 1 in
     let missing_fields :=
       filter (fun f => negb (pmem f miner_status))
              ["uid"; "hotkey"; "stake"; "is_serving"]%string in
     let confidence :=
       match missing_fields with
       | [] => confidence
       | _ :: _ =>
           fsub A confidence
                (fmul A (of_nat A (length missing_fields)) (lit A 0.1))
       end in
     let detailed_count :=
       length (filter (fun f => pmem f miner_status)
                      ["performance_score"; "current_load";
                       "task_type_specialization"]%string) in
     let confidence :=
       fadd A confidence (fmul A (of_nat A detailed_count) (lit A 0.05)) in
     confidence <-
       match pget "last_seen" miner_status with
       | None => ret confidence
       | Some v =>
           try_except
             (match fromisoformat v with
              | Unparsable => raise ValueError
              | Aware => now <- datetime_now clock ;; raise TypeError
              | Naive last_seen =>
                  now <- datetime_now clock ;;
                  let time_diff := (now - last_seen)%Z in
                  if (time_diff <? minutes 5)%Z
                  then ret (fadd A confidence (lit A 0.1))
                  else if (time_diff <? minutes 15)%Z
                  then ret (fadd A confidence (lit A 0.05))
                  else ret confidence
              end)
             (fun _ => ret confidence)
       end ;;
     ret (py_max (lit A 0.1) (py_min (lit A 1) confidence)))
    (fun _ => ret (lit A 0.5)).
End Scorer.
End Code.
End FP.

(** ** IEEE 754 doubles *)

(** The double nearest to [a / b], ties to even: the quotient is taken
    with 64 bits or more and a last bit that tells whether anything was
    left, and rounded once. *)
Definition round_div (a : Z) (b : positive) : PrimFloat.float :=
  if (a =? 0)%Z then PrimFloat.zero
  else
    let k := Z.max 0 (64 + Z.log2 (Zpos b) - Z.log2 (Z.abs a)) in
    let n := (Z.abs a * 2 ^ k)%Z in
    let q := (n / Zpos b)%Z in
    let sticky := if (n mod Zpos b =? 0)%Z then 0%Z else 1%Z in
    FloatOps.SF2Prim
      (SpecFloat.binary_normalize FloatOps.prec FloatOps.emax
         (Z.sgn a * (2 * q + sticky)) (- k - 1) false).

Definition double_of_Q (q : Q) : PrimFloat.float :=
  round_div (Qnum q) (Qden q).

(** A conversion that does not fit raises [OverflowError]. *)
Definition double_of_int (z : Z) : result PrimFloat.float :=
  let x := round_div z 1 in
  if PrimFloat.is_infinity x then Raise OverflowError else Ok x.

Definition double_truediv (z : Z) (n : nat) : result PrimFloat.float :=
  match n with
  | O => Raise ZeroDivisionError
  | S _ =>
      let x := round_div z (Pos.of_nat n) in
      if PrimFloat.is_infinity x then Raise OverflowError else Ok x
  end.

(** [sum(xs)] as a chain of additions (CPython up to 3.11; later
    versions compensate the sum of floats, which the structure leaves
    open). *)
Definition double_sum (xs : list PrimFloat.float) : PrimFloat.float :=
  fold_left PrimFloat.add xs PrimFloat.zero.

(** A number of a mixed list, as a float. *)
Definition double_of_value (v : pyval) : result PrimFloat.float :=
  match v with
  | VFloat q => Ok (double_of_Q q)
  | VInt z => double_of_int z
  | VBool b => double_of_int (if b then 1 else 0)
  | VNone | VStr _ => Raise TypeError
  end.

(** [sum(vs)] of a list that mixes ints and floats: the ints before the
    first float are summed exactly, and from there on the sum is a
    float. *)
Fixpoint double_mixed_sum (ints : Z) (acc : option PrimFloat.float)
    (values : list pyval) : result PrimFloat.float :=
  match values with
  | [] =>
      match acc with
      | Some s => Ok s
      | None => double_of_int ints
      end
  | v :: rest =>
      match acc, v with
      | None, VInt z => double_mixed_sum (ints + z) None rest
      | None, VBool b => double_mixed_sum (ints + (if b then 1 else 0)) None rest
      | None, _ =>
          match double_of_int ints, double_of_value v with
          | Ok s, Ok x => double_mixed_sum 0 (Some (PrimFloat.add s x)) rest
          | Ok _, Raise e => Raise e
          | Raise e, _ =>
              match v with
              | VNone | VStr _ => Raise TypeError
              | _ => Raise e
              end
          end
      | Some s, _ =>
          match double_of_value v with
          | Ok x => double_mixed_sum 0 (Some (PrimFloat.add s x)) rest
          | Raise e => Raise e
          end
      end
  end.

(** The float of a length or of a count, which Python keeps below
    2^63: the conversion of the machine, exact up to 2^53. *)
Definition double_of_count (n : nat) : PrimFloat.float :=
  PrimFloat.of_uint63 (Uint63.of_Z (Z.of_nat n)).

Definition binary64 : Arithmetic :=
  mkArithmetic PrimFloat.float
               PrimFloat.add PrimFloat.sub PrimFloat.mul PrimFloat.div
               PrimFloat.ltb PrimFloat.leb PrimFloat.eqb
               double_of_Q
               double_of_count
               double_of_int
               double_truediv
               double_sum
               (double_mixed_sum 0 None).

(** A double that is not below zero, or is not a number: its sign bit
    is not set, save for the zero, which is not below zero with either
    sign.  And the same without the negative zero, for a divisor. *)
Definition sf_not_below_zero (s : SpecFloat.spec_float) : bool :=
  match s with
  | SpecFloat.S754_zero _ => true
  | SpecFloat.S754_infinity b => negb b
  | SpecFloat.S754_nan => true
  | SpecFloat.S754_finite b _ _ => negb b
  end.

Definition sf_unsigned (s : SpecFloat.spec_float) : bool :=
  match s with
  | SpecFloat.S754_zero b => negb b
  | SpecFloat.S754_infinity b => negb b
  | SpecFloat.S754_nan => true
  | SpecFloat.S754_finite b _ _ => negb b
  end.

Definition not_below_zero (x : PrimFloat.float) : Prop :=
  sf_not_below_zero (FloatOps.Prim2SF x) = true.

(** ** Scenarios in doubles *)

(** Five validators report on miner 5 with the confidence that the
    scorer gives to a payload with two required fields missing, one
    detailed field and a [last_seen] ten minutes old; three see the
    miner serving and two do not. *)
Definition boundary_payload (serving : bool) : payload :=
  [("uid", VInt 5); ("is_serving", VBool serving);
   ("performance_score", VFloat 0.5);
   ("last_seen", VStr "2023-11-14T22:03:20")]%string.

Definition boundary_reports : list ValidatorReport :=
  [mkReport 1 (VInt 5) 1700000000000000 0 (boundary_payload true)
            0.9000000000000001;
   mkReport 2 (VInt 5) 1700000001000000 0 (boundary_payload true)
            0.9000000000000001;
   mkReport 3 (VInt 5) 1700000002000000 0 (boundary_payload true)
            0.9000000000000001;
   mkReport 4 (VInt 5) 1700000003000000 0 (boundary_payload false)
            0.9000000000000001;
   mkReport 5 (VInt 5) 1700000004000000 0 (boundary_payload false)
            0.9000000000000001].

(** Three validators report complete payloads on miner 5, which the
    scorer gives the confidence 1.0, and name three different
    hotkeys. *)
Definition hotkey_payload (hotkey : string) : payload :=
  [("uid", VInt 5); ("hotkey", VStr hotkey); ("stake", VInt 100);
   ("is_serving", VBool true)]%string.

Definition hotkey_reports : list ValidatorReport :=
  [mkReport 1 (VInt 5) 1700000000000000 0 (hotkey_payload "5F") 1;
   mkReport 2 (VInt 5) 1700000001000000 0 (hotkey_payload "5G") 1;
   mkReport 3 (VInt 5) 1700000002000000 0 (hotkey_payload "5H") 1].

(** A parser that reads every string as the time [t]. *)
Definition reads_as (t : Z) (v : pyval) : parsed_datetime :=
  match v with
  | VStr _ => Naive t
  | _ => Unparsable
  end.

(** A payload without [is_serving], with and without a [last_seen]. *)
Definition dated_payload : payload :=
  [("uid", VInt 5); ("hotkey", VStr "5F"); ("stake", VInt 100);
   ("last_seen", VStr "2023-11-14T23:13:20")]%string.
Definition undated_payload : payload :=
  [("uid", VInt 5); ("hotkey", VStr "5F"); ("stake", VInt 100)]%string.


(** * Properties *)

Unset Implicit Arguments.

(** ** Sums, minima and maxima *)

Local Open Scope Q_scope.

Lemma fold_Qplus_acc (l : list Q) (a : Q) : fold_left Qplus l a == a + sumQ l.
Proof.
  revert a. induction l as [|x l IH]; intro a; unfold sumQ; simpl.
  - ring.
  - rewrite (IH (a + x)), (IH (0 + x)). ring.
Qed.

Lemma sumQ_cons (x : Q) (l : list Q) : sumQ (x :: l) == x + sumQ l.
Proof.
  unfold sumQ at 1. simpl. rewrite fold_Qplus_acc. ring.
Qed.

Lemma sumQ_app (l1 l2 : list Q) : sumQ (l1 ++ l2) == sumQ l1 + sumQ l2.
Proof.
  induction l1 as [|x l1 IH]; simpl.
  - unfold sumQ at 2. simpl. ring.
  - rewrite !sumQ_cons, IH. ring.
Qed.

Lemma sumQ_nonneg (l : list Q) : Forall (fun x => 0 <= x) l -> 0 <= sumQ l.
Proof.
  induction 1 as [|x l Hx _ IH].
  - apply Qle_refl.
  - rewrite sumQ_cons. cbv beta in Hx. lra.
Qed.

Lemma sumQ_zero (l : list Q) : Forall (fun x => x == 0) l -> sumQ l == 0.
Proof.
  induction 1 as [|x l Hx _ IH].
  - reflexivity.
  - rewrite sumQ_cons. cbv beta in Hx. lra.
Qed.

Lemma Qltb_lt (a b : Q) : Qltb a b = true <-> a < b.
Proof.
  unfold Qltb. rewrite negb_true_iff. split; intro H.
  - apply Qnot_le_lt. intro Hle. apply Qle_bool_iff in Hle. congruence.
  - destruct (Qle_bool b a) eqn:E; [|reflexivity].
    apply Qle_bool_iff in E. lra.
Qed.

Lemma Qltb_ge (a b : Q) : Qltb a b = false <-> b <= a.
Proof.
  unfold Qltb. rewrite negb_false_iff. apply Qle_bool_iff.
Qed.

Lemma py_min_Qmin (a b : Q) : py_min a b == Qmin a b.
Proof.
  unfold py_min. destruct (Qltb b a) eqn:E.
  - apply Qltb_lt in E. rewrite Q.min_r; lra.
  - apply Qltb_ge in E. rewrite Q.min_l; lra.
Qed.

Lemma py_max_Qmax (a b : Q) : py_max a b == Qmax a b.
Proof.
  unfold py_max. destruct (Qltb a b) eqn:E.
  - apply Qltb_lt in E. rewrite Q.max_r; lra.
  - apply Qltb_ge in E. rewrite Q.max_l; lra.
Qed.

Lemma float_of_nat_pos (n : nat) : (0 < n)%nat -> 0 < float_of_nat n.
Proof.
  intro H. unfold float_of_nat, Qlt. simpl. lia.
Qed.

Lemma float_of_nat_nonneg (n : nat) : 0 <= float_of_nat n.
Proof.
  unfold float_of_nat, Qle. simpl. lia.
Qed.

(** ** Python equality is an equivalence on the scalars *)

Lemma py_eqb_refl (a : pyval) : py_eqb a a = true.
Proof.
  destruct a as [|b|z|q|s]; unfold py_eqb; simpl;
    try reflexivity; try (apply Qeq_bool_iff; reflexivity).
  apply String.eqb_refl.
Qed.

Lemma py_eqb_sym (a b : pyval) : py_eqb a b = py_eqb b a.
Proof.
  unfold py_eqb.
  destruct (num_of a) as [x|] eqn:Ea, (num_of b) as [y|] eqn:Eb; try reflexivity.
  - destruct (Qeq_bool x y) eqn:E1, (Qeq_bool y x) eqn:E2; try reflexivity.
    + apply Qeq_bool_iff in E1. symmetry in E1. apply Qeq_bool_iff in E1. congruence.
    + apply Qeq_bool_iff in E2. symmetry in E2. apply Qeq_bool_iff in E2. congruence.
  - destruct a, b; try reflexivity; try discriminate. apply String.eqb_sym.
Qed.

Lemma py_eqb_trans (a b c : pyval) :
  py_eqb a b = true -> py_eqb b c = true -> py_eqb a c = true.
Proof.
  unfold py_eqb.
  destruct (num_of a) as [x|] eqn:Ea, (num_of b) as [y|] eqn:Eb,
           (num_of c) as [z|] eqn:Ec; try discriminate.
  - intros H1 H2. apply Qeq_bool_iff in H1, H2. apply Qeq_bool_iff.
    rewrite H1. exact H2.
  - destruct a, b, c; try discriminate; try reflexivity.
    intros H1 H2. apply String.eqb_eq in H1, H2. subst. apply String.eqb_refl.
Qed.

Lemma py_eqb_false_l (a b c : pyval) :
  py_eqb a b = true -> py_eqb a c = false -> py_eqb b c = false.
Proof.
  intros Hab Hac. destruct (py_eqb b c) eqn:E; [|reflexivity].
  rewrite (py_eqb_trans _ _ _ Hab E) in Hac. discriminate.
Qed.

Arguments py_eqb : simpl never.

(** ** Dicts with string keys *)

Lemma sget_sset_same (k : string) (v : cval) (d : status) :
  sget k (sset k v d) = Some v.
Proof.
  unfold sget, sset. induction d as [|[k' v'] d IH]; simpl.
  - now rewrite String.eqb_refl.
  - destruct (String.eqb k' k) eqn:E; simpl; rewrite E; [reflexivity | exact IH].
Qed.

Lemma sget_sset_other (k k' : string) (v : cval) (d : status) :
  k <> k' -> sget k (sset k' v d) = sget k d.
Proof.
  intro Hne. unfold sget, sset. induction d as [|[k0 v0] d IH]; simpl.
  - destruct (String.eqb k' k) eqn:E; [|reflexivity].
    apply String.eqb_eq in E. congruence.
  - destruct (String.eqb k0 k') eqn:E; simpl.
    + apply String.eqb_eq in E. subst k0.
      destruct (String.eqb k' k) eqn:E'; [|reflexivity].
      apply String.eqb_eq in E'. congruence.
    + now rewrite IH.
Qed.


(** ** The counting loop of the majority vote *)

Lemma count_value_bump (vc : list (pyval * Q)) (v : pyval) (w : Q) :
  count_value vc (v, w) = bump v w vc.
Proof.
  unfold count_value, dict_mem.
  induction vc as [|[k c] t IH]; simpl.
  - rewrite py_eqb_refl. reflexivity.
  - destruct (py_eqb k v) eqn:E; simpl.
    + rewrite ?E. simpl. rewrite ?E. reflexivity.
    + destruct (dict_get py_eqb v t) as [c'|] eqn:G;
        simpl; rewrite ?E; simpl; rewrite ?G, ?E.
      * f_equal. rewrite G in IH. exact IH.
      * destruct (dict_get py_eqb v (dict_set py_eqb v 0 t)) as [c'|] eqn:G';
          simpl; rewrite ?E; f_equal; exact IH.
Qed.


Lemma class_weight_app (v : pyval) (l1 l2 : list (pyval * Q)) :
  class_weight v (l1 ++ l2) == class_weight v l1 + class_weight v l2.
Proof.
  unfold class_weight. now rewrite filter_app, map_app, sumQ_app.
Qed.

Lemma class_weight_single (v k : pyval) (w : Q) :
  class_weight v [(k, w)] == if py_eqb k v then w else 0.
Proof.
  unfold class_weight. simpl. destruct (py_eqb k v); simpl.
  - rewrite sumQ_cons. unfold sumQ; simpl. ring.
  - reflexivity.
Qed.

Lemma bump_keys (v : pyval) (w : Q) (vc : list (pyval * Q)) (e : pyval * Q) :
  In e (bump v w vc) ->
  (exists e', In e' vc /\ fst e' = fst e) \/
  (fst e = v /\ forall e', In e' vc -> py_eqb (fst e') v = false).
Proof.
  induction vc as [|[k c] t IH]; simpl.
  - intros [<-|[]]. right. split; [reflexivity | intros e' []].
  - destruct (py_eqb k v) eqn:E; simpl.
    + intros [<-|H].
      * left. exists (k, c). simpl. auto.
      * left. exists e. auto.
    + intros [<-|H].
      * left. exists (k, c). simpl. auto.
      * destruct (IH H) as [[e' [He' Hk]]|[Hv Hno]].
        -- left. exists e'. auto.
        -- right. split; [exact Hv|]. intros e' [<-|He']; [exact E | auto].
Qed.

Lemma bump_distinct (v : pyval) (w : Q) (vc : list (pyval * Q)) :
  distinct_keys vc -> distinct_keys (bump v w vc).
Proof.
  induction vc as [|[k c] t IH]; simpl.
  - intros _. split; [intros e [] | exact I].
  - intros [Hk Ht]. destruct (py_eqb k v) eqn:E; simpl.
    + split; assumption.
    + split; [|auto]. intros e He.
      destruct (bump_keys _ _ _ _ He) as [[e' [He' Hf]]|[Hv _]].
      * rewrite <- Hf. auto.
      * now rewrite Hv.
Qed.

(** Where an entry of the updated counts comes from. *)
Lemma bump_In (v : pyval) (w : Q) (vc : list (pyval * Q)) (k : pyval) (c : Q) :
  distinct_keys vc ->
  In (k, c) (bump v w vc) ->
  (In (k, c) vc /\ py_eqb k v = false) \/
  (exists c0, In (k, c0) vc /\ py_eqb k v = true /\ c = c0 + w) \/
  (k = v /\ c = 0 + w /\ forall e', In e' vc -> py_eqb (fst e') v = false).
Proof.
  induction vc as [|[k0 c0] t IH]; simpl.
  - intros _ [H|[]]. inversion H; subst. right. right.
    repeat split. intros e' [].
  - intros [Hk Ht]. destruct (py_eqb k0 v) eqn:E; simpl.
    + intros [H|H].
      * inversion H; subst. right. left. exists c0. auto.
      * left. split; [auto|].
        specialize (Hk _ H). simpl in Hk.
        rewrite py_eqb_sym. exact (py_eqb_false_l _ _ _ E Hk).
    + intros [H|H].
      * inversion H; subst. left. auto.
      * destruct (IH Ht H) as [[Hin Hne]|[[c1 [Hin [Heq Hc]]]|[Hv [Hc Hno]]]].
        -- left. auto.
        -- right. left. exists c1. auto.
        -- right. right. repeat split; try assumption.
           intros e' [<-|He']; [exact E | auto].
Qed.

Lemma bump_keeps (v : pyval) (w : Q) (vc : list (pyval * Q)) (e : pyval * Q) :
  In e vc -> exists e', In e' (bump v w vc) /\ fst e' = fst e.
Proof.
  induction vc as [|[k c] t IH]; simpl; [intros []|].
  intros [<-|H]; destruct (py_eqb k v); simpl.
  - exists (k, c + w). auto.
  - exists (k, c). auto.
  - exists e. auto.
  - destruct (IH H) as [e' [He' Hf]]. exists e'. auto.
Qed.

Lemma bump_covers (v : pyval) (w : Q) (vc : list (pyval * Q)) :
  exists e, In e (bump v w vc) /\ py_eqb (fst e) v = true.
Proof.
  induction vc as [|[k c] t IH]; simpl.
  - exists (v, 0 + w). split; [auto | apply py_eqb_refl].
  - destruct (py_eqb k v) eqn:E.
    + exists (k, c + w). simpl. auto.
    + destruct IH as [e [He Hv]]. exists e. simpl. auto.
Qed.

Lemma class_weight_absent (v : pyval) (pairs : list (pyval * Q)) :
  (forall p, In p pairs -> py_eqb (fst p) v = false) ->
  class_weight v pairs == 0.
Proof.
  intro H. unfold class_weight.
  induction pairs as [|p pairs IH]; simpl; [reflexivity|].
  rewrite (H p (or_introl eq_refl)). apply IH. intros q Hq. apply H. now right.
Qed.

Lemma counts_of_step (pairs vc : list (pyval * Q)) (v : pyval) (w : Q) :
  counts_of pairs vc -> counts_of (pairs ++ [(v, w)]) (bump v w vc).
Proof.
  intros [[Hd [Hc Hcov]] Hkeys]. split; [split; [|split]|].
  - now apply bump_distinct.
  - intros k c Hin. rewrite class_weight_app, class_weight_single.
    destruct (bump_In _ _ _ _ _ Hd Hin)
      as [[Hin' Hne]|[[c0 [Hin' [Heq Hc0]]]|[Hv [Hc0 Hno]]]].
    + rewrite py_eqb_sym, Hne. rewrite (Hc _ _ Hin'). ring.
    + rewrite py_eqb_sym, Heq. rewrite Hc0, (Hc _ _ Hin'). ring.
    + subst k. rewrite py_eqb_refl. rewrite Hc0.
      rewrite class_weight_absent; [ring|].
      intros p Hp. destruct (Hcov p Hp) as [e [He Hp']].
      specialize (Hno e He).
      destruct (py_eqb (fst p) v) eqn:E; [|reflexivity].
      rewrite (py_eqb_trans _ _ _ Hp' E) in Hno. discriminate.
  - intros p Hp. apply in_app_or in Hp. destruct Hp as [Hp|[<-|[]]].
    + destruct (Hcov p Hp) as [e [He Hp']].
      destruct (bump_keeps v w _ _ He) as [e' [He' Hf]].
      exists e'. split; [exact He' | now rewrite Hf].
    + apply bump_covers.
  - intros e He. rewrite map_app, in_app_iff. simpl.
    destruct (bump_keys _ _ _ _ He) as [[e' [He' Hf]]|[Hv _]].
    + left. rewrite <- Hf. auto.
    + right. left. now symmetry.
Qed.

Lemma counts_of_fold (pairs done vc : list (pyval * Q)) :
  counts_of done vc ->
  counts_of (done ++ pairs) (fold_left count_value pairs vc).
Proof.
  revert done vc. induction pairs as [|[v w] pairs IH]; intros done vc H.
  - rewrite app_nil_r. exact H.
  - cbn [fold_left]. rewrite count_value_bump.
    replace (done ++ (v, w) :: pairs) with ((done ++ [(v, w)]) ++ pairs)
      by (rewrite <- app_assoc; reflexivity).
    apply IH. now apply counts_of_step.
Qed.

Lemma counts_of_all (pairs : list (pyval * Q)) :
  counts_of pairs (fold_left count_value pairs []).
Proof.
  apply (counts_of_fold pairs [] []).
  split; [split; [exact I | split] |]; simpl; intros; contradiction.
Qed.

Lemma map_snd_combine {A B : Type} (l1 : list A) (l2 : list B) :
  length l2 = length l1 -> map snd (combine l1 l2) = l2.
Proof.
  revert l2. induction l1 as [|a l1 IH]; intros [|b l2]; simpl;
    try discriminate; try reflexivity.
  intro H. f_equal. apply IH. congruence.
Qed.

(** ** Fields of reports *)

Lemma field_weights_length (field : string) (reports : list ValidatorReport) :
  length (field_weights field reports) = length (field_values field reports).
Proof.
  unfold field_weights, field_values.
  induction reports as [|r reports IH]; simpl; [reflexivity|].
  rewrite !length_app, IH. f_equal.
  unfold pmem, dict_mem, pget.
  destruct (dict_get String.eqb field (miner_status r)); reflexivity.
Qed.

(** The first value of a field is the value in the first report, in
    the order of the input, that carries the field. *)
Lemma field_values_first (field : string) (reports : list ValidatorReport)
    (first : pyval) (rest : list pyval) :
  field_values field reports = first :: rest ->
  exists before r after,
    reports = before ++ r :: after /\
    Forall (fun r' => pget field (miner_status r') = None) before /\
    pget field (miner_status r) = Some first.
Proof.
  unfold field_values. induction reports as [|r reports IH]; simpl; [discriminate|].
  destruct (pget field (miner_status r)) as [v|] eqn:E; simpl.
  - intro H. inversion H; subst. exists [], r, reports. auto.
  - intro H. destruct (IH H) as [before [r' [after [-> [Hb Hr]]]]].
    exists (r :: before), r', after. auto.
Qed.

Lemma categorical_cases (field : string) :
  field_in field categorical_fields = true ->
  field = "is_serving"%string \/ field = "hotkey"%string.
Proof.
  unfold field_in, categorical_fields. simpl. rewrite !orb_true_iff.
  intros [H|[H|H]]; try discriminate; apply String.eqb_eq in H; auto.
Qed.

Lemma categorical_not_numeric (field : string) :
  field_in field categorical_fields = true ->
  field_in field numeric_fields = false.
Proof.
  intro H. destruct (categorical_cases _ H) as [-> | ->]; reflexivity.
Qed.

(** The loop body on a categorical field: the vote decides the entry,
    and a conflict is appended when the vote reports one. *)
Lemma consensus_field_categorical (reports : list ValidatorReport)
    (cs : status) (cf : list (string * bool)) (field : string)
    (first : pyval) (rest : list pyval) :
  field_in field categorical_fields = true ->
  field_values field reports = first :: rest ->
  consensus_field reports (cs, cf) field =
    let (value, conflict) :=
      _majority_vote (field_values field reports) (field_weights field reports) in
    Ok (sset field (CVal value) cs,
        if conflict then cf ++ [(field, true)] else cf).
Proof.
  intros Hcat Hv. unfold consensus_field.
  rewrite (categorical_not_numeric _ Hcat), Hcat, Hv.
  destruct (_majority_vote (first :: rest) (field_weights field reports))
    as [value [|]]; reflexivity.
Qed.

(** The first entry of the counts keeps its key, and its count when
    only zero weights are added. *)
Lemma fold_count_head (pairs : list (pyval * Q)) (k : pyval) (c : Q)
    (t : list (pyval * Q)) :
  Forall (fun p => snd p == 0) pairs ->
  exists c' t', fold_left count_value pairs ((k, c) :: t) = (k, c') :: t' /\ c' == c.
Proof.
  intro H. revert c t. induction H as [|[v w] pairs Hw _ IH]; intros c t.
  - exists c, t. split; reflexivity.
  - cbn [fold_left]. rewrite count_value_bump. simpl in Hw. simpl bump.
    destruct (py_eqb k v).
    + destruct (IH (c + w) t) as [c' [t' [-> Hc]]].
      exists c', t'. split; [reflexivity|]. rewrite Hc, Hw. ring.
    + apply IH.
Qed.

(** ** The loop over the fields *)

Lemma In_insert_at {A : Type} (n : nat) (x y : A) (l : list A) :
  In y (insert_at n x l) <-> y = x \/ In y l.
Proof.
  revert l. induction n as [|n IH]; intros [|z l]; simpl.
  - intuition congruence.
  - intuition congruence.
  - intuition congruence.
  - rewrite IH. intuition congruence.
Qed.

Lemma In_shuffle {A : Type} (seed : list nat) (l : list A) (y : A) :
  In y (shuffle seed l) <-> In y l.
Proof.
  revert seed. induction l as [|x l IH]; intro seed; simpl.
  - tauto.
  - rewrite In_insert_at, IH. intuition congruence.
Qed.

Lemma In_dedup_string (l : list string) (y : string) :
  In y (dedup String.eqb l) <-> In y l.
Proof.
  induction l as [|x l IH]; simpl; [tauto|].
  rewrite filter_In, IH, negb_true_iff.
  destruct (String.eqb_spec x y) as [->|Hne]; intuition congruence.
Qed.

Lemma pget_In_keys (field : string) (d : payload) (v : pyval) :
  pget field d = Some v -> In field (dict_keys d).
Proof.
  unfold pget, dict_keys. induction d as [|[k x] d IH]; simpl; [discriminate|].
  destruct (String.eqb_spec k field) as [->|Hne]; auto.
Qed.

Lemma field_values_In_all_fields (seed : list nat) (field : string)
    (reports : list ValidatorReport) (first : pyval) (rest : list pyval) :
  field_values field reports = first :: rest ->
  In field (all_fields seed reports).
Proof.
  intro H. destruct (field_values_first _ _ _ _ H) as [before [r [after [-> [_ Hr]]]]].
  unfold all_fields. rewrite In_shuffle, In_dedup_string.
  apply in_flat_map. exists r. split.
  - apply in_or_app. right. now left.
  - exact (pget_In_keys _ _ _ Hr).
Qed.

(** A turn of the loop for a field writes the entry of that field and
    nothing else, and appends conflicts of that field only. *)
Lemma consensus_field_frame (reports : list ValidatorReport)
    (cs cs' : status) (cf cf' : list (string * bool)) (field : string) :
  consensus_field reports (cs, cf) field = Ok (cs', cf') ->
  (forall g, g <> field -> sget g cs' = sget g cs) /\
  exists extra, cf' = cf ++ extra /\ forall e, In e extra -> fst e = field.
Proof.
  unfold consensus_field.
  destruct (field_values field reports) as [|v vs].
  - intro H. inversion H; subst. split; [reflexivity|].
    exists []. rewrite app_nil_r. split; [reflexivity | intros e []].
  - destruct (field_in field numeric_fields).
    + destruct (floats_of (v :: vs)); [|discriminate].
      intro H. inversion H; subst. split.
      * intros g Hg. now apply sget_sset_other.
      * exists []. rewrite app_nil_r. split; [reflexivity | intros e []].
    + destruct (field_in field categorical_fields).
      * destruct (_majority_vote (v :: vs) (field_weights field reports))
          as [value conflict].
        intro H. inversion H; subst. split.
        -- intros g Hg. now apply sget_sset_other.
        -- destruct conflict.
           ++ exists [(field, true)]. split; [reflexivity|].
              intros e [<-|[]]. reflexivity.
           ++ exists []. rewrite app_nil_r. split; [reflexivity | intros e []].
      * destruct (_most_recent_high_confidence (v :: vs)
                    (field_weights field reports) reports); [|discriminate].
        intro H. inversion H; subst. split.
        -- intros g Hg. now apply sget_sset_other.
        -- exists []. rewrite app_nil_r. split; [reflexivity | intros e []].
Qed.

Lemma fields_loop_raise (reports : list ValidatorReport) (fields : list string)
    (e : exn) :
  fields_loop reports fields (Raise e) = Raise e.
Proof.
  induction fields as [|f fields IH]; simpl; auto.
Qed.

(** When the loop over the fields completes, the consensus status is
    what the loop built, with the four entries of metadata set last. *)
Lemma calculate_consensus_status_ok (clock : nat -> Z) (seed : list nat)
    (uid : pyval) (reports : list ValidatorReport)
    (w : World) (cs : status) (cf : list (string * bool)) :
  reports <> [] ->
  consensus_fields reports (all_fields seed reports) = Ok (cs, cf) ->
  _calculate_consensus_status clock seed uid reports w =
  (Ok (sset "conflicts_detected" (CConflicts cf)
        (sset "consensus_confidence"
           (CVal (VFloat (_calculate_overall_confidence reports)))
           (sset "consensus_validators"
              (CValidators (dedup Z.eqb (map validator_uid reports)))
              (sset "consensus_timestamp" (CTime (clock (clock_reads w))) cs)))),
   tick_clock w).
Proof.
  intros Hne H. unfold _calculate_consensus_status, try_except.
  destruct reports as [|r reports]; [congruence|].
  rewrite H. reflexivity.
Qed.

(** C9. For a categorical field whose contributing reports all carry
    zero confidence, the majority threshold (60% of the total weight) is
    zero; the vote selects the first value encountered and reports no
    conflict, so the loop writes that value and appends nothing to the
    conflicts. *)
Theorem majority_vote_zero_weight
    (reports : list ValidatorReport) (field : string)
    (first : pyval) (rest : list pyval)
    (cs : status) (cf : list (string * bool)) :
  field_in field categorical_fields = true ->
  field_values field reports = first :: rest ->
  Forall (fun w => w == 0) (field_weights field reports) ->
  sumQ (field_weights field reports) * 0.6 == 0 /\
  _majority_vote (field_values field reports) (field_weights field reports)
    = (first, false) /\
  consensus_field reports (cs, cf) field = Ok (sset field (CVal first) cs, cf).
Proof.
  intros Hcat Hvalues Hzero.
  pose proof (field_weights_length field reports) as Hlen.
  pose proof (sumQ_zero _ Hzero) as Hsum.
  assert (_majority_vote (field_values field reports)
            (field_weights field reports) = (first, false)) as Hvote.
  { rewrite Hvalues in *.
    destruct (field_weights field reports) as [|w0 ws]; [discriminate|].
    unfold _majority_vote. cbn [combine fold_left].
    rewrite count_value_bump. cbn [bump].
    inversion Hzero as [|? ? Hw0 Hws]; subst.
    assert (Forall (fun p : pyval * Q => snd p == 0) (combine rest ws)) as Hpairs.
    { apply Forall_forall. intros [k w] Hp. apply in_combine_r in Hp.
      rewrite Forall_forall in Hws. exact (Hws _ Hp). }
    destruct (fold_count_head (combine rest ws) first (0 + w0) [] Hpairs)
      as [c' [t' [-> Hc']]].
    cbn [find snd].
    assert (Qle_bool (sumQ (w0 :: ws) * 0.6) c' = true) as ->.
    { apply Qle_bool_iff. rewrite Hsum, Hc', Hw0. lra. }
    reflexivity. }
  split; [rewrite Hsum; ring|]. split; [exact Hvote|].
  rewrite (consensus_field_categorical reports cs cf field first rest
             Hcat Hvalues), Hvote.
  reflexivity.
Qed.

Lemma majority_vote_zero_weight_witness :
  _majority_vote (field_values "is_serving" zero_reports)
                 (field_weights "is_serving" zero_reports)
  = (VBool false, false) /\
  consensus_field zero_reports ([], []) "is_serving"
  = Ok (sset "is_serving" (CVal (VBool false)) [], []).
Proof.
  destruct (majority_vote_zero_weight zero_reports "is_serving"
              (VBool false) [VBool true] [] [])
    as (_ & Hvote & Hstep).
  - reflexivity.
  - reflexivity.
  - repeat constructor.
  - split; [exact Hvote | exact Hstep].
Defined.

(** ** Distinct validators *)

Lemma In_dedup_Z (l : list Z) (y : Z) : In y (dedup Z.eqb l) <-> In y l.
Proof.
  induction l as [|x l IH]; simpl; [tauto|].
  rewrite filter_In, IH, negb_true_iff.
  destruct (Z.eqb_spec x y) as [->|Hne]; intuition congruence.
Qed.

Lemma NoDup_filter {A : Type} (f : A -> bool) (l : list A) :
  NoDup l -> NoDup (filter f l).
Proof.
  induction 1 as [|x l Hx _ IH]; simpl; [constructor|].
  destruct (f x); [|exact IH].
  constructor; [|exact IH]. rewrite filter_In. tauto.
Qed.

(** [len(set(r.validator_uid for r in reports))] counts each validator
    once. *)
Lemma dedup_Z_NoDup (l : list Z) : NoDup (dedup Z.eqb l).
Proof.
  induction l as [|x l IH]; simpl; constructor.
  - rewrite filter_In, negb_true_iff, Z.eqb_refl. intros [_ H]. discriminate.
  - now apply NoDup_filter.
Qed.

(** ** The majority vote over any arithmetic *)

Section VoteOverFloats.
Variable A : Arithmetic.

Lemma fp_count_value_bump (vc : list (pyval * flo A)) (v : pyval) (w : flo A) :
  FP.count_value A vc (v, w) = FP.bump A v w vc.
Proof.
  unfold FP.count_value, dict_mem.
  induction vc as [|[k c] t IH]; simpl.
  - rewrite py_eqb_refl. reflexivity.
  - destruct (py_eqb k v) eqn:E; simpl.
    + rewrite ?E. simpl. rewrite ?E. reflexivity.
    + destruct (dict_get py_eqb v t) as [c'|] eqn:G;
        simpl; rewrite ?E; simpl; rewrite ?G, ?E.
      * f_equal. rewrite G in IH. exact IH.
      * destruct (dict_get py_eqb v (dict_set py_eqb v (of_nat A 0) t))
          as [c'|] eqn:G'; simpl; rewrite ?E; f_equal; exact IH.
Qed.

Lemma fp_distinct_filter (f : pyval -> bool) (ks : list pyval) :
  FP.distinct ks -> FP.distinct (filter f ks).
Proof.
  induction ks as [|k t IH]; simpl; [trivial|].
  intros [Hk Ht]. destruct (f k); simpl; [|now apply IH].
  split; [|now apply IH].
  intros k' Hin. apply filter_In in Hin. apply Hk, Hin.
Qed.

Lemma fp_dedup_distinct (l : list pyval) : FP.distinct (dedup py_eqb l).
Proof.
  induction l as [|x l IH]; simpl; [trivial|].
  split.
  - intros k' Hin. apply filter_In in Hin. destruct Hin as [_ Hk'].
    now apply negb_true_iff in Hk'.
  - now apply fp_distinct_filter.
Qed.

Lemma fp_existsb_dedup (l : list pyval) (v : pyval) :
  existsb (fun k => py_eqb k v) (dedup py_eqb l)
  = existsb (fun k => py_eqb k v) l.
Proof.
  induction l as [|x l IH]; simpl; [reflexivity|].
  destruct (py_eqb x v) eqn:E; [reflexivity|]. simpl.
  rewrite <- IH. clear IH.
  induction (dedup py_eqb l) as [|y ys IHy]; simpl; [reflexivity|].
  destruct (py_eqb x y) eqn:Exy; simpl.
  - rewrite (py_eqb_false_l x y v Exy E). exact IHy.
  - now rewrite IHy.
Qed.

Lemma fp_dedup_snoc (l : list pyval) (v : pyval) :
  dedup py_eqb (l ++ [v])
  = if existsb (fun k => py_eqb k v) l
    then dedup py_eqb l else dedup py_eqb l ++ [v].
Proof.
  induction l as [|x l IH]; simpl; [reflexivity|].
  rewrite IH. destruct (py_eqb x v) eqn:E; simpl.
  - destruct (existsb (fun k => py_eqb k v) l); [reflexivity|].
    rewrite filter_app. simpl. rewrite E. simpl. now rewrite app_nil_r.
  - destruct (existsb (fun k => py_eqb k v) l); [reflexivity|].
    rewrite filter_app. simpl. rewrite E. reflexivity.
Qed.

Lemma fp_class_sum_snoc (k v : pyval) (w : flo A)
    (pairs : list (pyval * flo A)) :
  FP.class_sum A k (pairs ++ [(v, w)])
  = if py_eqb k v then fadd A (FP.class_sum A k pairs) w
    else FP.class_sum A k pairs.
Proof.
  unfold FP.class_sum. rewrite filter_app. simpl.
  destruct (py_eqb k v); simpl.
  - now rewrite map_app, fold_left_app.
  - now rewrite app_nil_r.
Qed.

Lemma fp_class_sum_absent (v : pyval) (pairs : list (pyval * flo A)) :
  existsb (fun k => py_eqb k v) (map fst pairs) = false ->
  FP.class_sum A v pairs = of_nat A 0.
Proof.
  unfold FP.class_sum. induction pairs as [|[k c] t IH]; simpl; [reflexivity|].
  intro H. apply orb_false_iff in H. destruct H as [Hk Ht].
  rewrite py_eqb_sym, Hk. now apply IH.
Qed.

Lemma fp_bump_map (v : pyval) (w : flo A) (g : pyval -> flo A)
    (ks : list pyval) :
  FP.distinct ks ->
  FP.bump A v w (map (fun k => (k, g k)) ks)
  = if existsb (fun k => py_eqb k v) ks
    then map (fun k => (k, if py_eqb k v then fadd A (g k) w else g k)) ks
    else map (fun k => (k, g k)) ks ++ [(v, fadd A (of_nat A 0) w)].
Proof.
  induction ks as [|k t IH]; simpl; [reflexivity|].
  intros [Hk Ht]. destruct (py_eqb k v) eqn:E; simpl.
  - f_equal. apply map_ext_in. intros k' Hin.
    rewrite (py_eqb_sym k' v).
    assert (py_eqb v k' = false) as ->; [|reflexivity].
    apply (py_eqb_false_l k v k' E). now apply Hk.
  - rewrite (IH Ht).
    destruct (existsb (fun k0 => py_eqb k0 v) t); reflexivity.
Qed.

(** The dict of the counts, once the loop is over: one entry for each
    distinct value, in the order in which the values first occur, that
    holds the sum of the weights of the value. *)
Lemma fp_counting_loop (pairs : list (pyval * flo A)) :
  fold_left (FP.count_value A) pairs []
  = map (fun k => (k, FP.class_sum A k pairs))
        (dedup py_eqb (map fst pairs)).
Proof.
  induction pairs as [|[v w] pairs IH] using rev_ind; [reflexivity|].
  rewrite fold_left_app. cbn [fold_left].
  rewrite fp_count_value_bump, IH.
  rewrite fp_bump_map by apply fp_dedup_distinct.
  rewrite map_app. cbn [map fst]. rewrite fp_dedup_snoc.
  rewrite fp_existsb_dedup.
  destruct (existsb (fun k => py_eqb k v) (map fst pairs)) eqn:E.
  - apply map_ext. intro k. now rewrite fp_class_sum_snoc.
  - rewrite map_app. cbn [map]. f_equal.
    + apply map_ext_in. intros k Hin. rewrite fp_class_sum_snoc.
      assert (py_eqb k v = false) as ->; [|reflexivity].
      rewrite <- fp_existsb_dedup in E.
      destruct (py_eqb k v) eqn:Ek; [|reflexivity].
      assert (existsb (fun k0 => py_eqb k0 v) (dedup py_eqb (map fst pairs)) = true)
        as Hex by (apply existsb_exists; exists k; auto).
      congruence.
    + rewrite fp_class_sum_snoc, py_eqb_refl.
      now rewrite (fp_class_sum_absent v pairs E).
Qed.

Lemma fp_find_ext {X : Type} (f g : X -> bool) (l : list X) :
  (forall x, f x = g x) -> find f l = find g l.
Proof.
  intro H. induction l as [|x l IH]; simpl; [reflexivity|].
  rewrite H, IH. reflexivity.
Qed.

Lemma fp_find_map (P : flo A -> bool) (g : pyval -> flo A) (ks : list pyval) :
  find (fun vc : pyval * flo A => P (snd vc)) (map (fun k => (k, g k)) ks)
  = option_map (fun k => (k, g k)) (find (fun k => P (g k)) ks).
Proof.
  induction ks as [|k t IH]; simpl; [reflexivity|].
  destruct (P (g k)); [reflexivity | exact IH].
Qed.

(** The values and the weights of a field, read off the reports that
    carry it. *)
Lemma fp_field_values (field : string) (reports : list ValidatorReport) :
  field_values field reports
  = map (fun r => match pget field (miner_status r) with
                  | Some v => v
                  | None => VNone
                  end)
        (filter (fun r => pmem field (miner_status r)) reports).
Proof.
  unfold field_values, pmem, dict_mem, pget.
  induction reports as [|r reports IH]; simpl; [reflexivity|].
  destruct (dict_get String.eqb field (miner_status r)) eqn:E; simpl.
  - rewrite E. now rewrite IH.
  - exact IH.
Qed.

Lemma fp_field_weights (field : string) (reports : list ValidatorReport) :
  FP.field_weights A field reports
  = map (fun r => lit A (confidence_score r))
        (filter (fun r => pmem field (miner_status r)) reports).
Proof.
  unfold FP.field_weights.
  induction reports as [|r reports IH]; simpl; [reflexivity|].
  destruct (pmem field (miner_status r)); simpl; now rewrite IH.
Qed.

Lemma fp_combine_map {X Y Z : Type} (f : X -> Y) (g : X -> Z) (l : list X) :
  combine (map f l) (map g l) = map (fun x => (f x, g x)) l.
Proof.
  induction l as [|x l IH]; simpl; [reflexivity | now rewrite IH].
Qed.

Lemma fp_filter_map {X Y : Type} (f : X -> Y) (p : Y -> bool) (l : list X) :
  filter p (map f l) = map f (filter (fun x => p (f x)) l).
Proof.
  induction l as [|x l IH]; simpl; [reflexivity|].
  destruct (p (f x)); simpl; now rewrite IH.
Qed.

Lemma fp_class_sum_reports (value : ValidatorReport -> pyval)
    (weight : ValidatorReport -> flo A) (k : pyval)
    (carrying : list ValidatorReport) :
  FP.class_sum A k (map (fun r => (value r, weight r)) carrying)
  = fold_left (fadd A)
      (map weight (filter (fun r => py_eqb k (value r)) carrying))
      (of_nat A 0).
Proof.
  unfold FP.class_sum. rewrite fp_filter_map, map_map. reflexivity.
Qed.

End VoteOverFloats.

(** C3, as the code has it.  For a categorical field ([is_serving],
    [hotkey]) the weight of a report is its confidence score, the summed
    weight of a value is the sum, in the order of the reports, of the
    weights of the reports whose value equals it, and the threshold is
    0.6 times the sum of the weights of the reports that carry the
    field, all three as the arithmetic of the interpreter computes them.
    If the summed weight of some value is at least the threshold, the
    first such value, in the order in which the values first occur, is
    selected and nothing is appended to the conflicts.  Otherwise the
    entry [(field, True)] is appended and the field gets the value of
    the first report, in the order of the input, that carries it. *)
Theorem majority_vote_first_to_reach
    (A : Arithmetic) (reports : list ValidatorReport) (field : string)
    (cs : FP.fstatus A) (cf : list (string * bool))
    (r0 : ValidatorReport) (others : list ValidatorReport) (first : pyval) :
  field = "is_serving"%string \/ field = "hotkey"%string ->
  filter (fun r => pmem field (miner_status r)) reports = r0 :: others ->
  pget field (miner_status r0) = Some first ->
  let carrying := r0 :: others in
  let weight := fun r => lit A (confidence_score r) in
  let value := fun r => match pget field (miner_status r) with
                        | Some v => v
                        | None => VNone
                        end in
  let threshold := fmul A (fsum A (map weight carrying)) (lit A 0.6) in
  let summed := fun v =>
    fold_left (fadd A)
              (map weight (filter (fun r => py_eqb v (value r)) carrying))
              (of_nat A 0) in
  FP.consensus_field A reports (cs, cf) field
  = match find (fun v => fle A threshold (summed v))
               (dedup py_eqb (map value carrying)) with
    | Some v => Ok (FP.fset A field (FVal v) cs, cf)
    | None => Ok (FP.fset A field (FVal first) cs, cf ++ [(field, true)])
    end.
Proof.
  intros Hfield Hcarry Hfirst carrying weight value threshold summed.
  unfold FP.consensus_field.
  rewrite fp_field_values, fp_field_weights, Hcarry.
  fold carrying. fold value. fold weight.
  assert (field_in field ["stake"; "performance_score"; "current_load"]%string
          = false) as -> by (destruct Hfield as [-> | ->]; reflexivity).
  assert (field_in field ["is_serving"; "hotkey"]%string = true) as ->
    by (destruct Hfield as [-> | ->]; reflexivity).
  assert (map value carrying = first :: map value others) as Hvalues.
  { unfold carrying. cbn [map]. unfold value at 1. now rewrite Hfirst. }
  unfold FP._majority_vote.
  rewrite fp_combine_map, fp_counting_loop, fp_find_map.
  assert (map fst (map (fun x => (value x, weight x)) carrying)
          = map value carrying) as ->
    by (rewrite map_map; apply map_ext; reflexivity).
  fold threshold.
  rewrite (fp_find_ext (fun k => fle A threshold
                      (FP.class_sum A k (map (fun x => (value x, weight x)) carrying)))
                    (fun v => fle A threshold (summed v))
                    (dedup py_eqb (map value carrying))).
  2:{ intro k. unfold summed. now rewrite fp_class_sum_reports. }
  destruct (find (fun v => fle A threshold (summed v))
                 (dedup py_eqb (map value carrying))) as [v|];
    rewrite Hvalues; reflexivity.
Qed.

Lemma majority_vote_first_to_reach_witness :
  FP.consensus_field binary64 [report_v1; report_v2] ([], []) "is_serving"
  = Ok ([("is_serving"%string, FVal (VBool true))], []) /\
  FP.consensus_field binary64 split_reports ([], []) "hotkey"
  = Ok ([("hotkey"%string, FVal (VStr "a"))], [("hotkey"%string, true)]).
Proof.
  split.
  - refine (eq_trans
              (majority_vote_first_to_reach binary64 [report_v1; report_v2]
                 "is_serving" [] [] report_v1 [report_v2] (VBool true) _ _ _)
              _).
    + left. reflexivity.
    + reflexivity.
    + reflexivity.
    + vm_compute. reflexivity.
  - refine (eq_trans
              (majority_vote_first_to_reach binary64 split_reports
                 "hotkey" [] []
                 (mkReport 1 (VInt 5) 1700000000000000 0
                           [("hotkey", VStr "a")]%string 1)
                 [mkReport 2 (VInt 5) 1700000001000000 0
                           [("hotkey", VStr "b")]%string 1;
                  mkReport 3 (VInt 5) 1700000002000000 0
                           [("hotkey", VStr "c")]%string 1]
                 (VStr "a") _ _ _)
              _).
    + right. reflexivity.
    + reflexivity.
    + reflexivity.
    + vm_compute. reflexivity.
Defined.

(** The entry that records a conflict is the pair of the field and the
    flag [True], not a reason such as "no_majority": three
    complete reports that name three hotkeys leave [("hotkey", True)].
    And at the threshold the rounding decides: of five reports of
    confidence 0.9000000000000001, which the scorer gives, three see the
    miner serving; their share of the weight is 60% exactly, and yet the
    sum of three weights, 2.7, is below 0.6 times the sum of five,
    2.7000000000000006: a conflict is recorded. *)
Lemma no_majority_at_sixty_percent :
  FP.consensus_field binary64 hotkey_reports ([], []) "hotkey"
  = Ok ([("hotkey"%string, FVal (VStr "5F"))], [("hotkey"%string, true)]) /\
  FP.consensus_field binary64 boundary_reports ([], []) "is_serving"
  = Ok ([("is_serving"%string, FVal (VBool true))],
        [("is_serving"%string, true)]) /\
  sumQ (map confidence_score
            (filter (fun r => py_eqb (VBool true)
                                (match pget "is_serving" (miner_status r) with
                                 | Some v => v
                                 | None => VNone
                                 end))
                    boundary_reports))
  == 0.6 * sumQ (map confidence_score boundary_reports) /\
  fst (FP._calculate_validator_confidence binary64 scenario_clock
         (reads_as (1700000000000000 - minutes 10)) 1
         (boundary_payload true) empty_world)
  = Ok (double_of_Q 0.9000000000000001) /\
  fst (FP._calculate_validator_confidence binary64 scenario_clock
         no_datetime 1 (hotkey_payload "5F") empty_world)
  = Ok (double_of_Q 1).
Proof.
  repeat split; vm_compute; reflexivity.
Qed.

(** ** The weighted average over any arithmetic *)

Section AverageOverFloats.
Variable A : Arithmetic.






End AverageOverFloats.



(** ** Signs and order of doubles *)

Lemma round_aux_not_below_zero (m e : Z) (l : SpecFloat.location) :
  sf_unsigned
    (SpecFloat.binary_round_aux FloatOps.prec FloatOps.emax false m e l) = true.
Proof.
  unfold SpecFloat.binary_round_aux.
  destruct (SpecFloat.shr_fexp _ _ m e l) as [mrs' e'].
  destruct (SpecFloat.shr_fexp _ _ _ e' _) as [mrs'' e''].
  destruct (SpecFloat.shr_m mrs'') as [|p|p]; try reflexivity.
  destruct (e'' <=? _)%Z; reflexivity.
Qed.

Lemma normalize_not_below_zero (m e : Z) :
  (0 <= m)%Z ->
  sf_unsigned
    (SpecFloat.binary_normalize FloatOps.prec FloatOps.emax m e false) = true.
Proof.
  intro H. unfold SpecFloat.binary_normalize.
  destruct m as [|p|p]; [reflexivity| |lia].
  unfold SpecFloat.binary_round.
  destruct (SpecFloat.shl_align _ _ _) as [mz ez].
  apply round_aux_not_below_zero.
Qed.

Lemma sf_unsigned_not_below_zero (s : SpecFloat.spec_float) :
  sf_unsigned s = true -> sf_not_below_zero s = true.
Proof. destruct s as [b|b| |b m e]; try destruct b; auto. Qed.

Lemma add_not_below_zero (x y : PrimFloat.float) :
  not_below_zero x -> not_below_zero y -> not_below_zero (PrimFloat.add x y).
Proof.
  unfold not_below_zero. rewrite FloatAxioms.add_spec.
  unfold FloatAxioms.SF64add.
  destruct (FloatOps.Prim2SF x) as [sx|sx| |sx mx ex],
           (FloatOps.Prim2SF y) as [sy|sy| |sy my ey];
    cbn [sf_not_below_zero SpecFloat.SFadd]; intros Hx Hy;
    try (destruct sx; try discriminate);
    try (destruct sy; try discriminate); try reflexivity.
  cbn [SpecFloat.cond_Zopp].
  apply sf_unsigned_not_below_zero, normalize_not_below_zero. lia.
Qed.

Lemma mul_not_below_zero (x y : PrimFloat.float) :
  not_below_zero x -> not_below_zero y -> not_below_zero (PrimFloat.mul x y).
Proof.
  unfold not_below_zero. rewrite FloatAxioms.mul_spec.
  unfold FloatAxioms.SF64mul.
  destruct (FloatOps.Prim2SF x) as [sx|sx| |sx mx ex],
           (FloatOps.Prim2SF y) as [sy|sy| |sy my ey];
    cbn [sf_not_below_zero SpecFloat.SFmul]; intros Hx Hy;
    try (destruct sx; try discriminate);
    try (destruct sy; try discriminate); try reflexivity.
  cbn [xorb].
  apply sf_unsigned_not_below_zero, round_aux_not_below_zero.
Qed.

Lemma div_not_below_zero (x y : PrimFloat.float) :
  not_below_zero x -> sf_unsigned (FloatOps.Prim2SF y) = true ->
  not_below_zero (PrimFloat.div x y).
Proof.
  unfold not_below_zero. rewrite FloatAxioms.div_spec.
  unfold FloatAxioms.SF64div.
  destruct (FloatOps.Prim2SF x) as [sx|sx| |sx mx ex],
           (FloatOps.Prim2SF y) as [sy|sy| |sy my ey];
    cbn [sf_not_below_zero sf_unsigned SpecFloat.SFdiv]; intros Hx Hy;
    try (destruct sx; try discriminate);
    try (destruct sy; try discriminate); try reflexivity.
  cbn [xorb].
  destruct (SpecFloat.SFdiv_core_binary _ _ _ _ _ _) as [[mz ez] lz].
  apply sf_unsigned_not_below_zero, round_aux_not_below_zero.
Qed.

Lemma sub_zero_not_below_zero (x : PrimFloat.float) :
  not_below_zero x -> not_below_zero (PrimFloat.sub x PrimFloat.zero).
Proof.
  unfold not_below_zero. rewrite FloatAxioms.sub_spec.
  unfold FloatAxioms.SF64sub.
  change (FloatOps.Prim2SF PrimFloat.zero) with (SpecFloat.S754_zero false).
  destruct (FloatOps.Prim2SF x) as [sx|sx| |sx mx ex];
    cbn [sf_not_below_zero SpecFloat.SFsub]; intros Hx;
    try (destruct sx; try discriminate); try reflexivity.
Qed.

Lemma count_unsigned (n : nat) :
  sf_unsigned (FloatOps.Prim2SF (double_of_count n)) = true.
Proof.
  unfold double_of_count. rewrite FloatAxioms.of_uint63_spec.
  apply normalize_not_below_zero.
  apply (Uint63.to_Z_bounded (Uint63.of_Z (Z.of_nat n))).
Qed.

Lemma double_ltb_leb (x y : PrimFloat.float) :
  PrimFloat.ltb x y = true -> PrimFloat.leb x y = true.
Proof.
  rewrite FloatAxioms.ltb_spec, FloatAxioms.leb_spec.
  unfold SpecFloat.SFltb, SpecFloat.SFleb.
  destruct (SpecFloat.SFcompare _ _) as [[| |]|]; congruence.
Qed.

Lemma leb_zero_not_below_zero (x : PrimFloat.float) :
  PrimFloat.leb PrimFloat.zero x = true -> not_below_zero x.
Proof.
  unfold not_below_zero. rewrite FloatAxioms.leb_spec.
  change (FloatOps.Prim2SF PrimFloat.zero) with (SpecFloat.S754_zero false).
  unfold SpecFloat.SFleb.
  destruct (FloatOps.Prim2SF x) as [sx|sx| |sx mx ex]; cbn;
    try reflexivity; destruct sx; (reflexivity || discriminate).
Qed.

Lemma double_ltb_leb_zero (x y : PrimFloat.float) :
  not_below_zero x -> PrimFloat.ltb x y = true ->
  PrimFloat.leb PrimFloat.zero x = true.
Proof.
  unfold not_below_zero. rewrite FloatAxioms.ltb_spec, FloatAxioms.leb_spec.
  change (FloatOps.Prim2SF PrimFloat.zero) with (SpecFloat.S754_zero false).
  unfold SpecFloat.SFltb, SpecFloat.SFleb.
  destruct (FloatOps.Prim2SF x) as [sx|sx| |sx mx ex]; cbn;
    try reflexivity; try discriminate;
    destruct sx; (reflexivity || discriminate).
Qed.

Lemma sum_not_below_zero (xs : list PrimFloat.float) :
  Forall not_below_zero xs -> not_below_zero (double_sum xs).
Proof.
  unfold double_sum.
  assert (not_below_zero PrimFloat.zero) as Hzero by reflexivity.
  revert Hzero. generalize PrimFloat.zero as acc.
  induction xs as [|x xs IH]; intros acc Hacc H; [exact Hacc|].
  inversion H; subst. cbn [fold_left].
  apply IH; [now apply add_not_below_zero | assumption].
Qed.

Lemma py_min_not_below_zero (a b : PrimFloat.float) :
  not_below_zero a -> not_below_zero b -> not_below_zero (FP.py_min binary64 a b).
Proof.
  intros Ha Hb. unfold FP.py_min. destruct (flt binary64 b a); assumption.
Qed.

(** [max(0.1, min(1.0, c))] lies between 0.1 and 1.0 whatever the
    double [c] is, a NaN included. *)
Lemma clamp_in_doubles (c : PrimFloat.float) :
  let r := FP.py_max binary64 (double_of_Q 0.1)
             (FP.py_min binary64 (double_of_Q 1) c) in
  PrimFloat.leb (double_of_Q 0.1) r = true /\
  PrimFloat.leb r (double_of_Q 1) = true.
Proof.
  unfold FP.py_max, FP.py_min. cbn [flt binary64].
  destruct (PrimFloat.ltb c (double_of_Q 1)) eqn:Ec.
  - destruct (PrimFloat.ltb (double_of_Q 0.1) c) eqn:El.
    + split; [now apply double_ltb_leb | now apply double_ltb_leb].
    + split; vm_compute; reflexivity.
  - destruct (PrimFloat.ltb (double_of_Q 0.1) (double_of_Q 1)) eqn:El.
    + split; vm_compute; reflexivity.
    + split; vm_compute; reflexivity.
Qed.

(** ** The confidence of a consensus record *)

(** C5.  For a non-empty list of reports the confidence of the record
    is [min(1.0, mean + bonus - 0.0)], where the mean is the sum of the
    confidence scores divided by their number and the bonus is
    [min(0.2, n * 0.1)] for [n] distinct validators, whatever the
    arithmetic of the interpreter.  There is no test against 0; and yet,
    in IEEE doubles, when no confidence score is below zero (the scorer
    gives 0.1 at least) the result lies between 0 and 1: no sum, product
    or quotient of the formula falls below zero, so that the cap at 1 is
    the clamp to the interval. *)
Theorem overall_confidence_clamped (reports : list ValidatorReport) :
  reports <> [] ->
  Forall (fun r => fle binary64 (lit binary64 0)
                       (lit binary64 (confidence_score r)) = true) reports ->
  (forall A : Arithmetic,
     let mean :=
       fdiv A (fsum A (map (fun r => lit A (confidence_score r)) reports))
              (of_nat A (length reports)) in
     let bonus :=
       FP.py_min A (lit A 0.2)
         (fmul A (of_nat A (length (dedup Z.eqb (map validator_uid reports))))
                 (lit A 0.1)) in
     FP._calculate_overall_confidence A reports
     = FP.py_min A (lit A 1) (fsub A (fadd A mean bonus) (lit A 0))) /\
  fle binary64 (lit binary64 0)
      (FP._calculate_overall_confidence binary64 reports) = true /\
  fle binary64 (FP._calculate_overall_confidence binary64 reports)
      (lit binary64 1) = true.
Proof.
  intros Hne Hpos.
  destruct reports as [|r reports]; [contradiction|].
  split; [intro A; reflexivity|].
  unfold FP._calculate_overall_confidence.
  set (rs := r :: reports) in *.
  cbn [fle flt fadd fsub fmul fdiv fsum lit of_nat binary64].
  set (mean := PrimFloat.div _ _).
  set (bonus := FP.py_min binary64 (double_of_Q 0.2) _).
  assert (not_below_zero mean) as Hmean.
  { apply div_not_below_zero; [|apply count_unsigned].
    apply sum_not_below_zero. apply Forall_forall. intros x Hx.
    apply in_map_iff in Hx. destruct Hx as [r' [<- Hr']].
    rewrite Forall_forall in Hpos. apply leb_zero_not_below_zero.
    exact (Hpos r' Hr'). }
  assert (not_below_zero bonus) as Hbonus.
  { apply py_min_not_below_zero; [reflexivity|].
    apply mul_not_below_zero; [|reflexivity].
    apply sf_unsigned_not_below_zero, count_unsigned. }
  assert (not_below_zero
            (PrimFloat.sub (PrimFloat.add mean bonus) (double_of_Q 0))) as Hsum.
  { apply sub_zero_not_below_zero. now apply add_not_below_zero. }
  unfold FP.py_min at 1 2. cbn [flt binary64].
  destruct (PrimFloat.ltb (PrimFloat.sub (PrimFloat.add mean bonus)
                                         (double_of_Q 0))
                          (double_of_Q 1)) eqn:E.
  - split; [exact (double_ltb_leb_zero _ _ Hsum E) | now apply double_ltb_leb].
  - split; vm_compute; reflexivity.
Qed.

Lemma overall_confidence_clamped_witness :
  FP._calculate_overall_confidence binary64 [report_v1; report_v2]
  = double_of_Q 0.95 /\
  fle binary64 (lit binary64 0)
      (FP._calculate_overall_confidence binary64 [report_v1; report_v2])
  = true /\
  fle binary64 (FP._calculate_overall_confidence binary64 [report_v1; report_v2])
      (lit binary64 1) = true.
Proof.
  destruct (overall_confidence_clamped [report_v1; report_v2])
    as [Hvalue Hrange].
  - discriminate.
  - repeat constructor.
  - split; [|exact Hrange].
    rewrite (Hvalue binary64). vm_compute. reflexivity.
Defined.

(** ** The confidence of a report and the clock *)

(** C6, the defect.  The bonus for recent data goes to every
    [last_seen] that is less than five minutes behind the clock, and so
    to every [last_seen] that is ahead of the clock, by whatever
    margin: the score is the clamp of the base (1.0, less 0.1 for each
    missing required field, plus 0.05 for each detailed field) plus
    0.1. *)
Theorem last_seen_ahead_of_the_clock
    (A : Arithmetic) (clock : nat -> Z)
    (fromisoformat : pyval -> parsed_datetime) (validator : Z)
    (miner_status : payload) (v : pyval) (last_seen : Z) (w : World) :
  pget "last_seen" miner_status = Some v ->
  fromisoformat v = Naive last_seen ->
  (clock (clock_reads w) < last_seen)%Z ->
  let missing :=
    length (filter (fun f => negb (pmem f miner_status))
                   ["uid"; "hotkey"; "stake"; "is_serving"]%string) in
  let detailed :=
    length (filter (fun f => pmem f miner_status)
                   ["performance_score"; "current_load";
                    "task_type_specialization"]%string) in
  let base :=
    fadd A (match missing with
            | O => lit A 1
            | S _ => fsub A (lit A 1) (fmul A (of_nat A missing) (lit A 0.1))
            end)
           (fmul A (of_nat A detailed) (lit A 0.05)) in
  fst (FP._calculate_validator_confidence A clock fromisoformat validator
         miner_status w)
  = Ok (FP.py_max A (lit A 0.1) (FP.py_min A (lit A 1) (fadd A base (lit A 0.1)))).
Proof.
  intros Hseen Hparse Hahead missing detailed base.
  unfold FP._calculate_validator_confidence, try_except, bind, ret, raise,
    datetime_now.
  rewrite Hseen, Hparse.
  assert ((clock (clock_reads w) - last_seen <? minutes 5)%Z = true) as ->
    by (apply Z.ltb_lt; unfold minutes; lia).
  cbn [fst]. unfold base, missing.
  destruct (filter (fun f => negb (pmem f miner_status))
                   ["uid"; "hotkey"; "stake"; "is_serving"]%string);
    reflexivity.
Qed.

Lemma last_seen_ahead_of_the_clock_witness :
  fst (FP._calculate_validator_confidence binary64 scenario_clock
         (reads_as (1700000000000000 + hours 1)) 7 dated_payload empty_world)
  = Ok (double_of_Q 1) /\
  fst (FP._calculate_validator_confidence binary64 scenario_clock
         (reads_as (1700000000000000 - hours 1)) 7 dated_payload empty_world)
  = Ok (double_of_Q 0.9) /\
  fst (FP._calculate_validator_confidence binary64 scenario_clock
         (reads_as (1700000000000000 + hours 1)) 7 undated_payload empty_world)
  = Ok (double_of_Q 0.9).
Proof.
  split; [|split; vm_compute; reflexivity].
  refine (eq_trans
            (last_seen_ahead_of_the_clock binary64 scenario_clock
               (reads_as (1700000000000000 + hours 1)) 7 dated_payload
               (VStr "2023-11-14T23:13:20") (1700000000000000 + hours 1)
               empty_world _ _ _)
            _).
  - reflexivity.
  - reflexivity.
  - vm_compute. reflexivity.
  - vm_compute. reflexivity.
Defined.

(** X22.  In IEEE doubles the confidence of a report lies between 0.1
    and 1.0 for every payload, every clock and every outcome of the
    parser: the scorer returns, and what it returns is
    [max(0.1, min(1.0, c))], which no rounding of [c] takes out of the
    interval. *)
Theorem validator_confidence_in_doubles
    (clock : nat -> Z) (fromisoformat : pyval -> parsed_datetime)
    (validator : Z) (miner_status : payload) (w : World) :
  exists score,
    fst (FP._calculate_validator_confidence binary64 clock fromisoformat
           validator miner_status w) = Ok score /\
    fle binary64 (lit binary64 0.1) score = true /\
    fle binary64 score (lit binary64 1) = true.
Proof.
  unfold FP._calculate_validator_confidence, try_except, bind, ret, raise,
    datetime_now.
  destruct (pget "last_seen" miner_status) as [v|].
  - destruct (fromisoformat v) as [| |last_seen].
    + eexists. split; [reflexivity | apply clamp_in_doubles].
    + eexists. split; [reflexivity | apply clamp_in_doubles].
    + destruct (clock (clock_reads w) - last_seen <? minutes 5)%Z.
      * eexists. split; [reflexivity | apply clamp_in_doubles].
      * destruct (clock (clock_reads w) - last_seen <? minutes 15)%Z;
          eexists; (split; [reflexivity | apply clamp_in_doubles]).
  - eexists. split; [reflexivity | apply clamp_in_doubles].
Qed.

(** ** Errors of the store *)

(** C7, as the code has it.  A failure of the store while a report is
    persisted, at the first write or at the second, is raised to the
    caller of [_store_validator_report] after that one request; a
    failure of the recency-window query is not raised:
    [_get_recent_miner_reports] returns the empty list after that one
    request.  Neither step sends the request again. *)
Theorem store_failure_paths
    (clock : nat -> Z) (io_fails : nat -> bool)
    (uid : pyval) (report : ValidatorReport) (w : World) :
  let id := (validator_uid report, miner_uid report,
             (timestamp report / 1000000)%Z) in
  (io_fails (length (io_log w)) = true ->
   _store_validator_report io_fails report w
   = (Raise StoreError, log_io (SetReport id) w) /\
   _get_recent_miner_reports clock io_fails uid w
   = (Ok [], log_io (StreamReports uid) (tick_clock w))) /\
  (io_fails (length (io_log w)) = false ->
   io_fails (S (length (io_log w))) = true ->
   _store_validator_report io_fails report w
   = (Raise StoreError,
      log_io (SetMinerStatus (miner_uid report))
             (put_report id report (log_io (SetReport id) w)))).
Proof.
  intro id. split.
  - intro Hfail. split.
    + unfold _store_validator_report, try_except, bind, store_write, raise.
      now rewrite Hfail.
    + unfold _get_recent_miner_reports, try_except, bind, datetime_now,
        stream_reports, ret.
      cbn [io_log tick_clock]. now rewrite Hfail.
  - intros Hok Hfail.
    unfold _store_validator_report, try_except, bind, store_write, raise.
    rewrite Hok. cbn [io_log put_report log_io].
    rewrite length_app, Nat.add_1_r, Hfail. reflexivity.
Qed.

Lemma store_failure_paths_witness :
  fst (_store_validator_report store_down report_v7 empty_world)
  = Raise StoreError /\
  fst (_get_recent_miner_reports scenario_clock store_down (VInt 5) empty_world)
  = Ok [] /\
  io_log (snd (_get_recent_miner_reports scenario_clock store_down (VInt 5)
                 empty_world))
  = [StreamReports (VInt 5)].
Proof.
  destruct (store_failure_paths scenario_clock store_down (VInt 5) report_v7
              empty_world) as [Hfirst _].
  destruct (Hfirst eq_refl) as [Hstore Hquery].
  rewrite Hstore, Hquery. repeat split.
Defined.

(** The recency-window query does not surface a failure of the store:
    with the store down it returns normally, with no report. *)
Lemma query_failure_is_swallowed :
  _get_recent_miner_reports scenario_clock store_down (VInt 5) empty_world
  = (Ok [], log_io (StreamReports (VInt 5)) (tick_clock empty_world)).
Proof.
  reflexivity.
Qed.

(** ** Defects *)

(** C1.  For the default-class field [region], reported "eu" and then,
    more recently, "us" by two validators of equal confidence, the code
    returns 5: the value of the first key ([uid]) of the most recent
    report, not that report's value of [region]. *)
Theorem most_recent_reads_first_key :
  field_values "region" region_reports = [VStr "eu"; VStr "us"] /\
  field_weights "region" region_reports = [1; 1] /\
  _most_recent_high_confidence (field_values "region" region_reports)
                               (field_weights "region" region_reports)
                               region_reports
  = Ok (VInt 5) /\
  consensus_field region_reports ([], []) "region"
  = Ok ([("region", CVal (VInt 5))]%string, []).
Proof.
  repeat split.
Qed.

(** The weights of a field are those of the reports that carry it, but
    the filter on confidence pairs them with the reports from the first
    on: here the weight 1.0 of validator 3 falls on the report of
    validator 2 (confidence 0.5), whose value is returned. *)
Example high_confidence_is_misaligned :
  field_weights "region" partial_reports = [0.5; 1] /\
  _most_recent_high_confidence (field_values "region" partial_reports)
                               (field_weights "region" partial_reports)
                               partial_reports
  = Ok (VStr "eu").
Proof.
  split; reflexivity.
Qed.

(** C2.  Validator 7 reports miner 5 twice, a few seconds apart, and no
    other validator reports it.  The second report finds two reports in
    the window, of one validator; the guard counts reports, so a
    consensus is computed, the consensus document is written and the
    cache entry of the miner is set. *)
Theorem consensus_from_one_validator :
  let '(r1, w1) :=
    receive_validator_report scenario_clock store_up [] no_datetime
                             7 [full_payload] 1 empty_world in
  let '(r2, w2) :=
    receive_validator_report scenario_clock store_up [] no_datetime
                             7 [full_payload] 2 w1 in
  r1 = Success 1 0 7 1 /\
  dict_get py_eqb (VInt 5) (consensus_cache w1) = None /\
  r2 = Success 1 1 7 2 /\
  map (fun d => validator_uid (snd d)) (validator_reports_collection w2)
  = [7; 7]%Z /\
  (length (dedup Z.eqb (map (fun d => validator_uid (snd d))
                            (validator_reports_collection w2)))
   < min_consensus_validators)%nat /\
  dict_mem py_eqb (VInt 5) (consensus_collection w2) = true /\
  exists s,
    dict_get py_eqb (VInt 5) (consensus_cache w2) = Some s /\
    sget "consensus_validators" s = Some (CValidators [7%Z]).
Proof.
  vm_compute.
  do 4 (split; [reflexivity|]).
  split; [apply Nat.le_refl|]. split; [reflexivity|].
  eexists. split; reflexivity.
Qed.

(** What holds of the guard: with fewer than two reports in the window
    the update returns 0 and leaves the consensus collection and the
    cache as they are. *)
Lemma update_needs_two_reports
    (clock : nat -> Z) (io_fails : nat -> bool) (seed : list nat)
    (uid : pyval) (w w1 : World) (recent : list ValidatorReport) :
  _get_recent_miner_reports clock io_fails uid w = (Ok recent, w1) ->
  (length recent < min_consensus_validators)%nat ->
  _update_miner_consensus clock io_fails seed uid w = (Ok 0%Z, w1) /\
  consensus_collection w1 = consensus_collection w /\
  consensus_cache w1 = consensus_cache w.
Proof.
  intros Hget Hlen. split.
  - unfold _update_miner_consensus, try_except, bind, ret. rewrite Hget.
    apply Nat.ltb_lt in Hlen. now rewrite Hlen.
  - revert Hget.
    unfold _get_recent_miner_reports, try_except, bind, datetime_now,
      stream_reports, ret.
    cbn [io_log tick_clock].
    destruct (io_fails (length (io_log w))); intro H; inversion H; subst;
      split; reflexivity.
Qed.

(** Three validators, three hotkeys, equal weights: no value holds 60%,
    the first one is kept and the conflict is recorded. *)
Example split_vote_is_a_conflict :
  consensus_field split_reports ([], []) "hotkey"
  = Ok ([("hotkey", CVal (VStr "a"))]%string, [("hotkey", true)]%string).
Proof.
  reflexivity.
Qed.

(** ** The batch loop *)

Section Batch.
Variable clock : nat -> Z.
Variable io_fails : nat -> bool.
Variable hash_seed : list nat.
Variable fromisoformat : pyval -> parsed_datetime.
Variables (validator ep : Z).

(** A consensus update never raises and returns 0 or 1. *)
Lemma update_miner_consensus_result (uid : pyval) (w : World) :
  exists n w',
    _update_miner_consensus clock io_fails hash_seed uid w = (Ok n, w') /\
    (n = 0 \/ n = 1)%Z.
Proof.
  unfold _update_miner_consensus, try_except, bind, ret.
  destruct (_get_recent_miner_reports clock io_fails uid w) as [[recent|e] w1];
    [|eauto].
  destruct (length recent <? min_consensus_validators)%nat; [eauto|].
  destruct (_calculate_consensus_status clock hash_seed uid recent w1)
    as [[s|e] w2]; [|eauto].
  unfold datetime_now, store_write, modify.
  destruct (io_fails _); eauto.
Qed.

(** The confidence scorer never raises and makes no request to the
    store. *)
Lemma validator_confidence_total (item : payload) (w : World) :
  exists q w',
    _calculate_validator_confidence clock fromisoformat validator item w
    = (Ok q, w') /\
    io_log w' = io_log w /\
    validator_reports_collection w' = validator_reports_collection w /\
    miner_status_collection w' = miner_status_collection w /\
    consensus_collection w' = consensus_collection w /\
    consensus_cache w' = consensus_cache w.
Proof.
  unfold _calculate_validator_confidence, try_except, bind, ret, raise,
    datetime_now.
  destruct (pget "last_seen" item) as [v|]; [|do 2 eexists; repeat split].
  destruct (fromisoformat v); do 2 eexists; repeat split.
Qed.

Lemma process_miner_skips (item : payload) (s : counters * World) :
  pget "uid" item = None \/ pget "uid" item = Some VNone ->
  process_miner clock io_fails hash_seed fromisoformat validator ep item s
  = (Ok tt, s).
Proof.
  unfold process_miner, try_except. intros [-> | ->]; reflexivity.
Qed.

Lemma process_miner_uid (item : payload) (uid : pyval) (s : counters * World) :
  pget "uid" item = Some uid -> uid <> VNone ->
  process_miner clock io_fails hash_seed fromisoformat validator ep item s
  = try_except
      (register_report clock io_fails hash_seed fromisoformat validator ep
                       uid item)
      (fun _ => ret tt) s.
Proof.
  intros H Hne. unfold process_miner. rewrite H.
  destruct uid; try reflexivity. congruence.
Qed.

Lemma register_report_result (uid : pyval) (item : payload)
    (p u : Z) (w : World) :
  exists p' u' w',
    try_except
      (register_report clock io_fails hash_seed fromisoformat validator ep
                       uid item)
      (fun _ => ret tt) ((p, u), w)
    = (Ok tt, ((p', u'), w')) /\
    ((p' = p /\ u' = u) \/ (p' = p + 1 /\ (u' = u \/ u' = u + 1)))%Z.
Proof.
  unfold register_report, try_except, bind, in_frame, modify, ret, datetime_now.
  destruct (validator_confidence_total item (tick_clock w)) as [q [w1 [-> _]]].
  destruct (_store_validator_report io_fails _ w1) as [[[]|e] w2].
  - destruct (update_miner_consensus_result uid w2) as [n [w3 [-> Hn]]].
    do 3 eexists. split; [reflexivity|]. right. split; [reflexivity|].
    destruct Hn as [-> | ->]; [left; ring | right; reflexivity].
  - do 3 eexists. split; [reflexivity|]. left. split; reflexivity.
Qed.

(** A turn of the loop never raises; it leaves the counters as they
    are, or counts the item as processed and then may count a consensus
    update. *)
Lemma process_miner_result (item : payload) (p u : Z) (w : World) :
  exists p' u' w',
    process_miner clock io_fails hash_seed fromisoformat validator ep item
                  ((p, u), w)
    = (Ok tt, ((p', u'), w')) /\
    ((p' = p /\ u' = u) \/ (p' = p + 1 /\ (u' = u \/ u' = u + 1)))%Z.
Proof.
  destruct (pget "uid" item) as [uid|] eqn:E.
  - destruct uid eqn:Eu.
    1: { exists p, u, w. split; [apply process_miner_skips; auto | auto]. }
    all: rewrite (process_miner_uid item _ _ E) by discriminate;
      apply register_report_result.
  - exists p, u, w. split; [apply process_miner_skips; auto | auto].
Qed.

Lemma process_miners_result (items : list payload) (p u : Z) (w : World) :
  exists p' u' w',
    process_miners clock io_fails hash_seed fromisoformat validator ep items
                   ((p, u), w)
    = (Ok tt, ((p', u'), w')) /\
    (p <= p' <= p + Z.of_nat (length items) /\ u <= u' /\ u' - u <= p' - p)%Z.
Proof.
  revert p u w. induction items as [|item items IH]; intros p u w.
  - exists p, u, w. split; [reflexivity | simpl; lia].
  - cbn [process_miners]. unfold bind.
    destruct (process_miner_result item p u w) as [p1 [u1 [w1 [E1 H1]]]].
    destruct (IH p1 u1 w1) as [p2 [u2 [w2 [E2 H2]]]].
    exists p2, u2, w2. split; [rewrite E1; exact E2|].
    rewrite length_cons, Nat2Z.inj_succ. lia.
Qed.

Lemma process_miners_app (before after : list payload) (s : counters * World) :
  process_miners clock io_fails hash_seed fromisoformat validator ep
                 (before ++ after) s
  = process_miners clock io_fails hash_seed fromisoformat validator ep after
      (snd (process_miners clock io_fails hash_seed fromisoformat validator ep
                           before s)).
Proof.
  revert s. induction before as [|item before IH]; intros [[p u] w].
  - reflexivity.
  - cbn [app process_miners]. unfold bind.
    destruct (process_miner_result item p u w) as [p1 [u1 [w1 [E _]]]].
    unfold counters in *. rewrite E.
    apply IH.
Qed.

(** The result of a call depends on the batch through the loop only. *)
Lemma receive_by_loop (batch1 batch2 : list payload) (w1 w2 : World) :
  process_miners clock io_fails hash_seed fromisoformat validator ep batch1
                 ((0, 0)%Z, w1)
  = process_miners clock io_fails hash_seed fromisoformat validator ep batch2
                   ((0, 0)%Z, w2) ->
  receive_validator_report clock io_fails hash_seed fromisoformat validator
                           batch1 ep w1
  = receive_validator_report clock io_fails hash_seed fromisoformat validator
                             batch2 ep w2.
Proof.
  intro H. unfold receive_validator_report, try_except, bind. now rewrite H.
Qed.

Lemma receive_result (batch : list payload) (w : World) :
  exists processed updated w',
    receive_validator_report clock io_fails hash_seed fromisoformat validator
                             batch ep w
    = (Success processed updated validator ep, w') /\
    (0 <= updated <= processed /\ processed <= Z.of_nat (length batch))%Z.
Proof.
  unfold receive_validator_report, try_except, bind.
  destruct (process_miners_result batch 0 0 w) as [p [u [w1 [E H]]]].
  rewrite E.
  unfold in_frame, _update_consensus_cache, try_except, bind, datetime_now,
    modify, ret.
  do 3 eexists. split; [reflexivity | lia].
Qed.

(** An item whose first request to the store fails: nothing is stored,
    the counters keep their values, one request was made. *)
Lemma register_report_store_fails (uid : pyval) (item : payload)
    (p u : Z) (w : World) :
  io_fails (length (io_log w)) = true ->
  exists w',
    try_except
      (register_report clock io_fails hash_seed fromisoformat validator ep
                       uid item)
      (fun _ => ret tt) ((p, u), w)
    = (Ok tt, ((p, u), w')) /\
    validator_reports_collection w' = validator_reports_collection w /\
    consensus_collection w' = consensus_collection w /\
    consensus_cache w' = consensus_cache w /\
    io_log w'
    = io_log w ++ [SetReport (validator, uid,
                              (clock (clock_reads w) / 1000000)%Z)].
Proof.
  intro Hfail.
  unfold register_report, try_except, bind, in_frame, modify, ret, datetime_now.
  destruct (validator_confidence_total item (tick_clock w))
    as [q [w1 [-> [Hlog [Hr [_ [Hc Hk]]]]]]].
  unfold _store_validator_report, try_except, bind, store_write, raise.
  cbn [validator_uid miner_uid timestamp].
  rewrite Hlog. cbn [io_log tick_clock]. rewrite Hfail.
  eexists. split; [reflexivity|].
  cbn [log_io validator_reports_collection consensus_collection
       consensus_cache io_log].
  rewrite Hr, Hc, Hk, Hlog. repeat split.
Qed.

(** C8.  A call returns the summary with the count of processed items,
    which is at most the size of the batch; an item without uid (absent
    or [None]) is skipped, the call going as if the item were not in the
    batch; a turn of the loop never raises, so the items that follow are
    processed whatever happened to the item; and an item whose write to
    the store fails is not counted and not stored, the loop going on
    with the rest. *)
Theorem batch_tolerates_failures (w : World) :
  (forall batch,
     exists processed updated w',
       receive_validator_report clock io_fails hash_seed fromisoformat
                                validator batch ep w
       = (Success processed updated validator ep, w') /\
       (0 <= processed <= Z.of_nat (length batch))%Z) /\
  (forall before item after,
     pget "uid" item = None \/ pget "uid" item = Some VNone ->
     receive_validator_report clock io_fails hash_seed fromisoformat
                              validator (before ++ item :: after) ep w
     = receive_validator_report clock io_fails hash_seed fromisoformat
                                validator (before ++ after) ep w) /\
  (forall item s,
     exists s',
       process_miner clock io_fails hash_seed fromisoformat validator ep
                     item s = (Ok tt, s') /\
       forall rest,
         process_miners clock io_fails hash_seed fromisoformat validator ep
                        (item :: rest) s
         = process_miners clock io_fails hash_seed fromisoformat validator ep
                          rest s') /\
  (forall item uid rest p u w0,
     pget "uid" item = Some uid -> uid <> VNone ->
     io_fails (length (io_log w0)) = true ->
     exists w1,
       process_miners clock io_fails hash_seed fromisoformat validator ep
                      (item :: rest) ((p, u), w0)
       = process_miners clock io_fails hash_seed fromisoformat validator ep
                        rest ((p, u), w1) /\
       validator_reports_collection w1 = validator_reports_collection w0 /\
       io_log w1
       = io_log w0 ++ [SetReport (validator, uid,
                                  (clock (clock_reads w0) / 1000000)%Z)]).
Proof.
  split; [|split; [|split]].
  - intro batch.
    destruct (receive_result batch w) as [p [u [w' [E H]]]].
    exists p, u, w'. split; [exact E | lia].
  - intros before item after Hskip. apply receive_by_loop.
    rewrite !process_miners_app. cbn [process_miners]. unfold bind.
    now rewrite (process_miner_skips item _ Hskip).
  - intros item [[p u] w0].
    destruct (process_miner_result item p u w0) as [p1 [u1 [w1 [E _]]]].
    exists ((p1, u1), w1). unfold counters in *. split; [exact E|].
    intro rest. cbn [process_miners]. unfold bind. now rewrite E.
  - intros item uid rest p u w0 Huid Hne Hfail.
    destruct (register_report_store_fails uid item p u w0 Hfail)
      as [w1 [E [Hr [_ [_ Hlog]]]]].
    exists w1. split; [|split; assumption].
    cbn [process_miners]. unfold bind.
    rewrite (process_miner_uid item uid _ Huid Hne).
    unfold counters in *. now rewrite E.
Qed.

(** C10.  A call returns counters with
    0 <= consensus_updated <= miners_processed <= size of the batch;
    a turn of the loop adds at most 1 to each counter, and adds to
    [consensus_updated] only when it adds to [processed_count]. *)
Theorem counters_are_ordered (batch : list payload) (w : World) :
  (exists processed updated w',
     receive_validator_report clock io_fails hash_seed fromisoformat
                              validator batch ep w
     = (Success processed updated validator ep, w') /\
     (0 <= updated <= processed /\ processed <= Z.of_nat (length batch))%Z) /\
  (forall item p u w0,
     exists p' u' w1,
       process_miner clock io_fails hash_seed fromisoformat validator ep
                     item ((p, u), w0)
       = (Ok tt, ((p', u'), w1)) /\
       ((p' = p /\ u' = u) \/ (p' = p + 1 /\ (u' = u \/ u' = u + 1)))%Z).
Proof.
  split.
  - apply receive_result.
  - intros item p u w0. apply process_miner_result.
Qed.
End Batch.

Lemma batch_tolerates_failures_witness :
  fst (receive_validator_report scenario_clock store_fails_once [] no_datetime
         7 [full_payload; anonymous_payload; full_payload] 1 empty_world)
  = Success 1 0 7 1.
Proof.
  destruct (batch_tolerates_failures scenario_clock store_fails_once []
              no_datetime 7 1 empty_world) as (_ & Hskip & _).
  pose proof (Hskip [full_payload] anonymous_payload [full_payload]
                    (or_introl eq_refl)) as H.
  cbn [app] in H. rewrite H. reflexivity.
Defined.

(** * Further properties *)

(** ** The aggregation functions *)

(** The first entry of the counts keeps its key. *)
Lemma fold_count_first (pairs : list (pyval * Q)) (k : pyval) (c : Q)
    (t : list (pyval * Q)) :
  exists c' t', fold_left count_value pairs ((k, c) :: t) = (k, c') :: t'.
Proof.
  revert c t. induction pairs as [|[v w] pairs IH]; intros c t.
  - exists c, t. reflexivity.
  - cbn [fold_left]. rewrite count_value_bump. cbn [bump].
    destruct (py_eqb k v); apply IH.
Qed.

(** X2.  The majority vote never invents a value: on an empty list it
    returns [(None, False)], otherwise the value it returns is one of
    the values it was given, whatever the weights. *)
Theorem majority_vote_picks_a_value (values : list pyval) (weights : list Q) :
  match values with
  | [] => _majority_vote values weights = (VNone, false)
  | _ :: _ => In (fst (_majority_vote values weights)) values
  end.
Proof.
  destruct values as [|first rest]; [reflexivity|].
  destruct (find (fun vc => Qle_bool (sumQ weights * 0.6) (snd vc))
                 (fold_left count_value (combine (first :: rest) weights) []))
    as [[k c]|] eqn:Efind.
  - unfold _majority_vote. rewrite Efind. cbn [fst].
    apply find_some in Efind. destruct Efind as [Hin _].
    destruct (counts_of_all (combine (first :: rest) weights)) as [_ Hkeys].
    specialize (Hkeys _ Hin). cbn [fst] in Hkeys.
    apply in_map_iff in Hkeys. destruct Hkeys as [[k' w] [Hk Hp]].
    cbn [fst] in Hk. subst k'. now apply in_combine_l in Hp.
  - unfold _majority_vote. rewrite Efind. left. reflexivity.
Qed.

Lemma class_weight_all (first : pyval) (pairs : list (pyval * Q)) :
  Forall (fun p => py_eqb first (fst p) = true) pairs ->
  class_weight first pairs == sumQ (map snd pairs).
Proof.
  intro H. unfold class_weight. induction H as [|[k w] pairs Hk _ IH].
  - reflexivity.
  - cbn [filter fst]. cbn [fst] in Hk. rewrite py_eqb_sym, Hk.
    cbn [map snd]. rewrite !sumQ_cons, IH. reflexivity.
Qed.

(** X3.  When every value equals the first one (Python [==]) and no
    weight is negative, the vote returns the first value and reports no
    conflict, also when all weights are zero. *)
Theorem majority_vote_unanimous
    (first : pyval) (rest : list pyval) (weights : list Q) :
  length weights = length (first :: rest) ->
  Forall (fun v => py_eqb first v = true) rest ->
  Forall (fun w => 0 <= w) weights ->
  _majority_vote (first :: rest) weights = (first, false).
Proof.
  intros Hlen Hsame Hw.
  destruct weights as [|w0 ws]; [discriminate|].
  unfold _majority_vote. cbn [combine fold_left].
  rewrite count_value_bump. cbn [bump].
  destruct (fold_count_first (combine rest ws) first (0 + w0) [])
    as [c' [t' Hfold]].
  rewrite Hfold. cbn [find snd].
  assert (Qle_bool (sumQ (w0 :: ws) * 0.6) c' = true) as ->; [|reflexivity].
  apply Qle_bool_iff.
  destruct (counts_of_all (combine (first :: rest) (w0 :: ws)))
    as [[_ [Hc _]] _].
  assert (In (first, c')
             (fold_left count_value (combine (first :: rest) (w0 :: ws)) []))
    as Hin.
  { cbn [combine fold_left]. rewrite count_value_bump. cbn [bump].
    rewrite Hfold. now left. }
  rewrite (Hc _ _ Hin), class_weight_all.
  - rewrite (map_snd_combine _ _ Hlen).
    pose proof (sumQ_nonneg _ Hw). lra.
  - apply Forall_forall. intros [k w] Hp. cbn [fst].
    cbn [combine] in Hp. destruct Hp as [Hp|Hp].
    + inversion Hp. apply py_eqb_refl.
    + apply in_combine_l in Hp. rewrite Forall_forall in Hsame. auto.
Qed.

Lemma majority_vote_unanimous_witness :
  _majority_vote [VBool true; VInt 1; VFloat 1] [0.5; 0; 1]
  = (VBool true, false).
Proof.
  apply (majority_vote_unanimous (VBool true) [VInt 1; VFloat 1] [0.5; 0; 1]).
  - reflexivity.
  - repeat constructor.
  - repeat constructor; discriminate.
Defined.

Lemma fold_py_max_In (ws : list Q) (a : Q) : In (fold_left py_max ws a) (a :: ws).
Proof.
  revert a. induction ws as [|w ws IH]; intro a; cbn [fold_left].
  - now left.
  - destruct (IH (py_max a w)) as [H|H].
    + unfold py_max in H at 1. destruct (Qltb a w).
      * right. left. exact H.
      * left. exact H.
    + right. right. exact H.
Qed.

Lemma In_combine_right {A B : Type} (l1 : list A) (l2 : list B) (b : B) :
  (length l2 <= length l1)%nat -> In b l2 -> exists a, In (a, b) (combine l1 l2).
Proof.
  revert l1. induction l2 as [|y l2 IH]; intros [|x l1] Hlen Hin;
    simpl in *; try contradiction; try lia.
  destruct Hin as [<-|Hin].
  - exists x. now left.
  - destruct (IH l1 ltac:(lia) Hin) as [a Ha]. exists a. now right.
Qed.

Lemma latest_In (r : ValidatorReport) (rs : list ValidatorReport) :
  In (latest r rs) (r :: rs).
Proof.
  unfold latest. revert r. induction rs as [|r' rs IH]; intro r; cbn [fold_left].
  - now left.
  - destruct (timestamp r <? timestamp r')%Z.
    + right. apply IH.
    + destruct (IH r) as [H|H]; [left | right; right]; exact H.
Qed.

(** X4.  With weights that are not negative, at most as many as the
    reports, the fallback to the first value is never taken: the result
    is read from one of the reports, as the value of the first key of
    its payload, or is an [IndexError] when that payload is empty. *)
Theorem most_recent_never_falls_back
    (values : list pyval) (weights : list Q) (reports : list ValidatorReport) :
  values <> [] -> weights <> [] ->
  (length weights <= length reports)%nat ->
  Forall (fun w => 0 <= w) weights ->
  exists r,
    In r reports /\
    _most_recent_high_confidence values weights reports
    = match miner_status r with
      | [] => Raise IndexError
      | (_, v) :: _ => Ok v
      end.
Proof.
  intros Hv Hw Hlen Hpos.
  destruct values as [|first values]; [congruence|].
  destruct weights as [|w ws]; [congruence|].
  destruct reports as [|r0 reports]; [simpl in Hlen; lia|].
  unfold _most_recent_high_confidence.
  set (m := max_of w ws).
  assert (In m (w :: ws)) as Hm by apply fold_py_max_In.
  destruct (In_combine_right (r0 :: reports) (w :: ws) m Hlen Hm) as [r Hr].
  assert (Qle_bool (m * 0.8) m = true) as Hhigh.
  { apply Qle_bool_iff. rewrite Forall_forall in Hpos.
    specialize (Hpos m Hm). cbv beta in Hpos. lra. }
  set (high := map fst (filter (fun rw => Qle_bool (m * 0.8) (snd rw))
                               (combine (r0 :: reports) (w :: ws)))).
  assert (forall x, In x high -> In x (r0 :: reports)) as Hsub.
  { intros x Hx. unfold high in Hx. apply in_map_iff in Hx.
    destruct Hx as [[x' w'] [<- Hx]]. apply filter_In in Hx.
    destruct Hx as [Hx _]. now apply in_combine_l in Hx. }
  assert (In r high) as Hin.
  { unfold high. apply in_map_iff. exists (r, m). split; [reflexivity|].
    apply filter_In. auto. }
  destruct high as [|h hs]; [contradiction|].
  exists (latest h hs). split.
  - apply Hsub. apply latest_In.
  - destruct (miner_status (latest h hs)) as [|[k v] t]; [reflexivity|].
    cbn [dict_keys map fst]. unfold pget. cbn [dict_get].
    now rewrite String.eqb_refl.
Qed.

Lemma most_recent_never_falls_back_witness :
  exists r,
    In r partial_reports /\
    _most_recent_high_confidence (field_values "region" partial_reports)
                                 (field_weights "region" partial_reports)
                                 partial_reports
    = match miner_status r with
      | [] => Raise IndexError
      | (_, v) :: _ => Ok v
      end.
Proof.
  apply (most_recent_never_falls_back
           (field_values "region" partial_reports)
           (field_weights "region" partial_reports) partial_reports).
  - discriminate.
  - discriminate.
  - cbn. lia.
  - repeat constructor; discriminate.
Defined.

(** ** The confidence of a report, again *)

Lemma freshness_bonus_nonneg (age : Z) : 0 <= freshness_bonus age.
Proof.
  unfold freshness_bonus.
  destruct (age <? minutes 5)%Z; [lra|].
  destruct (age <? minutes 15)%Z; lra.
Qed.

Lemma float_of_nat_le (n m : nat) :
  (n <= m)%nat -> float_of_nat n <= float_of_nat m.
Proof.
  intro H. unfold float_of_nat. rewrite <- Zle_Qle. lia.
Qed.

(** The score before the clamp is at least the base, 1.0 less 0.1 for
    each missing required field: the bonuses are not negative. *)
Lemma validator_confidence_value
    (clock : nat -> Z) (fromisoformat : pyval -> parsed_datetime)
    (validator : Z) (miner_status : payload) (w : World) :
  exists c,
    fst (_calculate_validator_confidence clock fromisoformat validator
           miner_status w) = Ok (py_max 0.1 (py_min 1 c)) /\
    1 - float_of_nat
          (length (filter (fun f => negb (pmem f miner_status)) required_fields))
        * 0.1 <= c.
Proof.
  unfold _calculate_validator_confidence, try_except, bind, ret, raise, datetime_now.
  set (missing := filter (fun f => negb (pmem f miner_status)) required_fields).
  set (rich := length (filter (fun f => pmem f miner_status) detailed_fields)).
  assert (match missing with
          | [] => 1
          | _ :: _ => 1 - float_of_nat (length missing) * 0.1
          end == 1 - float_of_nat (length missing) * 0.1) as Hbase.
  { destruct missing; [vm_compute|]; reflexivity. }
  set (base := match missing with
               | [] => 1
               | _ :: _ => 1 - float_of_nat (length missing) * 0.1
               end) in *.
  pose proof (float_of_nat_nonneg rich) as Hrich.
  destruct (pget "last_seen" miner_status) as [v|];
    [destruct (fromisoformat v) as [| |last_seen]|];
    cbn [fst]; eexists; (split; [reflexivity|]);
    try pose proof (freshness_bonus_nonneg
                      (clock (clock_reads w) - last_seen)%Z);
    lra.
Qed.

(** X5.  The confidence of a report is at least 0.6: at most four
    required fields can be missing and the bonuses are not negative, so
    the lower clamp at 0.1 never applies. *)
Theorem validator_confidence_at_least_0_6
    (clock : nat -> Z) (fromisoformat : pyval -> parsed_datetime)
    (validator : Z) (miner_status : payload) (w : World) :
  exists score,
    fst (_calculate_validator_confidence clock fromisoformat validator
           miner_status w) = Ok score /\
    0.6 <= score <= 1.
Proof.
  destruct (validator_confidence_value clock fromisoformat validator
              miner_status w) as [c [-> Hc]].
  eexists. split; [reflexivity|].
  pose proof (filter_length_le (fun f => negb (pmem f miner_status))
                               required_fields) as Hlen.
  apply float_of_nat_le in Hlen.
  change (float_of_nat (length required_fields)) with 4 in Hlen.
  rewrite py_max_Qmax, py_min_Qmin. split.
  - apply Q.max_le_iff. right. apply Q.min_glb; lra.
  - apply Q.max_lub; [lra | apply Q.le_min_l].
Qed.

(** X6.  A payload that carries the four required fields scores
    exactly 1.0: the bonuses for richness and freshness are cut by the
    upper clamp, so they only ever make up for missing fields. *)
Theorem validator_confidence_complete
    (clock : nat -> Z) (fromisoformat : pyval -> parsed_datetime)
    (validator : Z) (miner_status : payload) (w : World) :
  Forall (fun f => pmem f miner_status = true) required_fields ->
  exists score,
    fst (_calculate_validator_confidence clock fromisoformat validator
           miner_status w) = Ok score /\
    score == 1.
Proof.
  intro Hall.
  assert (filter (fun f => negb (pmem f miner_status)) required_fields = [])
    as Hnone.
  { induction Hall as [|f fs Hf _ IH]; [reflexivity|].
    cbn [filter]. rewrite Hf. cbn [negb]. exact IH. }
  destruct (validator_confidence_value clock fromisoformat validator
              miner_status w) as [c [-> Hc]].
  eexists. split; [reflexivity|].
  rewrite Hnone in Hc. change (float_of_nat (length [])) with 0 in Hc.
  rewrite py_max_Qmax, py_min_Qmin.
  rewrite Q.min_l by lra. rewrite Q.max_r by lra. reflexivity.
Qed.

Lemma validator_confidence_complete_witness :
  exists score,
    fst (_calculate_validator_confidence scenario_clock no_datetime 7
           full_payload empty_world) = Ok score /\
    score == 1.
Proof.
  apply (validator_confidence_complete scenario_clock no_datetime 7
           full_payload empty_world).
  repeat constructor.
Defined.


(** ** The consensus status *)

Lemma same_data_refl (w : World) : same_data w w.
Proof.
  repeat split.
Qed.

Lemma same_data_trans (w1 w2 w3 : World) :
  same_data w1 w2 -> same_data w2 w3 -> same_data w1 w3.
Proof.
  unfold same_data. intros (A1 & A2 & A3 & A4 & A5) (B1 & B2 & B3 & B4 & B5).
  repeat split; congruence.
Qed.

Lemma dict_get_set_same {K V : Type} (keq : K -> K -> bool) (k : K) (v : V)
    (d : list (K * V)) :
  keq k k = true -> dict_get keq k (dict_set keq k v d) = Some v.
Proof.
  intro Hrefl. induction d as [|[k' v'] d IH]; cbn [dict_set dict_get].
  - now rewrite Hrefl.
  - destruct (keq k' k) eqn:E; cbn [dict_get]; rewrite E; [reflexivity | exact IH].
Qed.

Lemma dict_get_In {K V : Type} (keq : K -> K -> bool) (k : K) (v : V)
    (d : list (K * V)) :
  dict_get keq k d = Some v -> exists k', In (k', v) d /\ keq k' k = true.
Proof.
  induction d as [|[k' v'] d IH]; cbn [dict_get]; [discriminate|].
  destruct (keq k' k) eqn:E.
  - intro H. inversion H; subst. exists k'. split; [now left | exact E].
  - intro H. destruct (IH H) as [k0 [Hin Hk]]. exists k0. split; [now right | exact Hk].
Qed.

(** The window query returns stored reports of the miner that are in
    the window, and leaves the data as it is. *)
Lemma get_recent_miner_reports_sound
    (clock : nat -> Z) (io_fails : nat -> bool) (uid : pyval) (w : World) :
  exists recent w',
    _get_recent_miner_reports clock io_fails uid w = (Ok recent, w') /\
    same_data w w' /\
    io_log w' = io_log w ++ [StreamReports uid] /\
    forall r, In r recent ->
      (exists id, In (id, r) (validator_reports_collection w)) /\
      py_eqb (miner_uid r) uid = true /\
      (clock (clock_reads w) - consensus_timeout <= timestamp r)%Z.
Proof.
  unfold _get_recent_miner_reports, try_except, bind, datetime_now,
    stream_reports, ret.
  cbn [io_log tick_clock validator_reports_collection].
  destruct (io_fails (length (io_log w))).
  - do 2 eexists. split; [reflexivity|]. split; [repeat split|].
    split; [reflexivity|]. intros r [].
  - do 2 eexists. split; [reflexivity|]. split; [repeat split|].
    split; [reflexivity|]. intros r Hr.
    apply filter_In in Hr. destruct Hr as [Hr Hts].
    apply in_map_iff in Hr. destruct Hr as [[id r'] [<- Hr]].
    apply filter_In in Hr. destruct Hr as [Hr Huid]. cbn [snd] in *.
    split; [eauto|]. split; [exact Huid|]. now apply Z.leb_le.
Qed.

(** The consensus calculation never raises and leaves the data as it
    is. *)
Lemma calculate_consensus_status_total
    (clock : nat -> Z) (seed : list nat) (uid : pyval)
    (reports : list ValidatorReport) (w : World) :
  exists s w',
    _calculate_consensus_status clock seed uid reports w = (Ok s, w') /\
    same_data w w' /\ io_log w' = io_log w.
Proof.
  unfold _calculate_consensus_status, try_except.
  destruct reports as [|r reports].
  - do 2 eexists. split; [reflexivity|]. split; [repeat split | reflexivity].
  - destruct (consensus_fields (r :: reports) (all_fields seed (r :: reports)))
      as [[cs cf]|e].
    + do 2 eexists. split; [reflexivity|]. split; [repeat split | reflexivity].
    + do 2 eexists. split; [reflexivity|]. split; [repeat split | reflexivity].
Qed.

Lemma fields_loop_ok_inv (reports : list ValidatorReport) (field : string)
    (fields : list string) (acc : status * list (string * bool))
    (out : status * list (string * bool)) :
  fields_loop reports (field :: fields) (Ok acc) = Ok out ->
  exists mid,
    consensus_field reports acc field = Ok mid /\
    fields_loop reports fields (Ok mid) = Ok out.
Proof.
  cbn [fields_loop fold_left].
  destruct (consensus_field reports acc field) as [mid|e].
  - intro H. exists mid. split; [reflexivity | exact H].
  - fold (fields_loop reports fields (Raise e)).
    rewrite fields_loop_raise. discriminate.
Qed.

(** A field that is not iterated gets no entry. *)
Lemma fields_loop_other (reports : list ValidatorReport) (g : string)
    (fields : list string) (acc out : status * list (string * bool)) :
  ~ In g fields ->
  fields_loop reports fields (Ok acc) = Ok out ->
  sget g (fst out) = sget g (fst acc).
Proof.
  revert acc. induction fields as [|f fields IH]; intros acc Hnot Hloop.
  - cbn in Hloop. inversion Hloop. reflexivity.
  - destruct (fields_loop_ok_inv _ _ _ _ _ Hloop) as [[cs1 cf1] [Hstep Hrest]].
    rewrite (IH (cs1, cf1)); [|intro; apply Hnot; now right | exact Hrest].
    destruct acc as [cs0 cf0].
    destruct (consensus_field_frame _ _ _ _ _ _ Hstep) as [Hget _].
    cbn [fst]. apply Hget. intros ->. apply Hnot. now left.
Qed.

(** A field whose turn raises makes the loop raise, wherever it
    stands. *)
Lemma fields_loop_raises (reports : list ValidatorReport) (field : string)
    (fields : list string) (acc : status * list (string * bool)) :
  In field fields ->
  (forall a, exists e, consensus_field reports a field = Raise e) ->
  exists e, fields_loop reports fields (Ok acc) = Raise e.
Proof.
  intros Hin Hraise. revert acc.
  induction fields as [|f fields IH]; intro acc; [contradiction|].
  cbn [fields_loop fold_left].
  destruct (consensus_field reports acc f) as [mid|e] eqn:E.
  - destruct Hin as [->|Hin].
    + destruct (Hraise acc) as [e He]. congruence.
    + apply (IH Hin mid).
  - exists e. fold (fields_loop reports fields (Raise e)).
    apply fields_loop_raise.
Qed.

Lemma floats_of_none_nonempty (values : list pyval) :
  floats_of values = None -> exists v vs, values = v :: vs.
Proof.
  destruct values as [|v vs]; [discriminate | eauto].
Qed.

(** A value that is not a number, in a numeric field, makes the whole
    status the empty dict. *)
Lemma type_error_blanks_status
    (clock : nat -> Z) (seed : list nat) (uid : pyval)
    (reports : list ValidatorReport) (w : World) (field : string) :
  field_in field numeric_fields = true ->
  floats_of (field_values field reports) = None ->
  _calculate_consensus_status clock seed uid reports w = (Ok [], w).
Proof.
  intros Hnum Hbad.
  destruct (floats_of_none_nonempty _ Hbad) as [v [vs Hv]].
  assert (exists e, consensus_fields reports (all_fields seed reports) = Raise e)
    as [e He].
  { apply (fields_loop_raises reports field).
    - exact (field_values_In_all_fields seed field reports v vs Hv).
    - intros [cs cf]. exists TypeError. unfold consensus_field.
      rewrite Hv, Hnum. rewrite <- Hv, Hbad. reflexivity. }
  unfold _calculate_consensus_status, try_except.
  destruct reports as [|r reports]; [discriminate|].
  rewrite He. reflexivity.
Qed.


(** ** The consensus update *)

(** The three ways an update ends. *)
Lemma update_miner_consensus_cases
    (clock : nat -> Z) (io_fails : nat -> bool) (seed : list nat)
    (uid : pyval) (w : World) :
  exists recent w1,
    _get_recent_miner_reports clock io_fails uid w = (Ok recent, w1) /\
    (((length recent < min_consensus_validators)%nat /\
      _update_miner_consensus clock io_fails seed uid w = (Ok 0%Z, w1)) \/
     ((min_consensus_validators <= length recent)%nat /\
      exists s w2,
        _calculate_consensus_status clock seed uid recent w1 = (Ok s, w2) /\
        ((io_fails (length (io_log w2)) = true /\
          _update_miner_consensus clock io_fails seed uid w
          = (Ok 0%Z, log_io (SetConsensus uid) (tick_clock w2))) \/
         (io_fails (length (io_log w2)) = false /\
          _update_miner_consensus clock io_fails seed uid w
          = (Ok 1%Z,
             put_cache uid s
               (put_consensus uid
                  (mkConsensusDoc uid s (clock (clock_reads w2))
                                  (length recent) (document_confidence s))
                  (log_io (SetConsensus uid) (tick_clock w2)))))))).
Proof.
  destruct (get_recent_miner_reports_sound clock io_fails uid w)
    as [recent [w1 [Hget _]]].
  exists recent, w1. split; [exact Hget|].
  unfold _update_miner_consensus, try_except, bind, ret. rewrite Hget.
  destruct (length recent <? min_consensus_validators)%nat eqn:Elen.
  - left. apply Nat.ltb_lt in Elen. auto.
  - right. apply Nat.ltb_ge in Elen. split; [exact Elen|].
    destruct (calculate_consensus_status_total clock seed uid recent w1)
      as [s [w2 [Hcalc _]]].
    exists s, w2. split; [exact Hcalc|]. rewrite Hcalc.
    unfold datetime_now, store_write, modify. cbn [io_log tick_clock].
    destruct (io_fails (length (io_log w2))); [left | right]; split; reflexivity.
Qed.


(** X7.  When the window holds at least two reports and one of them
    gives a value that is not a number in a numeric field, the
    consensus calculation swallows the [TypeError] and returns the empty
    dict; the update then writes the empty status in the document and
    in the cache of the miner and returns 1. *)
Theorem blank_consensus_is_stored
    (clock : nat -> Z) (io_fails : nat -> bool) (seed : list nat)
    (uid : pyval) (w w1 : World) (recent : list ValidatorReport)
    (field : string) :
  _get_recent_miner_reports clock io_fails uid w = (Ok recent, w1) ->
  (min_consensus_validators <= length recent)%nat ->
  field_in field numeric_fields = true ->
  floats_of (field_values field recent) = None ->
  io_fails (length (io_log w1)) = false ->
  _calculate_consensus_status clock seed uid recent w1 = (Ok [], w1) /\
  exists w',
    _update_miner_consensus clock io_fails seed uid w = (Ok 1%Z, w') /\
    dict_get py_eqb uid (consensus_cache w') = Some [] /\
    exists doc,
      dict_get py_eqb uid (consensus_collection w') = Some doc /\
      cd_consensus_status doc = [].
Proof.
  intros Hget Hlen Hnum Hbad Hok.
  pose proof (type_error_blanks_status clock seed uid recent w1 field Hnum Hbad)
    as Hcalc.
  split; [exact Hcalc|].
  destruct (update_miner_consensus_cases clock io_fails seed uid w)
    as [recent' [w1' [Hget' Hcases]]].
  rewrite Hget in Hget'. inversion Hget'; subst recent' w1'.
  destruct Hcases as [[Hlt _]|[_ [s [w2 [Hcalc' Hwrite]]]]]; [lia|].
  rewrite Hcalc in Hcalc'. inversion Hcalc'; subst s w2.
  destruct Hwrite as [[Hfail _]|[_ Hupd]]; [congruence|].
  eexists. split; [exact Hupd|].
  cbn [put_cache put_consensus consensus_cache consensus_collection].
  split.
  - apply dict_get_set_same, py_eqb_refl.
  - eexists. split; [apply dict_get_set_same, py_eqb_refl | reflexivity].
Qed.

Lemma blank_consensus_is_stored_witness :
  exists w',
    _update_miner_consensus scenario_clock store_up [] (VInt 5) bad_stake_world
    = (Ok 1%Z, w') /\
    dict_get py_eqb (VInt 5) (consensus_cache w') = Some [].
Proof.
  edestruct (blank_consensus_is_stored scenario_clock store_up [] (VInt 5)
               bad_stake_world) as [_ [w' [Hupd [Hcache _]]]].
  - reflexivity.
  - vm_compute. lia.
  - instantiate (1 := "stake"%string). reflexivity.
  - reflexivity.
  - reflexivity.
  - exists w'. split; assumption.
Defined.

(** X8.  An update that returns 0, for want of reports or because the
    write of the consensus document failed, leaves the collections, the
    cache and the cache clock as they were. *)
Theorem update_without_consensus_changes_nothing
    (clock : nat -> Z) (io_fails : nat -> bool) (seed : list nat)
    (uid : pyval) (w w' : World) :
  _update_miner_consensus clock io_fails seed uid w = (Ok 0%Z, w') ->
  same_data w w'.
Proof.
  intro Hupd.
  destruct (update_miner_consensus_cases clock io_fails seed uid w)
    as [recent [w1 [Hget Hcases]]].
  destruct (get_recent_miner_reports_sound clock io_fails uid w)
    as [recent' [w1' [Hget' [Hsame _]]]].
  rewrite Hget in Hget'. inversion Hget'; subst recent' w1'.
  destruct Hcases as [[_ Hzero]|[_ [s [w2 [Hcalc Hwrite]]]]].
  - rewrite Hupd in Hzero. inversion Hzero; subst. exact Hsame.
  - destruct (calculate_consensus_status_total clock seed uid recent w1)
      as [s' [w2' [Hcalc' [Hsame' _]]]].
    rewrite Hcalc in Hcalc'. inversion Hcalc'; subst s' w2'.
    destruct Hwrite as [[_ Hzero]|[_ Hone]].
    + rewrite Hupd in Hzero. inversion Hzero; subst.
      apply (same_data_trans w w1); [exact Hsame|].
      apply (same_data_trans w1 w2); [exact Hsame'|]. repeat split.
    + rewrite Hupd in Hone. discriminate.
Qed.

Lemma update_without_consensus_changes_nothing_witness :
  same_data empty_world
    (snd (_update_miner_consensus scenario_clock store_up [] (VInt 5)
            empty_world)).
Proof.
  apply (update_without_consensus_changes_nothing scenario_clock store_up []
           (VInt 5) empty_world).
  reflexivity.
Defined.

Lemma In_keys_pmem (k : string) (d : payload) :
  In k (dict_keys d) -> pmem k d = true.
Proof.
  unfold pmem, dict_mem, dict_keys.
  induction d as [|[k' v] d IH]; cbn [map fst In dict_get]; [contradiction|].
  intros [->|Hin].
  - now rewrite String.eqb_refl.
  - destruct (String.eqb k' k); [reflexivity | auto].
Qed.

(** The status has no entry [confidence] unless a report carries a
    field of that name. *)
Lemma status_without_confidence
    (clock : nat -> Z) (seed : list nat) (uid : pyval)
    (reports : list ValidatorReport) (w w' : World) (s : status) :
  _calculate_consensus_status clock seed uid reports w = (Ok s, w') ->
  Forall (fun r => pmem "confidence" (miner_status r) = false) reports ->
  sget "confidence" s = None.
Proof.
  intros Hcalc Hnone. revert Hcalc.
  unfold _calculate_consensus_status, try_except.
  destruct reports as [|r0 reports0] eqn:Er; [intro H; inversion H; reflexivity|].
  rewrite <- Er in *.
  destruct (consensus_fields reports (all_fields seed reports))
    as [[cs cf]|e] eqn:Eloop.
  - unfold bind, datetime_now, ret. intro H. inversion H; subst s w'.
    rewrite !sget_sset_other by discriminate.
    change (sget "confidence" cs) with (sget "confidence" (fst (cs, cf))).
    rewrite (fields_loop_other reports "confidence" (all_fields seed reports)
               ([], []) (cs, cf)); [reflexivity | | exact Eloop].
    unfold all_fields. rewrite In_shuffle, In_dedup_string, in_flat_map.
    intros [r [Hr Hk]]. apply In_keys_pmem in Hk.
    rewrite Forall_forall in Hnone. rewrite (Hnone r Hr) in Hk. discriminate.
  - unfold raise. intro H. inversion H. reflexivity.
Qed.


(** What an update that returns 1 has done. *)
Lemma update_success_shape
    (clock : nat -> Z) (io_fails : nat -> bool) (seed : list nat)
    (uid : pyval) (w w' : World) :
  _update_miner_consensus clock io_fails seed uid w = (Ok 1%Z, w') ->
  exists recent w1 w2 s,
    _calculate_consensus_status clock seed uid recent w1 = (Ok s, w2) /\
    (min_consensus_validators <= length recent)%nat /\
    (forall r, In r recent ->
       exists id, In (id, r) (validator_reports_collection w)) /\
    same_data w w2 /\
    w' = put_cache uid s
           (put_consensus uid
              (mkConsensusDoc uid s (clock (clock_reads w2))
                              (length recent) (document_confidence s))
              (log_io (SetConsensus uid) (tick_clock w2))).
Proof.
  intro Hupd.
  destruct (update_miner_consensus_cases clock io_fails seed uid w)
    as [recent [w1 [Hget Hcases]]].
  destruct (get_recent_miner_reports_sound clock io_fails uid w)
    as [recent' [w1' [Hget' [Hsame [_ Hsound]]]]].
  rewrite Hget in Hget'. inversion Hget'; subst recent' w1'.
  destruct Hcases as [[_ Hzero]|[Hlen [s [w2 [Hcalc Hwrite]]]]];
    [rewrite Hupd in Hzero; discriminate|].
  destruct (calculate_consensus_status_total clock seed uid recent w1)
    as [s' [w2' [Hcalc' [Hsame' _]]]].
  rewrite Hcalc in Hcalc'. inversion Hcalc'; subst s' w2'.
  destruct Hwrite as [[_ Hzero]|[_ Hone]];
    [rewrite Hupd in Hzero; discriminate|].
  rewrite Hupd in Hone. inversion Hone as [Hw'].
  exists recent, w1, w2, s. split; [exact Hcalc|]. split; [exact Hlen|].
  split; [intros r Hr; now destruct (Hsound r Hr)|].
  split; [exact (same_data_trans w w1 w2 Hsame Hsame') | reflexivity].
Qed.

(** After an update that returns 1 the cache and the document of the
    miner hold the same status. *)
Lemma update_success_entries
    (clock : nat -> Z) (io_fails : nat -> bool) (seed : list nat)
    (uid : pyval) (w w' : World) :
  _update_miner_consensus clock io_fails seed uid w = (Ok 1%Z, w') ->
  exists s doc,
    dict_get py_eqb uid (consensus_cache w') = Some s /\
    dict_get py_eqb uid (consensus_collection w') = Some doc /\
    cd_consensus_status doc = s /\
    cd_miner_uid doc = uid /\
    (min_consensus_validators <= cd_validator_reports_count doc)%nat /\
    validator_reports_collection w' = validator_reports_collection w.
Proof.
  intro Hupd.
  destruct (update_success_shape clock io_fails seed uid w w' Hupd)
    as [recent [w1 [w2 [s [_ [Hlen [_ [Hsame ->]]]]]]]].
  exists s. eexists.
  cbn [put_cache put_consensus log_io tick_clock consensus_cache
       consensus_collection validator_reports_collection].
  split; [apply dict_get_set_same, py_eqb_refl|].
  split; [apply dict_get_set_same, py_eqb_refl|].
  cbn [cd_consensus_status cd_miner_uid cd_validator_reports_count].
  split; [reflexivity|]. split; [reflexivity|]. split; [exact Hlen|].
  now destruct Hsame.
Qed.

(** X9.  The update reads the confidence of the document under the key
    [confidence], which the status does not have (its key is
    [consensus_confidence]): unless a stored report carries a field
    named [confidence], the document written by an update that returns 1
    has [consensus_confidence] 0.0. *)
Theorem update_stores_zero_confidence
    (clock : nat -> Z) (io_fails : nat -> bool) (seed : list nat)
    (uid : pyval) (w w' : World) :
  _update_miner_consensus clock io_fails seed uid w = (Ok 1%Z, w') ->
  Forall (fun d => pmem "confidence" (miner_status (snd d)) = false)
         (validator_reports_collection w) ->
  exists doc,
    dict_get py_eqb uid (consensus_collection w') = Some doc /\
    cd_consensus_confidence doc = CVal (VFloat 0).
Proof.
  intros Hupd Hnone.
  destruct (update_success_shape clock io_fails seed uid w w' Hupd)
    as [recent [w1 [w2 [s [Hcalc [_ [Hsound [_ ->]]]]]]]].
  eexists.
  cbn [put_cache put_consensus consensus_collection].
  split; [apply dict_get_set_same, py_eqb_refl|].
  cbn [cd_consensus_confidence]. unfold document_confidence.
  rewrite (status_without_confidence clock seed uid recent w1 w2 s Hcalc);
    [reflexivity|].
  apply Forall_forall. intros r Hr. destruct (Hsound r Hr) as [id Hin].
  rewrite Forall_forall in Hnone. exact (Hnone (id, r) Hin).
Qed.

Lemma update_stores_zero_confidence_witness :
  exists doc s,
    dict_get py_eqb (VInt 5)
      (consensus_collection (snd (_update_miner_consensus scenario_clock
                                    store_up [] (VInt 5) two_reports_world)))
    = Some doc /\
    cd_consensus_confidence doc = CVal (VFloat 0) /\
    sget "consensus_confidence" (cd_consensus_status doc)
    = Some (CVal (VFloat s)) /\ s == 0.95.
Proof.
  destruct (update_stores_zero_confidence scenario_clock store_up [] (VInt 5)
              two_reports_world
              (snd (_update_miner_consensus scenario_clock store_up []
                      (VInt 5) two_reports_world)))
    as [doc [Hdoc Hconf]].
  - reflexivity.
  - repeat constructor.
  - exists doc. eexists. split; [exact Hdoc|]. split; [exact Hconf|].
    vm_compute in Hdoc. inversion Hdoc. split; reflexivity.
Defined.

(** ** The report store *)

Lemma doc_id_eqb_refl (id : doc_id) : doc_id_eqb id id = true.
Proof.
  destruct id as [[v m] s]. unfold doc_id_eqb.
  now rewrite !Z.eqb_refl, py_eqb_refl.
Qed.

Lemma dict_set_In {K V : Type} (keq : K -> K -> bool) (k : K) (v : V)
    (d : list (K * V)) :
  exists k', In (k', v) (dict_set keq k v d).
Proof.
  induction d as [|[k0 v0] d IH]; cbn [dict_set].
  - exists k. now left.
  - destruct (keq k0 k).
    + exists k0. now left.
    + destruct IH as [k' Hk']. exists k'. now right.
Qed.

Lemma dict_set_length {K V : Type} (keq : K -> K -> bool) (k : K) (v : V)
    (d : list (K * V)) :
  length (dict_set keq k v d)
  = if dict_mem keq k d then length d else S (length d).
Proof.
  unfold dict_mem. induction d as [|[k0 v0] d IH]; cbn [dict_set dict_get].
  - reflexivity.
  - destruct (keq k0 k); [reflexivity|].
    cbn [length]. rewrite IH.
    destruct (dict_get keq k d); reflexivity.
Qed.

Lemma dict_set_Forall {K V : Type} (keq : K -> K -> bool)
    (f : K -> bool) (k : K) (v : V) (d : list (K * V)) :
  f k = true ->
  Forall (fun kv => f (fst kv) = true) d ->
  Forall (fun kv => f (fst kv) = true) (dict_set keq k v d).
Proof.
  intros Hk H. induction H as [|[k0 v0] d Hx Hd IH]; cbn [dict_set].
  - constructor; [exact Hk | constructor].
  - destruct (keq k0 k); constructor; auto.
Qed.

(** What a store that returns has done. *)
Lemma store_validator_report_ok
    (io_fails : nat -> bool) (report : ValidatorReport) (w w1 : World) :
  _store_validator_report io_fails report w = (Ok tt, w1) ->
  let id := (validator_uid report, miner_uid report,
             (timestamp report / 1000000)%Z) in
  w1 = merge_touch (miner_uid report) report
         (log_io (SetMinerStatus (miner_uid report))
            (put_report id report (log_io (SetReport id) w))).
Proof.
  unfold _store_validator_report, try_except, bind, store_write, raise.
  destruct (io_fails (length (io_log w))); [discriminate|].
  destruct (io_fails _); [discriminate|].
  intro H. inversion H. reflexivity.
Qed.

(** X10.  A report that was stored is found by the window query for
    its miner, as long as the query succeeds and the report is not
    older than the consensus timeout at the time of the query. *)
Theorem stored_report_is_in_the_window
    (clock : nat -> Z) (io_fails : nat -> bool)
    (report : ValidatorReport) (w w1 : World) :
  _store_validator_report io_fails report w = (Ok tt, w1) ->
  io_fails (length (io_log w1)) = false ->
  (clock (clock_reads w1) - consensus_timeout <= timestamp report)%Z ->
  exists recent w2,
    _get_recent_miner_reports clock io_fails (miner_uid report) w1
    = (Ok recent, w2) /\
    In report recent.
Proof.
  intros Hstore Hok Hwindow.
  pose proof (store_validator_report_ok io_fails report w w1 Hstore) as Hw1.
  cbv zeta in Hw1.
  unfold _get_recent_miner_reports, try_except, bind, datetime_now,
    stream_reports, ret.
  cbn [io_log tick_clock]. rewrite Hok.
  do 2 eexists. split; [reflexivity|].
  apply filter_In. split; [|now apply Z.leb_le].
  cbn [validator_reports_collection tick_clock].
  rewrite Hw1.
  cbn [merge_touch log_io put_report validator_reports_collection].
  destruct (dict_set_In doc_id_eqb
              (validator_uid report, miner_uid report,
               (timestamp report / 1000000)%Z)
              report (validator_reports_collection w)) as [k' Hk'].
  apply in_map_iff. exists (k', report). split; [reflexivity|].
  apply filter_In. split; [exact Hk' | apply py_eqb_refl].
Qed.

Lemma stored_report_is_in_the_window_witness :
  In report_v7
     (match fst (_get_recent_miner_reports scenario_clock store_up (VInt 5)
                   (snd (_store_validator_report store_up report_v7
                           empty_world))) with
      | Ok recent => recent
      | Raise _ => []
      end).
Proof.
  destruct (stored_report_is_in_the_window scenario_clock store_up report_v7
              empty_world
              (snd (_store_validator_report store_up report_v7 empty_world)))
    as [recent [w2 [Hget Hin]]].
  - reflexivity.
  - reflexivity.
  - vm_compute. discriminate.
  - cbn [miner_uid report_v7] in Hget. rewrite Hget. exact Hin.
Defined.

(** X11.  Where the uids are ints, in the report and in the documents
    of the store: after a store, the document id of the report
    (validator, miner, second) holds the report; the collection grows by
    one document unless that id existed, in which case the earlier
    report of that second is replaced; the touch document of the miner
    names the validator and the time and counts one report more; and
    the uids of the documents are ints as before. *)
Theorem store_replaces_within_a_second
    (io_fails : nat -> bool) (report : ValidatorReport) (w w1 : World) :
  is_int (miner_uid report) = true ->
  int_ids (validator_reports_collection w) ->
  int_keys (miner_status_collection w) ->
  _store_validator_report io_fails report w = (Ok tt, w1) ->
  let id := (validator_uid report, miner_uid report,
             (timestamp report / 1000000)%Z) in
  int_ids (validator_reports_collection w1) /\
  int_keys (miner_status_collection w1) /\
  dict_get doc_id_eqb id (validator_reports_collection w1) = Some report /\
  length (validator_reports_collection w1)
  = (if dict_mem doc_id_eqb id (validator_reports_collection w)
     then length (validator_reports_collection w)
     else S (length (validator_reports_collection w))) /\
  exists touch,
    dict_get py_eqb (miner_uid report) (miner_status_collection w1)
    = Some touch /\
    last_reported_by_validator touch = validator_uid report /\
    last_updated touch = timestamp report /\
    validator_reports_count touch
    = match dict_get py_eqb (miner_uid report) (miner_status_collection w) with
      | Some old => (validator_reports_count old + 1)%Z
      | None => 1%Z
      end.
Proof.
  intros Huid Hids Hkeys Hstore id.
  pose proof (store_validator_report_ok io_fails report w w1 Hstore) as Hw1.
  cbv zeta in Hw1. fold id in Hw1. rewrite Hw1.
  cbn [merge_touch log_io put_report validator_reports_collection
       miner_status_collection].
  split.
  { apply (dict_set_Forall doc_id_eqb (fun i : doc_id => is_int (snd (fst i))));
      assumption. }
  split; [apply (dict_set_Forall py_eqb is_int); assumption|].
  split; [apply dict_get_set_same, doc_id_eqb_refl|].
  split; [apply dict_set_length|].
  eexists. split; [apply dict_get_set_same, py_eqb_refl|].
  repeat split.
Qed.

Lemma store_replaces_within_a_second_witness :
  let w1 := snd (_store_validator_report store_up report_v7 empty_world) in
  let w2 := snd (_store_validator_report store_up report_v7 w1) in
  length (validator_reports_collection w1) = 1%nat /\
  length (validator_reports_collection w2) = 1%nat.
Proof.
  cbv zeta.
  destruct (store_replaces_within_a_second store_up report_v7
              (snd (_store_validator_report store_up report_v7 empty_world))
              (snd (_store_validator_report store_up report_v7
                      (snd (_store_validator_report store_up report_v7
                              empty_world)))))
    as [_ [_ [_ [Hlen _]]]].
  - reflexivity.
  - vm_compute. repeat constructor.
  - vm_compute. repeat constructor.
  - reflexivity.
  - split; [reflexivity|]. rewrite Hlen. reflexivity.
Defined.


(** ** What a batch leaves behind *)

(** X12.  The two writes of a store are not atomic: when the write of
    the report succeeds and the write of the touch document fails, the
    item is not counted as processed, no consensus update is tried, and
    the report stays in the collection. *)
Theorem uncounted_report_is_stored
    (clock : nat -> Z) (io_fails : nat -> bool) (seed : list nat)
    (fromisoformat : pyval -> parsed_datetime) (validator ep : Z)
    (item : payload) (uid : pyval) (p u : Z) (w : World) :
  pget "uid" item = Some uid -> uid <> VNone ->
  io_fails (length (io_log w)) = false ->
  io_fails (S (length (io_log w))) = true ->
  exists w' report,
    process_miner clock io_fails seed fromisoformat validator ep item
                  ((p, u), w)
    = (Ok tt, ((p, u), w')) /\
    dict_get doc_id_eqb
      (validator, uid, (clock (clock_reads w) / 1000000)%Z)
      (validator_reports_collection w') = Some report /\
    validator_uid report = validator /\
    miner_uid report = uid /\
    miner_status report = item /\
    miner_status_collection w' = miner_status_collection w /\
    consensus_collection w' = consensus_collection w.
Proof.
  intros Huid Hne Hok Hfail.
  rewrite (process_miner_uid clock io_fails seed fromisoformat validator ep
             item uid _ Huid Hne).
  unfold register_report, try_except, bind, in_frame, modify, ret, datetime_now.
  destruct (validator_confidence_total clock fromisoformat validator item
              (tick_clock w))
    as [q [w1 [-> [Hlog [Hr [Hm [Hc _]]]]]]].
  unfold _store_validator_report, try_except, bind, store_write, raise.
  cbn [validator_uid miner_uid timestamp].
  rewrite Hlog. cbn [io_log tick_clock]. rewrite Hok.
  cbn [io_log put_report log_io]. rewrite Hlog. cbn [io_log tick_clock].
  rewrite length_app, Nat.add_1_r, Hfail.
  do 2 eexists. split; [reflexivity|].
  cbn [validator_reports_collection miner_status_collection
       consensus_collection].
  split; [apply dict_get_set_same, doc_id_eqb_refl|].
  cbn [validator_uid miner_uid miner_status].
  repeat split; try reflexivity; [exact Hm | exact Hc].
Qed.

Lemma uncounted_report_is_stored_witness :
  let '(r, w') :=
    receive_validator_report scenario_clock store_fails_second [] no_datetime
                             7 [full_payload] 1 empty_world in
  r = Success 0 0 7 1 /\
  length (validator_reports_collection w') = 1%nat.
Proof.
  destruct (uncounted_report_is_stored scenario_clock store_fails_second []
              no_datetime 7 1 full_payload (VInt 5) 0 0 empty_world)
    as [w' [report [Hstep _]]].
  - reflexivity.
  - discriminate.
  - reflexivity.
  - reflexivity.
  - vm_compute in Hstep. inversion Hstep. vm_compute. split; reflexivity.
Defined.

Lemma dict_set_mem {K V : Type} (keq : K -> K -> bool) (k k' : K) (v : V)
    (d : list (K * V)) :
  dict_mem keq k' d = true -> dict_mem keq k' (dict_set keq k v d) = true.
Proof.
  unfold dict_mem. induction d as [|[k0 v0] d IH]; cbn [dict_set dict_get].
  - discriminate.
  - destruct (keq k0 k); cbn [dict_get]; destruct (keq k0 k'); auto.
Qed.

Lemma extends_refl (w : World) : extends w w.
Proof.
  unfold extends. repeat split; auto. exists []. now rewrite app_nil_r.
Qed.

Lemma extends_trans (w1 w2 w3 : World) :
  extends w1 w2 -> extends w2 w3 -> extends w1 w3.
Proof.
  unfold extends.
  intros (A1 & A2 & A3 & A4 & [m1 A5] & A6) (B1 & B2 & B3 & B4 & [m2 B5] & B6).
  repeat split; auto; [|lia].
  exists (m1 ++ m2). now rewrite B5, A5, app_assoc.
Qed.

Lemma extends_tick (w : World) : extends w (tick_clock w).
Proof.
  unfold extends. cbn. repeat split; auto. exists []. now rewrite app_nil_r.
Qed.

Lemma extends_log_io (op : io_op) (w : World) : extends w (log_io op w).
Proof.
  unfold extends. cbn. repeat split; auto. now exists [op].
Qed.

Lemma extends_put_report (id : doc_id) (r : ValidatorReport) (w : World) :
  extends w (put_report id r w).
Proof.
  unfold extends. cbn. repeat split; auto.
  - intros id' H. now apply dict_set_mem.
  - exists []. now rewrite app_nil_r.
Qed.

Lemma extends_merge_touch (uid : pyval) (r : ValidatorReport) (w : World) :
  extends w (merge_touch uid r w).
Proof.
  unfold extends. cbn. repeat split; auto.
  - intros uid' H. now apply dict_set_mem.
  - exists []. now rewrite app_nil_r.
Qed.

Lemma extends_put_consensus (uid : pyval) (d : ConsensusDoc) (w : World) :
  extends w (put_consensus uid d w).
Proof.
  unfold extends. cbn. repeat split; auto.
  - intros uid' H. now apply dict_set_mem.
  - exists []. now rewrite app_nil_r.
Qed.

Lemma extends_put_cache (uid : pyval) (s : status) (w : World) :
  extends w (put_cache uid s w).
Proof.
  unfold extends. cbn. repeat split; auto.
  - intros uid' H. now apply dict_set_mem.
  - exists []. now rewrite app_nil_r.
Qed.

Lemma extends_put_last_cache_update (t : Z) (w : World) :
  extends w (put_last_cache_update t w).
Proof.
  unfold extends. cbn. repeat split; auto. exists []. now rewrite app_nil_r.
Qed.

Lemma same_data_extends (w w' : World) :
  same_data w w' ->
  (exists more, io_log w' = io_log w ++ more) ->
  (clock_reads w <= clock_reads w')%nat ->
  extends w w'.
Proof.
  intros (H1 & H2 & H3 & H4 & _) Hlog Hclock.
  unfold extends. rewrite H1, H2, H3, H4. repeat split; auto.
Qed.

(** Chains of updates of the state. *)
Ltac chain_extends :=
  repeat (first [ apply extends_refl
                | eapply extends_trans;
                  [| first [ apply extends_put_cache
                           | apply extends_put_consensus
                           | apply extends_merge_touch
                           | apply extends_put_report
                           | apply extends_log_io
                           | apply extends_tick
                           | apply extends_put_last_cache_update ] ] ]).

Lemma store_validator_report_extends
    (io_fails : nat -> bool) (report : ValidatorReport) (w : World) :
  extends w (snd (_store_validator_report io_fails report w)).
Proof.
  unfold _store_validator_report, try_except, bind, store_write, raise.
  destruct (io_fails (length (io_log w))); cbn [snd]; [chain_extends|].
  destruct (io_fails _); cbn [snd]; chain_extends.
Qed.

Lemma validator_confidence_extends
    (clock : nat -> Z) (fromisoformat : pyval -> parsed_datetime)
    (validator : Z) (item : payload) (w : World) :
  extends w (snd (_calculate_validator_confidence clock fromisoformat
                    validator item w)).
Proof.
  unfold _calculate_validator_confidence, try_except, bind, ret, raise,
    datetime_now.
  destruct (pget "last_seen" item) as [v|]; [|cbn [snd]; chain_extends].
  destruct (fromisoformat v); cbn [snd]; chain_extends.
Qed.

Lemma update_miner_consensus_extends
    (clock : nat -> Z) (io_fails : nat -> bool) (seed : list nat)
    (uid : pyval) (w : World) :
  extends w (snd (_update_miner_consensus clock io_fails seed uid w)).
Proof.
  destruct (update_miner_consensus_cases clock io_fails seed uid w)
    as [recent [w1 [Hget Hcases]]].
  destruct (get_recent_miner_reports_sound clock io_fails uid w)
    as [recent' [w1' [Hget' [Hsame [Hlog _]]]]].
  rewrite Hget in Hget'. inversion Hget'; subst recent' w1'.
  assert (extends w w1) as H1.
  { apply same_data_extends; [exact Hsame | eauto |].
    revert Hget.
    unfold _get_recent_miner_reports, try_except, bind, datetime_now,
      stream_reports, ret.
    cbn [io_log tick_clock].
    destruct (io_fails _); intro H; inversion H; cbn; lia. }
  destruct Hcases as [[_ ->]|[_ [s [w2 [Hcalc Hwrite]]]]]; [exact H1|].
  assert (extends w1 w2) as H2.
  { destruct (calculate_consensus_status_total clock seed uid recent w1)
      as [s' [w2' [Hcalc' [Hsame' Hlog']]]].
    rewrite Hcalc in Hcalc'. inversion Hcalc'; subst s' w2'.
    apply same_data_extends; [exact Hsame' | |].
    - exists []. now rewrite app_nil_r.
    - revert Hcalc. unfold _calculate_consensus_status, try_except.
      destruct recent as [|r recent]; [intro H; inversion H; lia|].
      destruct (consensus_fields _ _) as [[cs cf]|e];
        unfold bind, datetime_now, ret, raise;
        intro H; inversion H; cbn; lia. }
  apply (extends_trans w w1 _ H1). apply (extends_trans w1 w2 _ H2).
  destruct Hwrite as [[_ ->]|[_ ->]]; cbn [snd]; chain_extends.
Qed.

Lemma process_miner_extends
    (clock : nat -> Z) (io_fails : nat -> bool) (seed : list nat)
    (fromisoformat : pyval -> parsed_datetime) (validator ep : Z)
    (item : payload) (c : counters) (w : World) :
  extends w (snd (snd (process_miner clock io_fails seed fromisoformat
                         validator ep item (c, w)))).
Proof.
  assert (forall uid,
             extends w
               (snd (snd (try_except
                            (register_report clock io_fails seed fromisoformat
                                             validator ep uid item)
                            (fun _ => ret tt) (c, w))))) as Hreg.
  { intro uid.
    unfold register_report, try_except, bind, in_frame, modify, ret,
      datetime_now.
    pose proof (validator_confidence_extends clock fromisoformat validator
                  item (tick_clock w)) as H1.
    destruct (_calculate_validator_confidence clock fromisoformat validator
                item (tick_clock w)) as [[q|e] w1]; cbn [snd] in H1 |- *.
    2: { apply (extends_trans w (tick_clock w)); [apply extends_tick | exact H1]. }
    pose proof (store_validator_report_extends io_fails
                  (mkReport validator uid (clock (clock_reads w)) ep item q)
                  w1) as H2.
    destruct (_store_validator_report io_fails _ w1) as [[[]|e] w2];
      cbn [snd] in H2 |- *.
    2: { apply (extends_trans w (tick_clock w)); [apply extends_tick|].
         apply (extends_trans _ w1); assumption. }
    pose proof (update_miner_consensus_extends clock io_fails seed uid w2)
      as H3.
    destruct (_update_miner_consensus clock io_fails seed uid w2)
      as [[n|e] w3]; cbn [snd] in H3 |- *; destruct c as [p u]; cbn [snd];
      (apply (extends_trans w (tick_clock w)); [apply extends_tick|]);
      (apply (extends_trans _ w1); [assumption|]);
      (apply (extends_trans _ w2); assumption). }
  destruct (pget "uid" item) as [uid|] eqn:E.
  - destruct uid eqn:Eu.
    1: { rewrite process_miner_skips by auto. apply extends_refl. }
    all: rewrite (process_miner_uid clock io_fails seed fromisoformat
                    validator ep item _ _ E) by discriminate;
      apply Hreg.
  - rewrite process_miner_skips by auto. apply extends_refl.
Qed.

Lemma process_miners_extends
    (clock : nat -> Z) (io_fails : nat -> bool) (seed : list nat)
    (fromisoformat : pyval -> parsed_datetime) (validator ep : Z)
    (items : list payload) (c : counters) (w : World) :
  extends w (snd (snd (process_miners clock io_fails seed fromisoformat
                         validator ep items (c, w)))).
Proof.
  revert c w. induction items as [|item items IH]; intros c w.
  - apply extends_refl.
  - cbn [process_miners]. unfold bind.
    pose proof (process_miner_extends clock io_fails seed fromisoformat
                  validator ep item c w) as H1.
    destruct c as [p u].
    destruct (process_miner_result clock io_fails seed fromisoformat
                validator ep item p u w) as [p1 [u1 [w1 [E _]]]].
    unfold counters in *. rewrite E in H1 |- *. cbn [snd] in H1.
    apply (extends_trans w w1); [exact H1 | apply IH].
Qed.

(** How a call ends: the loop, then the refresh of the cache clock. *)
Lemma receive_final_state
    (clock : nat -> Z) (io_fails : nat -> bool) (seed : list nat)
    (fromisoformat : pyval -> parsed_datetime) (validator ep : Z)
    (batch : list payload) (w : World) :
  exists p u w1,
    receive_validator_report clock io_fails seed fromisoformat validator
                             batch ep w
    = (Success p u validator ep,
       put_last_cache_update (clock (clock_reads w1)) (tick_clock w1)) /\
    extends w w1.
Proof.
  unfold receive_validator_report, try_except, bind.
  pose proof (process_miners_extends clock io_fails seed fromisoformat
                validator ep batch (0, 0)%Z w) as H1.
  destruct (process_miners_result clock io_fails seed fromisoformat validator
              ep batch 0 0 w) as [p [u [w1 [E _]]]].
  unfold counters in *. rewrite E in H1 |- *. cbn [snd] in H1.
  unfold in_frame, _update_consensus_cache, try_except, bind, datetime_now,
    modify, ret.
  exists p, u, w1. split; [reflexivity | exact H1].
Qed.

(** X13.  A call of [receive_validator_report] never deletes: every
    report document, touch document, consensus document and cache entry
    that existed before the call exists after it, and the log of
    requests is continued. *)
Theorem receive_never_deletes
    (clock : nat -> Z) (io_fails : nat -> bool) (seed : list nat)
    (fromisoformat : pyval -> parsed_datetime) (validator ep : Z)
    (batch : list payload) (w : World) :
  extends w (snd (receive_validator_report clock io_fails seed fromisoformat
                    validator batch ep w)).
Proof.
  destruct (receive_final_state clock io_fails seed fromisoformat validator ep
              batch w) as [p [u [w1 [-> H1]]]].
  cbn [snd]. apply (extends_trans w w1); [exact H1|]. chain_extends.
Qed.

(** ** Reading the consensus *)


(** X14.  Every call of [receive_validator_report], also with an empty
    batch, resets the one clock of the cache: a read made less than a
    minute after the call returns the cached entry of the miner, however
    old that entry is, and makes no request to the store. *)
Theorem cached_entry_is_served_after_receive
    (clock : nat -> Z) (io_fails read_fails : nat -> bool) (seed : list nat)
    (fromisoformat : pyval -> parsed_datetime) (validator ep : Z)
    (batch : list payload) (w : World)
    (uid : pyval) (cached : status) (log : list read_op) :
  let w' := snd (receive_validator_report clock io_fails seed fromisoformat
                   validator batch ep w) in
  dict_get py_eqb uid (consensus_cache w') = Some cached ->
  (clock (clock_reads w') - clock (pred (clock_reads w')) < cache_ttl)%Z ->
  get_consensus_miner_status clock read_fails uid (log, w')
  = (Ok (Some cached), (log, tick_clock w')).
Proof.
  destruct (receive_final_state clock io_fails seed fromisoformat validator ep
              batch w) as [p [u [w1 [-> _]]]].
  cbn [snd]. intros Hcached Hfresh.
  unfold get_consensus_miner_status, try_except. cbn [snd].
  rewrite Hcached.
  unfold bind, in_frame, datetime_now, ret.
  cbn [snd put_last_cache_update tick_clock clock_reads last_cache_update pred]
    in Hfresh |- *.
  apply Z.ltb_lt in Hfresh. now rewrite Hfresh.
Qed.

Lemma cached_entry_is_served_after_receive_witness :
  get_consensus_miner_status scenario_clock reads_down (VInt 5)
    ([], snd (receive_validator_report scenario_clock store_up [] no_datetime
                7 [] 1 cached_world))
  = (Ok (Some [("stake", CVal (VFloat 100))]%string),
     ([], tick_clock (snd (receive_validator_report scenario_clock store_up []
                             no_datetime 7 [] 1 cached_world)))).
Proof.
  apply (cached_entry_is_served_after_receive scenario_clock store_up
           reads_down [] no_datetime 7 1 [] cached_world (VInt 5)).
  - reflexivity.
  - reflexivity.
Defined.

(** X15.  For an int uid and a store whose consensus documents are
    those of int uids: when the miner has no cache entry, or the cache
    clock is a minute old or more, a read makes exactly one request to
    the store and returns the status of the stored document, or [None]
    when there is no document or when the request fails: a cached entry
    is then ignored, and a failure of the store reads as "no
    consensus". *)
Theorem stale_cache_reads_the_store
    (clock : nat -> Z) (read_fails : nat -> bool)
    (uid : pyval) (log : list read_op) (w : World) :
  is_int uid = true ->
  int_keys (consensus_collection w) ->
  dict_get py_eqb uid (consensus_cache w) = None \/
  (cache_ttl <= clock (clock_reads w) - last_cache_update w)%Z ->
  let out := get_consensus_miner_status clock read_fails uid (log, w) in
  fst out
  = Ok (if read_fails (length log) then None
        else option_map cd_consensus_status
               (dict_get py_eqb uid (consensus_collection w))) /\
  fst (snd out) = log ++ [GetConsensus uid].
Proof.
  intros _ _ Hstale out. subst out.
  assert (let out := try_except (consensus_from_store read_fails uid)
                                (fun _ => ret None) (log, w) in
          fst out
          = Ok (if read_fails (length log) then None
                else option_map cd_consensus_status
                       (dict_get py_eqb uid (consensus_collection w))) /\
          fst (snd out) = log ++ [GetConsensus uid]) as Hcold.
  { unfold consensus_from_store, try_except, bind, store_read, ret.
    destruct (read_fails (length log)); [split; reflexivity|].
    destruct (dict_get py_eqb uid (consensus_collection w)) as [d|];
      split; reflexivity. }
  assert (let out := try_except (consensus_from_store read_fails uid)
                                (fun _ => ret None) (log, tick_clock w) in
          fst out
          = Ok (if read_fails (length log) then None
                else option_map cd_consensus_status
                       (dict_get py_eqb uid (consensus_collection w))) /\
          fst (snd out) = log ++ [GetConsensus uid]) as Hcold'.
  { unfold consensus_from_store, try_except, bind, store_read, ret.
    destruct (read_fails (length log)); [split; reflexivity|].
    cbn [tick_clock consensus_collection].
    destruct (dict_get py_eqb uid (consensus_collection w)) as [d|];
      split; reflexivity. }
  unfold get_consensus_miner_status. unfold try_except at 1 2.
  unfold try_except in Hcold, Hcold'. cbn [snd].
  destruct (dict_get py_eqb uid (consensus_cache w)) as [cached|] eqn:Ec.
  - destruct Hstale as [Hnone|Hold]; [discriminate|].
    unfold bind at 1 2. unfold in_frame, datetime_now.
    cbn [snd tick_clock last_cache_update].
    assert ((clock (clock_reads w) - last_cache_update w <? cache_ttl)%Z = false)
      as -> by (apply Z.ltb_ge; exact Hold).
    exact Hcold'.
  - exact Hcold.
Qed.

Lemma stale_cache_reads_the_store_witness :
  fst (get_consensus_miner_status scenario_clock reads_up (VInt 5)
         ([], consensus_world))
  = Ok (Some [("is_serving", CVal (VBool true))]%string) /\
  fst (get_consensus_miner_status scenario_clock reads_down (VInt 5)
         ([], consensus_world)) = Ok None /\
  fst (get_consensus_miner_status scenario_clock reads_up (VInt 5)
         ([], cached_world)) = Ok None.
Proof.
  split; [|split].
  - destruct (stale_cache_reads_the_store scenario_clock reads_up (VInt 5)
                [] consensus_world) as [H _];
      [reflexivity | repeat constructor | left; reflexivity|].
    exact H.
  - destruct (stale_cache_reads_the_store scenario_clock reads_down (VInt 5)
                [] consensus_world) as [H _];
      [reflexivity | repeat constructor | left; reflexivity|].
    exact H.
  - destruct (stale_cache_reads_the_store scenario_clock reads_up (VInt 5)
                [] cached_world) as [H _];
      [reflexivity | constructor | right; vm_compute; discriminate|].
    exact H.
Defined.

(** X16.  For an int uid that has no consensus document yet, in a
    store whose consensus documents are those of int uids (the write
    passes [merge=True], and there is nothing to merge with): after an
    update that returns 1, the store has one consensus document more,
    the cache entry and the stored document of the miner hold the same
    status, and a read whose request to the store (if it makes one)
    succeeds returns that status, by the cache or by the store. *)
Theorem read_after_update
    (clock : nat -> Z) (io_fails read_fails : nat -> bool) (seed : list nat)
    (uid : pyval) (w w' : World) (log : list read_op) :
  is_int uid = true ->
  int_keys (consensus_collection w) ->
  dict_get py_eqb uid (consensus_collection w) = None ->
  _update_miner_consensus clock io_fails seed uid w = (Ok 1%Z, w') ->
  read_fails (length log) = false ->
  int_keys (consensus_collection w') /\
  length (consensus_collection w') = S (length (consensus_collection w)) /\
  exists s doc,
    dict_get py_eqb uid (consensus_cache w') = Some s /\
    dict_get py_eqb uid (consensus_collection w') = Some doc /\
    cd_consensus_status doc = s /\
    fst (get_consensus_miner_status clock read_fails uid (log, w'))
    = Ok (Some s).
Proof.
  intros Huid Hkeys Hnew Hupd Hread.
  assert (int_keys (consensus_collection w') /\
          length (consensus_collection w') = S (length (consensus_collection w)))
    as [Hkeys' Hlength].
  { destruct (update_success_shape clock io_fails seed uid w w' Hupd)
      as [recent [w1 [w2 [s [_ [_ [_ [Hsame ->]]]]]]]].
    destruct Hsame as [_ [_ [Hcons _]]].
    cbn [put_cache put_consensus log_io tick_clock consensus_collection].
    rewrite Hcons. split.
    - apply (dict_set_Forall py_eqb is_int); assumption.
    - rewrite dict_set_length. unfold dict_mem. now rewrite Hnew. }
  split; [exact Hkeys'|]. split; [exact Hlength|].
  destruct (update_success_entries clock io_fails seed uid w w' Hupd)
    as [s [doc [Hcache [Hdoc [Hs _]]]]].
  exists s, doc. repeat split; try assumption.
  unfold get_consensus_miner_status, try_except. cbn [snd]. rewrite Hcache.
  unfold bind at 1. unfold in_frame, datetime_now.
  cbn [snd tick_clock last_cache_update].
  destruct (clock (clock_reads w') - last_cache_update w' <? cache_ttl)%Z;
    [reflexivity|].
  unfold consensus_from_store, bind, store_read, ret.
  rewrite Hread. cbn [tick_clock consensus_collection]. rewrite Hdoc.
  unfold in_frame, modify. cbn [fst]. now rewrite Hs.
Qed.

Lemma read_after_update_witness :
  exists s,
    fst (get_consensus_miner_status scenario_clock reads_up (VInt 5)
           ([], snd (_update_miner_consensus scenario_clock store_up []
                       (VInt 5) two_reports_world)))
    = Ok (Some s) /\
    sget "is_serving" s = Some (CVal (VBool true)).
Proof.
  destruct (read_after_update scenario_clock store_up reads_up [] (VInt 5)
              two_reports_world
              (snd (_update_miner_consensus scenario_clock store_up []
                      (VInt 5) two_reports_world)) [])
    as [_ [_ [s [doc [Hcache [_ [_ Hread]]]]]]].
  - reflexivity.
  - constructor.
  - reflexivity.
  - reflexivity.
  - reflexivity.
  - exists s. split; [exact Hread|].
    vm_compute in Hcache. inversion Hcache. reflexivity.
Defined.

Lemma listed_status_entries (d : ConsensusDoc) :
  sget "miner_uid" (listed_status d) = Some (CVal (cd_miner_uid d)) /\
  sget "consensus_confidence" (listed_status d)
  = Some (cd_consensus_confidence d) /\
  sget "last_consensus" (listed_status d) = Some (CTime (cd_last_consensus d)).
Proof.
  unfold listed_status. repeat split.
  - rewrite !sget_sset_other by discriminate. apply sget_sset_same.
  - rewrite sget_sset_other by discriminate. apply sget_sset_same.
  - apply sget_sset_same.
Qed.

(** X17.  The listing keeps a document only if its [miner_uid] is
    truthy: a miner with uid 0 is never listed.  Each listed record
    carries the uid and the [consensus_confidence] of its document. *)
Theorem listing_omits_falsy_uids
    (read_fails : nat -> bool) (log : list read_op) (w : World) :
  read_fails (length log) = false ->
  exists listed,
    fst (get_all_consensus_miners read_fails (log, w)) = Ok listed /\
    length listed
    = length (filter (fun d => truthy (cd_miner_uid (snd d)))
                     (consensus_collection w)) /\
    forall s, In s listed ->
      exists key d,
        In (key, d) (consensus_collection w) /\
        truthy (cd_miner_uid d) = true /\
        sget "miner_uid" s = Some (CVal (cd_miner_uid d)) /\
        sget "consensus_confidence" s = Some (cd_consensus_confidence d).
Proof.
  intro Hread.
  unfold get_all_consensus_miners, try_except, bind, store_read, ret.
  rewrite Hread. cbn [fst].
  eexists. split; [reflexivity|]. split.
  - induction (consensus_collection w) as [|[k d] docs IH]; [reflexivity|].
    cbn [map snd flat_map filter].
    destruct (truthy (cd_miner_uid d)); cbn [app length]; now rewrite IH.
  - intros s Hs. apply in_flat_map in Hs. destruct Hs as [d [Hd Hs]].
    apply in_map_iff in Hd. destruct Hd as [[key d'] [<- Hd]]. cbn [snd] in Hs.
    destruct (truthy (cd_miner_uid d')) eqn:Et; [|contradiction].
    destruct Hs as [<-|[]].
    exists key, d'. destruct (listed_status_entries d') as [H1 [H2 _]].
    auto.
Qed.

Lemma listing_omits_falsy_uids_witness :
  fst (get_all_consensus_miners reads_up ([], miner_zero_world)) = Ok [].
Proof.
  destruct (listing_omits_falsy_uids reads_up [] miner_zero_world)
    as [listed [Hlisted [Hlen _]]].
  - reflexivity.
  - rewrite Hlisted. destruct listed; [reflexivity | discriminate].
Defined.

(** X18.  For a miner of truthy uid whose consensus was just updated
    from reports without a field [confidence], the listing has a record
    of that miner whose [consensus_confidence] is 0.0: the value of the
    document replaces the one the calculation had put in the status. *)
Theorem listing_reports_zero_confidence
    (clock : nat -> Z) (io_fails read_fails : nat -> bool) (seed : list nat)
    (uid : pyval) (w w' : World) (log : list read_op) :
  _update_miner_consensus clock io_fails seed uid w = (Ok 1%Z, w') ->
  Forall (fun d => pmem "confidence" (miner_status (snd d)) = false)
         (validator_reports_collection w) ->
  truthy uid = true ->
  read_fails (length log) = false ->
  exists listed s,
    fst (get_all_consensus_miners read_fails (log, w')) = Ok listed /\
    In s listed /\
    sget "miner_uid" s = Some (CVal uid) /\
    sget "consensus_confidence" s = Some (CVal (VFloat 0)).
Proof.
  intros Hupd Hnone Htruthy Hread.
  destruct (update_success_shape clock io_fails seed uid w w' Hupd)
    as [recent [w1 [w2 [s [Hcalc [_ [Hsound [_ Hw']]]]]]]].
  assert (document_confidence s = CVal (VFloat 0)) as Hconf.
  { unfold document_confidence.
    rewrite (status_without_confidence clock seed uid recent w1 w2 s Hcalc);
      [reflexivity|].
    apply Forall_forall. intros r Hr. destruct (Hsound r Hr) as [id Hin].
    rewrite Forall_forall in Hnone. exact (Hnone (id, r) Hin). }
  set (doc := mkConsensusDoc uid s (clock (clock_reads w2)) (length recent)
                             (document_confidence s)) in *.
  assert (dict_get py_eqb uid (consensus_collection w') = Some doc) as Hdoc.
  { rewrite Hw'. cbn [put_cache put_consensus consensus_collection].
    apply dict_get_set_same, py_eqb_refl. }
  destruct (dict_get_In py_eqb uid doc _ Hdoc) as [key [Hin _]].
  unfold get_all_consensus_miners, try_except, bind, store_read, ret.
  rewrite Hread. cbn [fst].
  eexists. exists (listed_status doc). split; [reflexivity|]. split.
  - apply in_flat_map. exists doc. split.
    + apply in_map_iff. exists (key, doc). auto.
    + change (cd_miner_uid doc) with uid. rewrite Htruthy. now left.
  - destruct (listed_status_entries doc) as [H1 [H2 _]].
    rewrite H1, H2.
    change (cd_consensus_confidence doc) with (document_confidence s).
    now rewrite Hconf.
Qed.

Lemma listing_reports_zero_confidence_witness :
  exists listed s c,
    fst (get_all_consensus_miners reads_up
           ([], snd (_update_miner_consensus scenario_clock store_up []
                       (VInt 5) two_reports_world))) = Ok listed /\
    In s listed /\
    sget "consensus_confidence" s = Some (CVal (VFloat 0)) /\
    sget "consensus_confidence"
      (match dict_get py_eqb (VInt 5)
               (consensus_cache
                  (snd (_update_miner_consensus scenario_clock store_up []
                          (VInt 5) two_reports_world))) with
       | Some cached => cached
       | None => []
       end) = Some (CVal (VFloat c)) /\
    c == 0.95.
Proof.
  destruct (listing_reports_zero_confidence scenario_clock store_up reads_up
              [] (VInt 5) two_reports_world
              (snd (_update_miner_consensus scenario_clock store_up []
                      (VInt 5) two_reports_world)) [])
    as [listed [s [Hl [Hin [_ Hc]]]]].
  - reflexivity.
  - repeat constructor.
  - reflexivity.
  - reflexivity.
  - exists listed, s. eexists. split; [exact Hl|]. split; [exact Hin|].
    split; [exact Hc|]. split; [vm_compute; reflexivity | reflexivity].
Defined.

(** ** The statistics *)

Lemma dedup_Z_length (l : list Z) : (length (dedup Z.eqb l) <= length l)%nat.
Proof.
  induction l as [|x l IH]; cbn [dedup length]; [lia|].
  pose proof (filter_length_le (fun y => negb (Z.eqb x y)) (dedup Z.eqb l)).
  lia.
Qed.

Lemma confidence_numbers_zero (cs : list cval) :
  Forall (fun c => c = CVal (VFloat 0)) cs ->
  exists xs, confidence_numbers cs = Some xs /\ sumQ xs == 0.
Proof.
  induction 1 as [|c cs Hc _ [xs [Hxs Hsum]]].
  - exists []. split; reflexivity.
  - subst c. cbn [confidence_numbers confidence_number num_of]. rewrite Hxs.
    exists (0 :: xs). split; [reflexivity|]. rewrite sumQ_cons, Hsum. ring.
Qed.

(** The fields of the statistics that do not depend on the scores. *)
Ltac stats_fields :=
  cbn [total_validator_reports consensus_miners active_validators
       average_consensus_confidence consensus_timeout_minutes
       stats_min_consensus_validators fst snd];
  split; [apply length_map|];
  split; [apply length_map|];
  split; [rewrite (length_map snd (validator_reports_collection _));
          etransitivity; [apply dedup_Z_length|];
          rewrite length_map;
          etransitivity; [apply filter_length_le|];
          now rewrite length_map|];
  split; [vm_compute; reflexivity|];
  split; [reflexivity|];
  split; [repeat split|];
  split; [rewrite !length_app; cbn [length]; lia|].

(** X19.  When the statistics are returned, the totals are the sizes
    of the two collections, the number of active validators is at most
    the number of reports, the timeout is 5 minutes and the minimum 2,
    four requests were made, the data of the manager is unchanged, and
    the average confidence is 0 when every document has confidence
    0.0. *)
Theorem stats_agree_with_the_store
    (clock : nat -> Z) (read_fails : nat -> bool)
    (log : list read_op) (w : World) (st : Stats) (out : Reader) :
  get_validator_report_stats clock read_fails (log, w) = (Ok (Some st), out) ->
  total_validator_reports st = length (validator_reports_collection w) /\
  consensus_miners st = length (consensus_collection w) /\
  (active_validators st <= total_validator_reports st)%nat /\
  consensus_timeout_minutes st == 5 /\
  stats_min_consensus_validators st = min_consensus_validators /\
  same_data w (snd out) /\
  length (fst out) = (length log + 4)%nat /\
  (Forall (fun d => cd_consensus_confidence (snd d) = CVal (VFloat 0))
          (consensus_collection w) ->
   average_consensus_confidence st == 0).
Proof.
  unfold get_validator_report_stats, try_except.
  unfold bind at 1. unfold store_read at 1.
  destruct (read_fails (length log)); [discriminate|].
  unfold bind at 1. unfold store_read at 1.
  destruct (read_fails (length (log ++ [ScanReports]))); [discriminate|].
  unfold bind at 1. unfold in_frame, datetime_now.
  unfold bind at 1. unfold store_read at 1.
  destruct (read_fails _); [discriminate|].
  unfold bind at 1. unfold store_read at 1.
  destruct (read_fails _); [discriminate|].
  cbn [tick_clock validator_reports_collection consensus_collection].
  set (scores := map cd_consensus_confidence (map snd (consensus_collection w))).
  assert (Forall (fun d => cd_consensus_confidence (snd d) = CVal (VFloat 0))
                 (consensus_collection w) ->
          Forall (fun c => c = CVal (VFloat 0)) scores) as Hscores.
  { intro H. unfold scores. apply Forall_forall. intros c Hc.
    apply in_map_iff in Hc. destruct Hc as [d [<- Hd]].
    apply in_map_iff in Hd. destruct Hd as [[k d'] [<- Hd]].
    rewrite Forall_forall in H. exact (H _ Hd). }
  unfold bind, ret, raise.
  destruct scores as [|c cs] eqn:Es.
  - intro H. inversion H; subst st out; clear H. stats_fields.
    intros _. reflexivity.
  - destruct (confidence_numbers (c :: cs)) as [xs|] eqn:En; [|discriminate].
    intro H. inversion H; subst st out; clear H. stats_fields.
    intro Hzero. destruct (confidence_numbers_zero _ (Hscores Hzero))
      as [xs' [Hxs' Hsum]].
    rewrite En in Hxs'. inversion Hxs'; subst xs'.
    rewrite Hsum. unfold Qdiv. ring.
Qed.

Lemma stats_agree_with_the_store_witness :
  exists st,
    fst (get_validator_report_stats scenario_clock reads_up
           ([], snd (_update_miner_consensus scenario_clock store_up []
                       (VInt 5) two_reports_world)))
    = Ok (Some st) /\
    total_validator_reports st = 2%nat /\
    consensus_miners st = 1%nat /\
    active_validators st = 2%nat /\
    average_consensus_confidence st == 0.
Proof.
  edestruct (stats_agree_with_the_store scenario_clock reads_up []
               (snd (_update_miner_consensus scenario_clock store_up []
                       (VInt 5) two_reports_world)))
    as (H1 & H2 & H3 & H4 & H5 & H6 & H7 & H8).
  - vm_compute. reflexivity.
  - eexists. split; [vm_compute; reflexivity|].
    split; [reflexivity|]. split; [reflexivity|]. split; [reflexivity|].
    apply H8. repeat constructor.
Defined.

(** X20.  If any one of the four requests of the statistics fails,
    the result is the empty dict. *)
Theorem stats_fail_closed
    (clock : nat -> Z) (read_fails : nat -> bool)
    (log : list read_op) (w : World) (k : nat) :
  (k < 4)%nat ->
  read_fails (length log + k)%nat = true ->
  fst (get_validator_report_stats clock read_fails (log, w)) = Ok None.
Proof.
  intros Hk Hfail.
  unfold get_validator_report_stats, try_except.
  unfold bind at 1. unfold store_read at 1.
  destruct (read_fails (length log)) eqn:E0; [reflexivity|].
  unfold bind at 1. unfold store_read at 1.
  rewrite length_app. cbn [length].
  destruct (read_fails (length log + 1)%nat) eqn:E1; [reflexivity|].
  unfold bind at 1. unfold in_frame, datetime_now.
  unfold bind at 1. unfold store_read at 1.
  rewrite !length_app. cbn [length].
  destruct (read_fails (length log + 1 + 1)%nat) eqn:E2; [reflexivity|].
  unfold bind at 1. unfold store_read at 1.
  rewrite !length_app. cbn [length].
  destruct (read_fails (length log + 1 + 1 + 1)%nat) eqn:E3; [reflexivity|].
  exfalso.
  assert (k = 0 \/ k = 1 \/ k = 2 \/ k = 3)%nat as Hcases by lia.
  destruct Hcases as [Hk0|[Hk0|[Hk0|Hk0]]]; subst k.
  - rewrite Nat.add_0_r in Hfail. congruence.
  - congruence.
  - replace (length log + 2)%nat with (length log + 1 + 1)%nat in Hfail by lia.
    congruence.
  - replace (length log + 3)%nat with (length log + 1 + 1 + 1)%nat in Hfail
      by lia.
    congruence.
Qed.

Lemma stats_fail_closed_witness :
  fst (get_validator_report_stats scenario_clock reads_down ([], empty_world))
  = Ok None.
Proof.
  apply (stats_fail_closed scenario_clock reads_down [] empty_world 0).
  - lia.
  - reflexivity.
Defined.

(** ** The metadata of a consensus *)

(** X21.  When the loop over the fields completes on a non-empty list
    of reports, the status names each reporting validator exactly once
    under [consensus_validators] and holds the overall confidence, the
    conflicts and the time of the calculation under their keys,
    whatever fields the reports carry under these names. *)
Theorem consensus_metadata
    (clock : nat -> Z) (seed : list nat) (uid : pyval)
    (reports : list ValidatorReport) (w : World)
    (cs : status) (cf : list (string * bool)) :
  reports <> [] ->
  consensus_fields reports (all_fields seed reports) = Ok (cs, cf) ->
  exists s validators,
    fst (_calculate_consensus_status clock seed uid reports w) = Ok s /\
    sget "consensus_validators" s = Some (CValidators validators) /\
    NoDup validators /\
    (forall v, In v validators <->
               exists r, In r reports /\ validator_uid r = v) /\
    sget "consensus_confidence" s
    = Some (CVal (VFloat (_calculate_overall_confidence reports))) /\
    sget "conflicts_detected" s = Some (CConflicts cf) /\
    sget "consensus_timestamp" s = Some (CTime (clock (clock_reads w))).
Proof.
  intros Hne Hloop.
  rewrite (calculate_consensus_status_ok clock seed uid reports w cs cf
             Hne Hloop).
  cbn [fst]. eexists. exists (dedup Z.eqb (map validator_uid reports)).
  split; [reflexivity|].
  split; [rewrite !sget_sset_other by discriminate; apply sget_sset_same|].
  split; [apply dedup_Z_NoDup|].
  split.
  - intro v. rewrite In_dedup_Z, in_map_iff. split.
    + intros [r [Hv Hr]]. eauto.
    + intros [r [Hr Hv]]. eauto.
  - split; [rewrite !sget_sset_other by discriminate; apply sget_sset_same|].
    split; [apply sget_sset_same|].
    rewrite !sget_sset_other by discriminate. apply sget_sset_same.
Qed.

Lemma consensus_metadata_witness :
  exists s,
    fst (_calculate_consensus_status scenario_clock [] (VInt 5)
           [report_v1; report_v2] empty_world) = Ok s /\
    sget "consensus_validators" s = Some (CValidators [1; 2]%Z).
Proof.
  edestruct (consensus_metadata scenario_clock [] (VInt 5)
               [report_v1; report_v2] empty_world)
    as [s [validators [Hs [Hv _]]]].
  - discriminate.
  - vm_compute. reflexivity.
  - exists s. split; [exact Hs|].
    vm_compute in Hs. inversion Hs; subst s. reflexivity.
Defined.
